(** * DeepResearch-MCP: request validation, sanitization, research client,
      request handler and rate limiter

    A shallow embedding of [src/modules/validation.ts] (validator, rate
    limiter), [src/modules/openai-client.ts] and the request handler of
    [src/modules/mcp-server.ts].

    Conventions of the embedding.
    - A JavaScript string is the list of its UTF-16 code units ([jsstring]);
      [js "..."] turns an ASCII literal of the source into one.
    - Regular-expression literals of the source are terms of [regex];
      [RegExp.prototype.test] is [test] and [String.prototype.replace] with a
      [/g] pattern is [replace_all].
    - Side effects that the properties speak about (log records of severity
      warn and error, calls of the research client, of the external API and
      of the rate limiter) are recorded in a trace; exceptions are explicit.
      A log record is kept as its severity and message, without its
      metadata object; [logger.info] and [logger.debug] calls carry no
      control flow and are left out.
    - Built-ins whose tables are too large to spell out
      ([String.prototype.toLowerCase], [JSON.stringify], the text heuristics
      that fill summary fields) are variables of the sections using them. *)

From Stdlib Require Import ZArith NArith QArith List String Ascii Bool Lia.
From Stdlib Require Import Qround Qabs Qminmax Qpower Lqa DecimalString Floats.
From Stdlib Require Import DecimalN.
From stdpp Require Import gmap.
Import ListNotations.

Local Open Scope N_scope.
Local Open Scope list_scope.

(* ===================================================================== *)
(** * Strings                                                            *)
(* ===================================================================== *)

Module JsString.

Definition jsstring := list N.

(** An ASCII literal of the source as a list of code units. *)
Definition js (s : string) : jsstring :=
  map N_of_ascii (list_ascii_of_string s).

(** [String(n)] for a non-negative integer below 10^21: its decimal
    digits. *)
Definition Number_toString (n : N) : jsstring :=
  js (NilZero.string_of_uint (N.to_uint n)).

Definition code_eqb (a b : N) : bool := N.eqb a b.

Definition in_range (lo hi c : N) : bool := (lo <=? c) && (c <=? hi).

Definition is_upper (c : N) : bool := in_range 65 90 c.
Definition is_lower (c : N) : bool := in_range 97 122 c.
Definition is_digit (c : N) : bool := in_range 48 57 c.

(** [\w] without the [u] flag: [[A-Za-z0-9_]]. *)
Definition is_word (c : N) : bool :=
  is_upper c || is_lower c || is_digit c || code_eqb c 95.

(** [\s], and the characters removed by [trim]: WhiteSpace and
    LineTerminator of ECMA-262. *)
Definition is_space (c : N) : bool :=
  in_range 9 13 c || code_eqb c 32 || code_eqb c 160 || code_eqb c 5760
  || in_range 8192 8202 c || code_eqb c 8232 || code_eqb c 8233
  || code_eqb c 8239 || code_eqb c 8287 || code_eqb c 12288
  || code_eqb c 65279.

(** LineTerminator: what [.] does not match. *)
Definition is_line_terminator (c : N) : bool :=
  code_eqb c 10 || code_eqb c 13 || code_eqb c 8232 || code_eqb c 8233.

(** Canonicalisation of the [i] flag on ASCII letters.  Without the [u]
    flag a code unit above 127 never canonicalises to an ASCII one, so a
    pattern letter matches exactly its two ASCII cases. *)
Definition ascii_upper (c : N) : N := if is_lower c then c - 32 else c.

Definition eqb_ci (a b : N) : bool := code_eqb (ascii_upper a) (ascii_upper b).

Fixpoint drop_while (p : N -> bool) (s : jsstring) : jsstring :=
  match s with
  | [] => []
  | c :: s' => if p c then drop_while p s' else s
  end.

Definition trimStart (s : jsstring) : jsstring := drop_while is_space s.
Definition trimEnd (s : jsstring) : jsstring := rev (drop_while is_space (rev s)).

(** [String.prototype.trim]. *)
Definition trim (s : jsstring) : jsstring := trimEnd (trimStart s).

(** [s.substring(0, n)]. *)
Definition substring0 (n : nat) (s : jsstring) : jsstring := firstn n s.

Fixpoint starts_with (p s : jsstring) : bool :=
  match p, s with
  | [], _ => true
  | _ :: _, [] => false
  | a :: p', b :: s' => code_eqb a b && starts_with p' s'
  end.

(** [hay.includes(needle)]. *)
Fixpoint includes (needle hay : jsstring) : bool :=
  starts_with needle hay
  || match hay with
     | [] => false
     | _ :: hay' => includes needle hay'
     end.

(** [xs.join(sep)] on strings. *)
Fixpoint join (sep : jsstring) (xs : list jsstring) : jsstring :=
  match xs with
  | [] => []
  | [x] => x
  | x :: rest => x ++ sep ++ join sep rest
  end.

(** Falsy strings are the empty ones. *)
Definition truthy_string (s : jsstring) : bool :=
  match s with [] => false | _ => true end.

End JsString.
Export JsString.

(* ===================================================================== *)
(** * Regular expressions                                                *)
(* ===================================================================== *)

Module Regex.

(** The fragment used by the source: character classes, concatenation,
    alternation and iteration.  Matching goes through Brzozowski
    derivatives, so it is total and independent of backtracking order;
    for a pattern without captures [test] only asks whether some
    substring is in the language. *)
Inductive regex : Type :=
| Void : regex
| Eps : regex
| Class : (N -> bool) -> regex
| Cat : regex -> regex -> regex
| Alt : regex -> regex -> regex
| Star : regex -> regex.

Fixpoint nullable (r : regex) : bool :=
  match r with
  | Void => false
  | Eps => true
  | Class _ => false
  | Cat a b => nullable a && nullable b
  | Alt a b => nullable a || nullable b
  | Star _ => true
  end.

Definition is_void (r : regex) : bool :=
  match r with Void => true | _ => false end.

Definition cat (a b : regex) : regex :=
  match a, b with
  | Void, _ => Void
  | _, Void => Void
  | Eps, _ => b
  | _, _ => Cat a b
  end.

Definition alt (a b : regex) : regex :=
  match a, b with
  | Void, _ => b
  | _, Void => a
  | _, _ => Alt a b
  end.

Fixpoint deriv (c : N) (r : regex) : regex :=
  match r with
  | Void => Void
  | Eps => Void
  | Class p => if p c then Eps else Void
  | Cat a b =>
      alt (cat (deriv c a) b) (if nullable a then deriv c b else Void)
  | Alt a b => alt (deriv c a) (deriv c b)
  | Star a => cat (deriv c a) (Star a)
  end.

(** Some prefix of [s] is in the language of [r]. *)
Fixpoint match_prefix (r : regex) (s : jsstring) : bool :=
  nullable r
  || match s with
     | [] => false
     | c :: s' => if is_void r then false else match_prefix (deriv c r) s'
     end.

(** [r.test(s)] for a pattern without anchors and without the [g] flag:
    some substring of [s] matches. *)
Fixpoint test (r : regex) (s : jsstring) : bool :=
  match_prefix r s
  || match s with
     | [] => false
     | _ :: s' => test r s'
     end.

(** Length of the longest prefix of [s] in the language of [r]; [n] counts
    the code units consumed so far. *)
Fixpoint longest_from (r : regex) (s : jsstring) (n : nat) (best : option nat)
  : option nat :=
  let best' := if nullable r then Some n else best in
  match s with
  | [] => best'
  | c :: s' =>
      if is_void r then best' else longest_from (deriv c r) s' (S n) best'
  end.

Definition longest (r : regex) (s : jsstring) : option nat :=
  longest_from r s 0%nat None.

(** [s.replace(/r/g, repl)] for patterns whose match at a position is the
    longest one (every quantifier of the source's patterns is greedy and is
    followed by a disjoint class) and is never empty.  [skip] counts the
    code units of the current match still to be dropped. *)
Fixpoint replace_all_from (r : regex) (repl : jsstring) (s : jsstring)
  (skip : nat) : jsstring :=
  match s with
  | [] => []
  | c :: s' =>
      match skip with
      | S k => replace_all_from r repl s' k
      | O =>
          match longest r s with
          | Some (S k) => repl ++ replace_all_from r repl s' k
          | _ => c :: replace_all_from r repl s' 0%nat
          end
      end
  end.

Definition replace_all (r : regex) (repl : jsstring) (s : jsstring) : jsstring :=
  replace_all_from r repl s 0%nat.

(** Number of non-overlapping matches, as in [(s.match(/r/g) || []).length],
    under the same provisos as [replace_all]. *)
Fixpoint count_matches_from (r : regex) (s : jsstring) (skip : nat) : nat :=
  match s with
  | [] => 0%nat
  | _ :: s' =>
      match skip with
      | S k => count_matches_from r s' k
      | O =>
          match longest r s with
          | Some (S k) => S (count_matches_from r s' k)
          | _ => count_matches_from r s' 0%nat
          end
      end
  end.

Definition count_matches (r : regex) (s : jsstring) : nat :=
  count_matches_from r s 0%nat.

(** The language of a pattern, to state what the matcher decides. *)
Inductive lang : regex -> jsstring -> Prop :=
| lang_eps : lang Eps []
| lang_class (p : N -> bool) (c : N) : p c = true -> lang (Class p) [c]
| lang_cat (a b : regex) (u v : jsstring) :
    lang a u -> lang b v -> lang (Cat a b) (u ++ v)
| lang_alt_l (a b : regex) (u : jsstring) : lang a u -> lang (Alt a b) u
| lang_alt_r (a b : regex) (u : jsstring) : lang b u -> lang (Alt a b) u
| lang_star_nil (a : regex) : lang (Star a) []
| lang_star_cons (a : regex) (u v : jsstring) :
    lang a u -> lang (Star a) v -> lang (Star a) (u ++ v).

(** Pattern builders. *)
Definition chr (c : N) : regex := Class (code_eqb c).
Definition chr_ci (c : N) : regex := Class (eqb_ci c).

Fixpoint lit (s : jsstring) : regex :=
  match s with
  | [] => Eps
  | c :: s' => Cat (chr c) (lit s')
  end.

Fixpoint lit_ci (s : jsstring) : regex :=
  match s with
  | [] => Eps
  | c :: s' => Cat (chr_ci c) (lit_ci s')
  end.

Definition plus (r : regex) : regex := Cat r (Star r).

Definition space : regex := Class is_space.
Definition word : regex := Class is_word.
Definition digit : regex := Class is_digit.

End Regex.
Export Regex.

(* ===================================================================== *)
(** * Numbers                                                            *)
(* ===================================================================== *)

Module JsNumber.

(** A JavaScript number is a binary64 float.  Integers enter through
    [Z_to_number], which rounds to nearest even like the engine does (and is
    exact below 2^53). *)
Definition Z_to_number (z : Z) : float :=
  SF2Prim (binary_normalize prec emax z 0 false).

Definition N_to_number (n : N) : float := Z_to_number (Z.of_N n).
Definition nat_to_number (n : nat) : float := Z_to_number (Z.of_nat n).

(** [a > b] on numbers. *)
Definition gt (a b : float) : bool := PrimFloat.ltb b a.

(** Request parameters are finite numbers; they are only ever compared, so
    they are carried as the rationals they denote. *)
Definition Qltb (a b : Q) : bool := negb (Qle_bool b a).
Definition Qgtb (a b : Q) : bool := Qltb b a.
Definition Qtruthy (a : Q) : bool := negb (Qeq_bool a 0).

(** [Number.isInteger]. *)
Definition Qis_integer (a : Q) : bool :=
  Z.eqb (Z.modulo (Qnum a) (Zpos (Qden a))) 0.

End JsNumber.
Export JsNumber.

(* ===================================================================== *)
(** * Data model                                                         *)
(* ===================================================================== *)

Inductive AccuracyLevel : Type := high | medium.

Inductive ResponseFormat : Type := comprehensive | summary | bullet_points.

Definition AccuracyLevel_toString (a : AccuracyLevel) : jsstring :=
  match a with high => js "high" | medium => js "medium" end.

(** [DoDeepResearchRequest]: the static type of the handler's argument.
    Optional fields are [None] when [undefined]. *)
Record DoDeepResearchRequest : Type := {
  research_query : jsstring;
  accuracy_level : AccuracyLevel;
  max_tokens : option Q;
  temperature : option Q;
  include_sources : option bool;
  response_format : option ResponseFormat
}.

Record ValidationError : Type := {
  field : jsstring;
  message : jsstring;
  code : jsstring
}.

(** [ValidationResult<T>]: the two shapes the validator builds,
    [{isValid: true, data}] and [{isValid: false, errors}]. *)
Inductive ValidationResult (T : Type) : Type :=
| Valid (data : T)
| Invalid (errors : list ValidationError).
Arguments Valid {T} data.
Arguments Invalid {T} errors.

Definition isValid {T} (r : ValidationResult T) : bool :=
  match r with Valid _ => true | Invalid _ => false end.

Definition errors_of {T} (r : ValidationResult T) : list ValidationError :=
  match r with Valid _ => [] | Invalid es => es end.

(* ===================================================================== *)
(** * Effects: trace and exceptions                                      *)
(* ===================================================================== *)

Module Effects.

Inductive Severity : Type := SevWarn | SevError.

(** A thrown value: an [Error] instance with its message, or anything else
    with its [String(...)] rendering. *)
Inductive Thrown : Type :=
| ErrorObject (msg : jsstring)
| OtherValue (text : jsstring).

(** [error instanceof Error ? error.message : String(error)] *)
Definition thrown_text (e : Thrown) : jsstring :=
  match e with ErrorObject m => m | OtherValue t => t end.

Inductive Event : Type :=
| Logged (sev : Severity) (msg : jsstring)
| Call_performDeepResearch (req : DoDeepResearchRequest)
| Call_responses_create (model input : jsstring)
| Call_checkRateLimit (clientId : jsstring) (level : AccuracyLevel)
| Call_recordRequest (clientId : jsstring) (level : AccuracyLevel).

Inductive Outcome (A : Type) : Type :=
| Returned (a : A)
| Threw (e : Thrown).
Arguments Returned {A} a.
Arguments Threw {A} e.

(** A computation: the events it performed, in order, and how it ended. *)
Definition M (A : Type) : Type := (list Event * Outcome A)%type.

Definition ret {A} (a : A) : M A := ([], Returned a).

Definition bind {A B} (m : M A) (k : A -> M B) : M B :=
  match m with
  | (t, Returned a) => let (t', o) := k a in (t ++ t', o)
  | (t, Threw e) => (t, Threw e)
  end.

Definition emit (e : Event) : M unit := ([e], Returned tt).
Definition log (sev : Severity) (msg : string) : M unit :=
  emit (Logged sev (js msg)).
Definition throw {A} (e : Thrown) : M A := ([], Threw e).

(** [try { body } catch (error) { handler(error) }] *)
Definition try_catch {A} (body : M A) (handler : Thrown -> M A) : M A :=
  match body with
  | (t, Returned a) => (t, Returned a)
  | (t, Threw e) => let (t', o) := handler e in (t ++ t', o)
  end.

Definition trace {A} (m : M A) : list Event := fst m.
Definition outcome {A} (m : M A) : Outcome A := snd m.

Definition is_client_call (e : Event) : bool :=
  match e with
  | Call_performDeepResearch _ | Call_responses_create _ _ => true
  | _ => false
  end.

Definition is_api_call (e : Event) : bool :=
  match e with Call_responses_create _ _ => true | _ => false end.

Definition is_limiter_call (e : Event) : bool :=
  match e with
  | Call_checkRateLimit _ _ | Call_recordRequest _ _ => true
  | _ => false
  end.

Definition is_log (e : Event) : bool :=
  match e with Logged _ _ => true | _ => false end.

Definition is_error_log (e : Event) : bool :=
  match e with Logged SevError _ => true | _ => false end.

(** How often the trace of a computation holds an event of a given kind. *)
Definition count_events (p : Event -> bool) (t : list Event) : nat :=
  List.length (List.filter p t).

End Effects.
Export Effects.

Notation "'let*' x ':=' c 'in' k" := (bind c (fun x => k))
  (at level 10, x name, c at level 100, k at level 200).

(* ===================================================================== *)
(** * Validator ([ResearchRequestValidator])                             *)
(* ===================================================================== *)

Module Validation.

(** ** Zod schemas

    The issue codes are Zod's ([too_small], [too_big], [invalid_string],
    [invalid_type], [custom]).  Checks of one schema all run and their
    issues accumulate in declaration order; a [refine] runs as long as the
    value has the right type. *)

Definition issue (path msg code : string) : ValidationError :=
  {| field := js path; message := js msg; code := js code |}.

Definition check (failed : bool) (e : ValidationError) : list ValidationError :=
  if failed then [e] else [].

(** [/^[^<>]*$/] *)
Definition no_angle_brackets (s : jsstring) : bool :=
  forallb (fun c => negb (code_eqb c 60 || code_eqb c 62)) s.

(** [ResearchQuerySchema] *)
Definition ResearchQuerySchema (query : jsstring) : list ValidationError :=
  check (Nat.ltb (List.length query) 10)
    (issue "research_query" "Research query must be at least 10 characters"
       "too_small")
  ++ check (Nat.ltb 2000 (List.length query))
    (issue "research_query" "Research query must not exceed 2000 characters"
       "too_big")
  ++ check (negb (no_angle_brackets query))
    (issue "research_query" "Research query cannot contain HTML/XML tags"
       "invalid_string")
  ++ check (negb (Nat.leb 10 (List.length (trim query))))
    (issue "research_query" "Research query must contain meaningful content"
       "custom").

(** [MaxTokensSchema.optional()]: an absent value stays absent. *)
Definition MaxTokensSchema (v : option Q) : list ValidationError :=
  match v with
  | None => []
  | Some n =>
      check (negb (Qis_integer n))
        (issue "max_tokens" "Max tokens must be an integer" "invalid_type")
      ++ check (Qltb n 500)
        (issue "max_tokens" "Max tokens must be at least 500" "too_small")
      ++ check (Qgtb n 8000)
        (issue "max_tokens" "Max tokens cannot exceed 8000" "too_big")
  end.

(** [TemperatureSchema.optional()] *)
Definition TemperatureSchema (v : option Q) : list ValidationError :=
  match v with
  | None => []
  | Some t =>
      check (Qltb t 0)
        (issue "temperature" "Temperature must be at least 0" "too_small")
      ++ check (Qgtb t 1)
        (issue "temperature" "Temperature cannot exceed 1" "too_big")
  end.

(** Issues of [DoDeepResearchSchema.parse(data)], in the order of the
    object's keys.  [accuracy_level], [include_sources] and
    [response_format] cannot fail on a value of the static type. *)
Definition DoDeepResearchSchema_issues (data : DoDeepResearchRequest)
  : list ValidationError :=
  ResearchQuerySchema (research_query data)
  ++ MaxTokensSchema (max_tokens data)
  ++ TemperatureSchema (temperature data).

(** The parsed value: defaults filled in for [include_sources] and
    [response_format]. *)
Definition DoDeepResearchSchema_output (data : DoDeepResearchRequest)
  : DoDeepResearchRequest :=
  {| research_query := research_query data;
     accuracy_level := accuracy_level data;
     max_tokens := max_tokens data;
     temperature := temperature data;
     include_sources :=
       Some (match include_sources data with Some b => b | None => true end);
     response_format :=
       Some (match response_format data with
             | Some f => f
             | None => comprehensive
             end) |}.

(** [DoDeepResearchSchema.parse]: the value, or the issues of the
    [ZodError] it throws. *)
Definition DoDeepResearchSchema_parse (data : DoDeepResearchRequest)
  : list ValidationError + DoDeepResearchRequest :=
  match DoDeepResearchSchema_issues data with
  | [] => inr (DoDeepResearchSchema_output data)
  | es => inl es
  end.

(** ** Content safety *)

Definition dangerousPatterns : list regex :=
  [ lit_ci (js "javascript:");                               (* /javascript:/i *)
    lit_ci (js "<script");                                   (* /<script/i *)
    lit_ci (js "eval(");                                     (* /eval\(/i *)
    Cat (lit_ci (js "function")) (Cat (Star space) (chr 40)); (* /function\s*\(/i *)
    Cat (lit_ci (js "on"))
      (Cat (plus word) (Cat (Star space) (chr 61)));         (* /on\w+\s*=/i *)
    lit_ci (js "data:text/html") ].                          (* /data:text\/html/i *)

(** The loop over [dangerousPatterns] pushes one error at the first
    pattern that matches. *)
Definition matches_dangerous (query : jsstring) : bool :=
  existsb (fun pattern => test pattern query) dangerousPatterns.

(** The negated class of the special-character pattern: anything but
    letters, digits, [\s] and the punctuation [. , ! ? ; : ( ) -], the
    apostrophe and the double quote. *)
Definition is_special (c : N) : bool :=
  negb (is_upper c || is_lower c || is_digit c || is_space c
        || existsb (code_eqb c) [46; 44; 33; 63; 59; 58; 40; 41; 45; 39; 34]).

Definition specialCharCount (query : jsstring) : nat :=
  List.length (List.filter is_special query).

(** [n] more copies of [w] start [s]. *)
Fixpoint repeats (w : jsstring) (n : nat) (s : jsstring) : bool :=
  match n with
  | O => true
  | S n' => starts_with w s && repeats w n' (skipn (List.length w) s)
  end.

(** A block of some length between 3 and [3 + fuel] without line
    terminator starts [s] and is followed by three more copies. *)
Fixpoint repeated_block_at (s : jsstring) (len fuel : nat) : bool :=
  (Nat.leb len (List.length s)
   && forallb (fun c => negb (is_line_terminator c)) (firstn len s)
   && repeats (firstn len s) 3 (skipn len s))
  || match fuel with
     | O => false
     | S fuel' => repeated_block_at s (S len) fuel'
     end.

(** [query.match(/(.{3,})\1{3,}/g)] is not [null]. *)
Fixpoint has_repetition (s : jsstring) : bool :=
  repeated_block_at s 3 (List.length s)
  || match s with
     | [] => false
     | _ :: s' => has_repetition s'
     end.

Definition security_error : ValidationError :=
  issue "research_query" "Research query contains potentially unsafe content"
    "security".

Definition format_error : ValidationError :=
  issue "research_query" "Research query contains too many special characters"
    "format".

Definition spam_error : ValidationError :=
  issue "research_query" "Research query contains excessive repetition" "spam".

(** [validateContentSafety] *)
Definition validateContentSafety (query : jsstring) : ValidationResult jsstring :=
  let errors :=
    check (matches_dangerous query) security_error
    ++ check (gt (nat_to_number (specialCharCount query))
                (PrimFloat.mul (nat_to_number (List.length query))
                   0x1.999999999999ap-3%float (* 0.2 *)))
         format_error
    ++ check (has_repetition query) spam_error in
  match errors with
  | [] => Valid query
  | _ => Invalid errors
  end.

(** ** Business rules, the validator's entry point and sanitization *)

Inductive Complexity : Type := complexity_low | complexity_medium | complexity_high.

Definition max_tokens_error : ValidationError :=
  issue "max_tokens"
    "High accuracy research typically requires at least 2000 tokens for quality results"
    "business_rule".

(** The message holds three non-ASCII code units before [0.5]. *)
Definition temperature_error : ValidationError :=
  {| field := js "temperature";
     message :=
       js "High accuracy research works best with lower temperature ("
       ++ [226; 8240; 164] ++ js " 0.5)";
     code := js "business_rule" |}.

Definition technicalTerms : list jsstring :=
  map js [ "analysis"; "comparison"; "evaluation"; "methodology"; "framework";
           "implementation"; "architecture"; "algorithm"; "optimization";
           "research"; "study"; "investigation"; "assessment"; "review" ]%string.

Definition topicIndicators : list jsstring :=
  map js [ "and"; "or"; "versus"; "vs"; "compared to"; "as well as" ]%string.

Definition is_high (a : AccuracyLevel) : bool :=
  match a with high => true | medium => false end.

Definition is_medium (a : AccuracyLevel) : bool := negb (is_high a).

Section Validator.

(** [String.prototype.toLowerCase] *)
Variable toLowerCase : jsstring -> jsstring.

(** [assessQueryComplexity] *)
Definition assessQueryComplexity (query : jsstring) : Complexity :=
  let len := List.length query in
  let s1 := if Nat.ltb 200 len then 2 else if Nat.ltb 100 len then 1 else 0 in
  let questionCount := List.length (List.filter (code_eqb 63) query) in
  let s2 :=
    if Nat.ltb 3 questionCount then 2
    else if Nat.ltb 1 questionCount then 1 else 0 in
  let technicalTermCount :=
    List.length
      (List.filter (fun term => includes term (toLowerCase query))
         technicalTerms) in
  let s3 :=
    if Nat.ltb 3 technicalTermCount then 2
    else if Nat.ltb 1 technicalTermCount then 1 else 0 in
  let topicCount :=
    List.length
      (List.filter (fun indicator => includes indicator (toLowerCase query))
         topicIndicators) in
  let s4 :=
    if Nat.ltb 2 topicCount then 2
    else if Nat.ltb 0 topicCount then 1 else 0 in
  let complexityScore := s1 + s2 + s3 + s4 in
  if 5 <=? complexityScore then complexity_high
  else if 2 <=? complexityScore then complexity_medium
  else complexity_low.

(** The errors [validateBusinessRules] collects. *)
Definition business_rule_errors (request : DoDeepResearchRequest)
  : list ValidationError :=
  check (is_high (accuracy_level request)
         && match max_tokens request with
            | Some n => Qtruthy n && Qltb n 2000
            | None => false
            end)
    max_tokens_error
  ++ check (match temperature request with
            | Some t => is_high (accuracy_level request) && Qgtb t (1 # 2)
            | None => false
            end)
    temperature_error.

(** [validateBusinessRules] *)
Definition validateBusinessRules (request : DoDeepResearchRequest)
  : M (ValidationResult DoDeepResearchRequest) :=
  let errors := business_rule_errors request in
  let queryComplexity := assessQueryComplexity (research_query request) in
  let* _ :=
    match accuracy_level request, queryComplexity with
    | medium, complexity_high =>
        log SevWarn "Complex query with medium accuracy level"
    | _, _ => ret tt
    end in
  match errors with
  | [] => ret (Valid request)
  | _ => ret (Invalid errors)
  end.

(** [validateResearchRequest].  Nothing in the [try] block throws but
    [DoDeepResearchSchema.parse], so the generic [catch] arm is dead. *)
Definition validateResearchRequest (data : DoDeepResearchRequest)
  : M (ValidationResult DoDeepResearchRequest) :=
  match DoDeepResearchSchema_parse data with
  | inl validationErrors =>
      let* _ := log SevWarn "Research request validation failed" in
      ret (Invalid validationErrors)
  | inr validatedData =>
      let* businessValidation := validateBusinessRules validatedData in
      match businessValidation with
      | Invalid _ => ret businessValidation
      | Valid _ =>
          match validateContentSafety (research_query validatedData) with
          | Invalid errors => ret (Invalid errors)
          | Valid _ => ret (Valid validatedData)
          end
      end
  end.

End Validator.

(** [/<[^>]*>/g] *)
Definition re_html_tag : regex :=
  Cat (chr 60) (Cat (Star (Class (fun c => negb (code_eqb c 62)))) (chr 62)).

(** [sanitizeQuery] *)
Definition sanitizeQuery (query : jsstring) : M jsstring :=
  let sanitized :=
    trim
      (replace_all (lit_ci (js "data:text/html")) []
         (replace_all (lit_ci (js "javascript:")) []
            (replace_all re_html_tag [] query))) in
  let sanitized := replace_all (plus space) (js " ") sanitized in
  if Nat.ltb 2000 (List.length sanitized) then
    let sanitized := substring0 2000 sanitized in
    let* _ := log SevWarn "Research query truncated for safety" in
    ret sanitized
  else ret sanitized.

End Validation.
Export Validation.

(* ===================================================================== *)
(** * Research client ([OpenAIDeepResearchClient])                       *)
(* ===================================================================== *)

(** ** Cost computation *)

Module Cost.

Inductive BillingTier : Type := premium | standard.

Record CostInfo : Type := {
  estimated_cost_usd : float;
  cost_per_1k_tokens : float;
  billing_tier : BillingTier
}.

(** The [usage] object of the external response; a field that is absent is
    [None]. *)
Record Usage : Type := {
  input_tokens : option N;
  output_tokens : option N;
  total_tokens : option N;
  reasoning_tokens : option N   (* output_tokens_details.reasoning_tokens *)
}.

(** [x || 0] on an optional count. *)
Definition or_zero (x : option N) : N :=
  match x with Some n => n | None => 0 end.

(** The table [costPerToken] of [calculateCosts]. *)
Definition costPerToken (accuracyLevel : AccuracyLevel) : float :=
  match accuracyLevel with
  | high => 0x1.47ae147ae147bp-6     (* 0.02 *)
  | medium => 0x1.89374bc6a7efap-8   (* 0.006 *)
  end%float.

(** The rational a finite non-zero float of mantissa [m] and exponent [e]
    denotes, up to sign. *)
Definition magnitude (m : positive) (e : Z) : Q :=
  (inject_Z (Zpos m) * Qpower 2 e)%Q.

(** [toFixed(4)] picks the integer [n] with [n / 10^4] nearest to the
    number, the larger one on a tie. *)
Definition toFixed4_units (q : Q) : Z := Qfloor (q * 10000 + (1 # 2))%Q.

(** [n / d < 2^z] for positive integers [n] and [d]. *)
Definition below_pow2 (n d z : Z) : bool :=
  (n * 2 ^ Z.max 0 (- z) <? d * 2 ^ Z.max 0 z)%Z.

(** The integer nearest to [num / den], the even one of two. *)
Definition round_half_even (num den : Z) : Z :=
  let k := (num / den)%Z in
  let r := (num mod den)%Z in
  if (2 * r <? den)%Z then k
  else if (den <? 2 * r)%Z then (k + 1)%Z
  else if Z.even k then k else (k + 1)%Z.

(** [parseFloat] of the decimal [n / d]: the nearest double, ties to even.
    The exponent [e] is the one that brings the quotient to a mantissa of
    53 bits, or the least exponent of the doubles; the mantissa is
    [n / (d * 2^e)] rounded to an integer, and [2^53] is carried into the
    exponent.  Beyond the largest exponent the result is infinite. *)
Definition nearest_quotient (n : Z) (d : positive) : float :=
  match n with
  | Zpos _ =>
      let c := (Z.log2 n - Z.log2 (Zpos d))%Z in
      let e :=
        (Z.max (if below_pow2 n (Zpos d) c then c - 53 else c - 52)
           (-1074))%Z in
      let m :=
        (round_half_even (n * 2 ^ Z.max 0 (- e))
           (Zpos d * 2 ^ Z.max 0 e))%Z in
      let '(m, e) :=
        if (m =? 2 ^ 53)%Z then ((2 ^ 52)%Z, (e + 1)%Z) else (m, e) in
      match m with
      | Zpos m =>
          if (e <=? 971)%Z then SF2Prim (S754_finite false m e)
          else infinity
      | _ => 0%float
      end
  | _ => 0%float
  end.

(** What it is for [x] to be the double nearest to a positive rational
    [q]: [x] is [m * 2^e] with a mantissa of 53 bits, [q] is within half a
    unit of the last bit, at exactly half a unit the mantissa is even, and
    no number with a mantissa of at most 53 bits, whatever its exponent,
    is nearer to [q]. *)
Definition nearest_double (q : Q) (x : float) : Prop :=
  exists (m : positive) (e : Z),
    Prim2SF x = S754_finite false m e
    /\ (2 ^ 52 <= Zpos m < 2 ^ 53)%Z
    /\ (Qabs (magnitude m e - q) <= (1 # 2) * 2 ^ e)%Q
    /\ ((Qabs (magnitude m e - q) == (1 # 2) * 2 ^ e)%Q ->
        Z.even (Zpos m) = true)
    /\ (forall (m2 : positive) (e2 : Z),
          (Zpos m2 < 2 ^ 53)%Z ->
          (Qabs (magnitude m e - q) <= Qabs (magnitude m2 e2 - q))%Q).

(** [parseFloat(x.toFixed(4))].  From 10^21 on, and for infinities and
    [NaN], [toFixed] prints the number as [String(x)] does, which reads
    back as [x]. *)
Definition parseFloat_toFixed4 (x : float) : float :=
  match Prim2SF x with
  | S754_finite s m e =>
      if Qle_bool (inject_Z (10 ^ 21)) (magnitude m e) then x
      else
        let r := nearest_quotient (toFixed4_units (magnitude m e)) 10000 in
        if s then PrimFloat.opp r else r
  | S754_zero _ => 0%float
  | S754_infinity _ | S754_nan => x
  end.

(** [(totalTokens / 1000) * costPerToken[accuracyLevel]] *)
Definition estimatedCost (accuracyLevel : AccuracyLevel) (usage : option Usage)
  : float :=
  let totalTokens :=
    match usage with Some u => or_zero (total_tokens u) | None => 0 end in
  PrimFloat.mul (PrimFloat.div (N_to_number totalTokens) 1000)
    (costPerToken accuracyLevel).

(** [calculateCosts].  Its [try] block cannot throw, so the fallback
    [CostInfo] of the [catch] arm is never built; its log records are of
    severity info. *)
Definition calculateCosts (accuracyLevel : AccuracyLevel) (usage : option Usage)
  : CostInfo :=
  {| estimated_cost_usd :=
       parseFloat_toFixed4 (estimatedCost accuracyLevel usage);
     cost_per_1k_tokens := costPerToken accuracyLevel;
     billing_tier := if is_high accuracyLevel then premium else standard |}.

End Cost.
Export Cost.

(* ===================================================================== *)
(** * Binary64 arithmetic on costs                                       *)
(* ===================================================================== *)

Module Binary64.

(** The double nearest to a rational, ties to even. *)
Definition double_of (q : Q) : float :=
  match Qnum q with
  | Zneg p => PrimFloat.opp (nearest_quotient (Zpos p) (Qden q))
  | n => nearest_quotient n (Qden q)
  end.

(** The rational a finite double denotes. *)
Definition value_of (x : float) : Q :=
  match Prim2SF x with
  | S754_finite s m e => if s then - magnitude m e else magnitude m e
  | _ => 0
  end.

(** A rational that rounds to a finite double: it is less than half a
    unit of the last bit above the largest one. *)
Definition in_double_range (q : Q) : Prop :=
  (Qabs q < 2 ^ 1024 - 2 ^ 970)%Q.

(** The sum and the difference of two finite doubles, given by the
    rationals they denote: the exact result rounded to the nearest
    double.  A result out of [in_double_range] would be infinite, which
    is not among the numbers carried here. *)
Definition add64 (a b : Q) : Q := value_of (double_of (a + b)).
Definition sub64 (a b : Q) : Q := value_of (double_of (a - b)).

End Binary64.
Export Binary64.

(** ** The external response and content extraction *)

Module OpenAI.

(** An element of an array of the response: [null], [undefined], or a
    value whose properties can be read. *)
Inductive Element (A : Type) : Type :=
| Null
| Undefined
| Object (a : A).
Arguments Null {A}.
Arguments Undefined {A}.
Arguments Object {A} a.

(** The [text] property of a content item, as far as the client tells its
    values apart. *)
Inductive TextValue : Type :=
| NoText               (* absent, or a falsy value that is not a string *)
| Text (s : jsstring)  (* a string, the empty one included *)
| NotText.             (* a truthy value that is not a string and has no
                          [substring] method: a number, [true], a plain
                          object, an array *)

(** An element of [outputItem.content]. *)
Record ContentItem : Type := {
  content_type : jsstring;
  content_text : TextValue
}.

(** An element of [response.output]. *)
Record OutputItem : Type := {
  output_type : jsstring;
  output_content : option (list (Element ContentItem))
                                             (* [None]: not an array *)
}.

(** What [openai.responses.create] resolves to, as far as the client looks
    at it.  A field is [None] when it is absent or not of the type the
    client checks for. *)
Record Response : Type := {
  status : option jsstring;
  output_text : option jsstring;
  output : option (list (Element OutputItem));
  text : option jsstring;
  content : option jsstring;
  usage : option Usage
}.

End OpenAI.

Fixpoint jsstring_eqb (a b : jsstring) : bool :=
  match a, b with
  | [], [] => true
  | x :: a', y :: b' => code_eqb x y && jsstring_eqb a' b'
  | _, _ => false
  end.

(** The client's result, [DoDeepResearchResponse]. *)
Module ResearchResponse.

Record TokenUsage : Type := {
  input_tokens : N;
  output_tokens : N;
  total_tokens : N
}.

Record t : Type := {
  research_results : jsstring;
  executive_summary : jsstring;
  model_used : jsstring;
  execution_time_seconds : float;
  accuracy_level : AccuracyLevel;
  source_quality_score : N;
  rate_limit_remaining : N;
  sources_found : nat;
  research_confidence : float;
  coverage_completeness : float;
  recency_score : float;
  related_topics : list jsstring;
  limitations : list jsstring;
  token_usage : TokenUsage;
  cost_info : CostInfo;
  request_id : jsstring;
  timestamp : jsstring;
  raw_openai_output : list (OpenAI.Element OpenAI.OutputItem)
}.

End ResearchResponse.

Module Client.

(** [getModelForAccuracy] *)
Definition getModelForAccuracy (accuracyLevel : AccuracyLevel) : jsstring :=
  match accuracyLevel with
  | high => js "o3-deep-research"
  | medium => js "o4-mini-deep-research"
  end.

(** Method 1: the [output_text] convenience field. *)
Definition extract_output_text (response : OpenAI.Response) : jsstring :=
  match OpenAI.output_text response with
  | Some t =>
      if truthy_string t && Nat.ltb 0 (List.length (trim t)) then trim t else []
  | None => []
  end.

(** What the debug record of the inner loop throws when it evaluates
    [contentItem.text.substring(0, 100)] on a truthy value that is not a
    string: a [TypeError], with the message Node.js gives it. *)
Definition substring_type_error : Thrown :=
  ErrorObject (js "contentItem.text.substring is not a function").

(** What reading the property [type] of [null] or [undefined] throws: the
    debug records of both loops read it first. *)
Definition cannot_read_type (item : string) : Thrown :=
  ErrorObject
    (js "Cannot read properties of " ++ js item ++ js " (reading 'type')").

(** The inner loop of method 2: the text of the first content item of type
    [output_text] or [text] that has a non-empty text.  Every item the loop
    visits is first described in a debug record, whose [text_preview]
    throws on a truthy text that is not a string. *)
Fixpoint first_text (items : list (OpenAI.Element OpenAI.ContentItem))
  : Outcome jsstring :=
  match items with
  | [] => Returned []
  | OpenAI.Null :: _ => Threw (cannot_read_type "null")
  | OpenAI.Undefined :: _ => Threw (cannot_read_type "undefined")
  | OpenAI.Object contentItem :: rest =>
      let ty := OpenAI.content_type contentItem in
      match OpenAI.content_text contentItem with
      | OpenAI.NotText => Threw substring_type_error
      | OpenAI.Text t =>
          if (jsstring_eqb ty (js "output_text") || jsstring_eqb ty (js "text"))
             && truthy_string t
          then Returned t
          else first_text rest
      | OpenAI.NoText => first_text rest
      end
  end.

(** The outer loop of method 2, over [response.output]. *)
Fixpoint scan_output (items : list (OpenAI.Element OpenAI.OutputItem))
  : Outcome jsstring :=
  match items with
  | [] => Returned []
  | OpenAI.Null :: _ => Threw (cannot_read_type "null")
  | OpenAI.Undefined :: _ => Threw (cannot_read_type "undefined")
  | OpenAI.Object outputItem :: rest =>
      match OpenAI.output_content outputItem with
      | Some contentItems =>
          if jsstring_eqb (OpenAI.output_type outputItem) (js "message") then
            match first_text contentItems with
            | Threw error => Threw error
            | Returned [] => scan_output rest
            | Returned found => Returned found
            end
          else scan_output rest
      | None => scan_output rest
      end
  end.

(** Method 3: the top-level [text] field, else the [content] field. *)
Definition extract_fallback (response : OpenAI.Response) : jsstring :=
  match OpenAI.text response with
  | Some (c :: t) => c :: t
  | _ =>
      match OpenAI.content response with
      | Some (c :: t) => c :: t
      | _ => []
      end
  end.

(** The value of [content] after the three extraction methods, unless
    the second one throws. *)
Definition extract_content (response : OpenAI.Response) : Outcome jsstring :=
  match extract_output_text response with
  | [] =>
      let fromOutput :=
        match OpenAI.output response with
        | Some items => scan_output items
        | None => Returned []
        end in
      match fromOutput with
      | Threw error => Threw error
      | Returned [] => Returned (extract_fallback response)
      | Returned found => Returned found
      end
  | found => Returned found
  end.

(** [!content || content.trim().length === 0] *)
Definition is_blank (content : jsstring) : bool :=
  negb (truthy_string content) || Nat.eqb (List.length (trim content)) 0.

(** [extractSourceCount]: occurrences of [/\[\d+\]/g]. *)
Definition extractSourceCount (content : jsstring) : nat :=
  count_matches (Cat (chr 91) (Cat (plus digit) (chr 93))) content.

(** [Math.min] on numbers that are not [NaN]. *)
Definition Math_min (a b : float) : float := if PrimFloat.ltb b a then b else a.

(** [calculateConfidence] *)
Definition calculateConfidence (accuracyLevel : AccuracyLevel) (sourcesFound : nat)
  : float :=
  let baseConfidence :=
    (if is_high accuracyLevel
     then 0x1.b333333333333p-1 (* 0.85 *) else 0x1.8p-1 (* 0.75 *))%float in
  let sourceBonus :=
    Math_min (PrimFloat.mul (nat_to_number sourcesFound)
                0x1.47ae147ae147bp-6 (* 0.02 *))
      0x1.3333333333333p-3 (* 0.15 *) in
  Math_min (PrimFloat.add baseConfidence sourceBonus) 1.

(** [generateLimitations] *)
Definition generateLimitations (accuracyLevel : AccuracyLevel) : list jsstring :=
  [ js "Results based on available public information";
    js "Information accuracy depends on source reliability" ]
  ++ match accuracyLevel with
     | medium =>
         [ js "Faster processing may result in less comprehensive analysis" ]
     | high => []
     end.

Definition no_content_placeholder : jsstring := js "No content returned from OpenAI".

Section Client.

(** [this.openai.responses.create({model, input, tools})]: resolves to a
    response or rejects. *)
Variable responses_create : jsstring -> jsstring -> Outcome OpenAI.Response.

(** [JSON.stringify(Object.keys(response), null, 2)] *)
Variable JSON_stringify_keys : OpenAI.Response -> jsstring.

(** The summary heuristics, [generateExecutiveSummary] and
    [extractRelatedTopics]: total functions of the extracted text. *)
Variable generateExecutiveSummary : jsstring -> jsstring.
Variable extractRelatedTopics : jsstring -> list jsstring.

(** [Date.now()] and [new Date().toISOString()] when the result is built. *)
Variable client_now : N.
Variable client_timestamp : jsstring.

Definition parsing_error_placeholder (tokenCount : N) (response : OpenAI.Response)
  : jsstring :=
  js "[Content parsing error: OpenAI generated " ++ Number_toString tokenCount
  ++ js " tokens but content extraction failed. Response structure: "
  ++ JSON_stringify_keys response ++ js "]".

Definition incomplete_message (response : OpenAI.Response) : jsstring :=
  js "OpenAI Deep Research response incomplete. The model is still processing your request. Please try again in a few moments. Status: "
  ++ match OpenAI.status response with Some s => s | None => js "undefined" end
  ++ js ", Reasoning tokens used: "
  ++ Number_toString
       (match OpenAI.usage response with
        | Some u => or_zero (reasoning_tokens u)
        | None => 0
        end).

(** The final fallback of the extraction. *)
Definition final_content (response : OpenAI.Response) : M jsstring :=
  let* content := ([], extract_content response) in
  if is_blank content then
    let tokenCount :=
      match OpenAI.usage response with
      | Some u => or_zero (Cost.output_tokens u)
      | None => 0
      end in
    if 0 <? tokenCount then
      let* _ := log SevError "Content extraction failed despite token usage" in
      ret (parsing_error_placeholder tokenCount response)
    else ret no_content_placeholder
  else ret content.

(** The body of the [try] block of [performDeepResearch]. *)
Definition performDeepResearch_body (request : DoDeepResearchRequest)
  : M ResearchResponse.t :=
  let modelName := getModelForAccuracy (accuracy_level request) in
  let* _ := emit (Call_responses_create modelName (research_query request)) in
  let* response :=
    ([], responses_create modelName (research_query request)) in
  if match OpenAI.status response with
     | Some s => jsstring_eqb s (js "incomplete")
     | None => false
     end
  then
    let* _ :=
      log SevWarn
        "OpenAI response is incomplete - model is still processing" in
    throw (ErrorObject (incomplete_message response))
  else
    let* content := final_content response in
    let costInfo := calculateCosts (accuracy_level request) (OpenAI.usage response) in
    let sourcesFound := extractSourceCount content in
    let confidence := calculateConfidence (accuracy_level request) sourcesFound in
    ret {| ResearchResponse.research_results := content;
           ResearchResponse.executive_summary := generateExecutiveSummary content;
           ResearchResponse.model_used := modelName;
           ResearchResponse.execution_time_seconds := 0;
           ResearchResponse.accuracy_level := accuracy_level request;
           ResearchResponse.source_quality_score := 85;
           ResearchResponse.rate_limit_remaining := 100;
           ResearchResponse.sources_found := sourcesFound;
           ResearchResponse.research_confidence := confidence;
           ResearchResponse.coverage_completeness :=
             0x1.b333333333333p-1 (* 0.85 *);
           ResearchResponse.recency_score := 0x1.ccccccccccccdp-1 (* 0.9 *);
           ResearchResponse.related_topics := extractRelatedTopics content;
           ResearchResponse.limitations :=
             generateLimitations (accuracy_level request);
           ResearchResponse.token_usage :=
             match OpenAI.usage response with
             | Some u =>
                 {| ResearchResponse.input_tokens := or_zero (Cost.input_tokens u);
                    ResearchResponse.output_tokens := or_zero (Cost.output_tokens u);
                    ResearchResponse.total_tokens := or_zero (Cost.total_tokens u) |}
             | None =>
                 {| ResearchResponse.input_tokens := 0;
                    ResearchResponse.output_tokens := 0;
                    ResearchResponse.total_tokens := 0 |}
             end;
           ResearchResponse.cost_info := costInfo;
           ResearchResponse.request_id := js "openai_" ++ Number_toString client_now;
           ResearchResponse.timestamp := client_timestamp;
           ResearchResponse.raw_openai_output :=
             match OpenAI.output response with
             | Some items => items
             | None => []
             end |}.

(** [performDeepResearch]: whatever the body throws is logged and thrown
    again as an [Error] whose message carries the cause. *)
Definition performDeepResearch (request : DoDeepResearchRequest)
  : M ResearchResponse.t :=
  let* _ := emit (Call_performDeepResearch request) in
  try_catch (performDeepResearch_body request)
    (fun error =>
       let* _ :=
         emit (Logged SevError
                 ([10060; 32] ++ js "OpenAI Client: performDeepResearch failed")) in
       throw (ErrorObject
                (js "OpenAI Deep Research failed: " ++ thrown_text error))).

End Client.

End Client.
Export Client.

(* ===================================================================== *)
(** * Request handler ([OpenAIDeepResearchMCPServer])                    *)
(* ===================================================================== *)

(** The object the handler serialises into [content[0].text] on success. *)
Module SuccessEnvelope.

Record t : Type := {
  success : bool;
  research_results : jsstring;
  executive_summary : jsstring;
  model_used : jsstring;
  execution_time_seconds : float;
  sources_found : nat;
  research_confidence : float;
  coverage_completeness : float;
  recency_score : float;
  related_topics : list jsstring;
  limitations : list jsstring;
  token_usage : ResearchResponse.TokenUsage;
  cost_info : CostInfo;
  request_id : jsstring;
  rate_limit_remaining : N;
  timestamp : jsstring
}.

End SuccessEnvelope.

(** The object serialised on failure; the validation branch has no
    [timestamp] key. *)
Module FailureEnvelope.

Record t : Type := {
  success : bool;
  error : jsstring;
  error_type : jsstring;
  request_id : jsstring;
  timestamp : option jsstring
}.

End FailureEnvelope.

Module Handler.

(** [JSON.stringify] is one-to-one on these objects; the text of the
    response is represented by the object it prints. *)
Inductive Envelope : Type :=
| Success (body : SuccessEnvelope.t)
| Failure (body : FailureEnvelope.t).

Definition success (e : Envelope) : bool :=
  match e with
  | Success b => SuccessEnvelope.success b
  | Failure b => FailureEnvelope.success b
  end.

(** The [_meta] object of the three [return] statements. *)
Inductive Meta : Type :=
| ValidationMeta (request_id timestamp : jsstring)
    (validation_errors : list ValidationError)
| ResultMeta (request_id model_used : jsstring)
    (execution_time_seconds : float) (cost_info : CostInfo)
| ErrorMeta (request_id timestamp : jsstring) (error : bool).

(** [MCPToolResponse] with its single text item. *)
Record MCPToolResponse : Type := {
  content_text : Envelope;
  _meta : Meta
}.

Section Handler.

Variable toLowerCase : jsstring -> jsstring.
Variable responses_create : jsstring -> jsstring -> Outcome OpenAI.Response.
Variable JSON_stringify_keys : OpenAI.Response -> jsstring.
Variable generateExecutiveSummary : jsstring -> jsstring.
Variable extractRelatedTopics : jsstring -> list jsstring.
Variable client_now : N.
Variable client_timestamp : jsstring.

(** The identifier built from [Date.now()] and [Math.random()], the clock
    readings around the client call, and [new Date().toISOString()] at the
    handler's [return]. *)
Variable requestId : jsstring.
Variable startTime endTime : Z.
Variable handler_timestamp : jsstring.

(** [`Request validation failed: ${errors.map(e => `${e.field}: ${e.message}`).join(', ')}`] *)
Definition validation_error_message (errors : list ValidationError) : jsstring :=
  js "Request validation failed: "
  ++ join (js ", ") (map (fun e => field e ++ js ": " ++ message e) errors).

(** The [try] block of [handleDeepResearchRequest]. *)
Definition handleDeepResearchRequest_body (request : DoDeepResearchRequest)
  : M MCPToolResponse :=
  let* validationResult := validateResearchRequest toLowerCase request in
  match validationResult with
  | Invalid errors =>
      let errorMessage := validation_error_message errors in
      let* _ := log SevWarn "Request validation failed" in
      ret {| content_text :=
               Failure
                 {| FailureEnvelope.success := false;
                    FailureEnvelope.error := errorMessage;
                    FailureEnvelope.error_type := js "validation_error";
                    FailureEnvelope.request_id := requestId;
                    FailureEnvelope.timestamp := None |};
             _meta := ValidationMeta requestId handler_timestamp errors |}
  | Valid validatedRequest =>
      let* sanitizedQuery := sanitizeQuery (research_query validatedRequest) in
      let researchRequest :=
        {| research_query := sanitizedQuery;
           accuracy_level := accuracy_level validatedRequest;
           max_tokens := max_tokens validatedRequest;
           temperature := temperature validatedRequest;
           include_sources := include_sources validatedRequest;
           response_format := response_format validatedRequest |} in
      let* researchResult :=
        performDeepResearch responses_create JSON_stringify_keys
          generateExecutiveSummary extractRelatedTopics client_now
          client_timestamp researchRequest in
      let executionTime :=
        PrimFloat.div (Z_to_number (endTime - startTime)) 1000 in
      ret {| content_text :=
               Success
                 {| SuccessEnvelope.success := true;
                    SuccessEnvelope.research_results :=
                      ResearchResponse.research_results researchResult;
                    SuccessEnvelope.executive_summary :=
                      ResearchResponse.executive_summary researchResult;
                    SuccessEnvelope.model_used :=
                      ResearchResponse.model_used researchResult;
                    SuccessEnvelope.execution_time_seconds := executionTime;
                    SuccessEnvelope.sources_found :=
                      ResearchResponse.sources_found researchResult;
                    SuccessEnvelope.research_confidence :=
                      ResearchResponse.research_confidence researchResult;
                    SuccessEnvelope.coverage_completeness :=
                      ResearchResponse.coverage_completeness researchResult;
                    SuccessEnvelope.recency_score :=
                      ResearchResponse.recency_score researchResult;
                    SuccessEnvelope.related_topics :=
                      ResearchResponse.related_topics researchResult;
                    SuccessEnvelope.limitations :=
                      ResearchResponse.limitations researchResult;
                    SuccessEnvelope.token_usage :=
                      ResearchResponse.token_usage researchResult;
                    SuccessEnvelope.cost_info :=
                      ResearchResponse.cost_info researchResult;
                    SuccessEnvelope.request_id := requestId;
                    SuccessEnvelope.rate_limit_remaining := 100;
                    SuccessEnvelope.timestamp :=
                      ResearchResponse.timestamp researchResult |};
             _meta :=
               ResultMeta requestId (ResearchResponse.model_used researchResult)
                 executionTime (ResearchResponse.cost_info researchResult) |}
  end.

(** [handleDeepResearchRequest] *)
Definition handleDeepResearchRequest (request : DoDeepResearchRequest)
  : M MCPToolResponse :=
  try_catch (handleDeepResearchRequest_body request)
    (fun error =>
       let* _ := log SevError "Research request failed" in
       ret {| content_text :=
                Failure
                  {| FailureEnvelope.success := false;
                     FailureEnvelope.error :=
                       match error with
                       | ErrorObject msg => msg
                       | OtherValue _ => js "An unexpected error occurred"
                       end;
                     FailureEnvelope.error_type := js "internal_error";
                     FailureEnvelope.request_id := requestId;
                     FailureEnvelope.timestamp := Some handler_timestamp |};
              _meta := ErrorMeta requestId handler_timestamp true |}).

End Handler.

End Handler.
Export Handler.

(* ===================================================================== *)
(** * Rate limiter ([ResearchRateLimiter])                               *)
(* ===================================================================== *)

Module RateLimiter.

(** Counters, limits and costs are finite numbers, carried as the
    rationals they denote.  Counters are whole numbers below 2^53, on
    which adding 1 and subtracting are exact.  Costs are arbitrary
    doubles: a sum or a difference with a cost is the binary64 operation,
    which rounds.  The two per-level limits are [None] when the
    configuration holds no number for them ([undefined] or [NaN]). *)
Record RateLimitConfig : Type := {
  requests_per_hour : Q;
  requests_per_day : Q;
  tokens_per_day : Q;
  daily_cost_limit_usd : Q;
  high_accuracy_daily_limit : option Q;
  medium_accuracy_daily_limit : option Q
}.

(** [ClientUsage]; [requestCounts] is the [Map<string, number>]. *)
Record ClientUsage : Type := {
  requestCounts : gmap (list N) Q;
  totalCost : Q;
  lastRequestTime : N
}.

Record RateLimitResult : Type := {
  allowed : bool;
  reason : option jsstring;
  remaining : Q;
  retryAfter : N;
  costRemaining : Q
}.

(** [x || d] on a number that may be missing. *)
Definition or_default (x : option Q) (d : Q) : Q :=
  match x with
  | Some v => if Qtruthy v then v else d
  | None => d
  end.

(** [usage.requestCounts.get(key) || 0] *)
Definition get_count (counts : gmap (list N) Q) (key : list N) : Q :=
  or_default (counts !! key) 0.

Definition hour_ms : N := 60 * 60 * 1000.
Definition day_ms : N := 24 * 60 * 60 * 1000.

(** [Math.floor(now / (60 * 60 * 1000))] and its daily counterpart. *)
Definition hour_of (now : N) : N := now / hour_ms.
Definition day_of (now : N) : N := now / day_ms.

Definition hourKey (currentHour : N) : list N :=
  js "hour:" ++ Number_toString currentHour.

Definition dailyKey (currentDay : N) (accuracyLevel : AccuracyLevel) : list N :=
  js "day:" ++ Number_toString currentDay ++ js ":"
  ++ AccuracyLevel_toString accuracyLevel.

Definition costKey (currentDay : N) : list N :=
  js "cost:" ++ Number_toString currentDay.

Section Limiter.

Variable config : RateLimitConfig.

(** [getHourlyLimit] *)
Definition getHourlyLimit (accuracyLevel : AccuracyLevel) : Q :=
  match accuracyLevel with
  | high => or_default (high_accuracy_daily_limit config) 3
  | medium => or_default (medium_accuracy_daily_limit config) 6
  end.

(** [getDailyLimit] *)
Definition getDailyLimit (accuracyLevel : AccuracyLevel) : Q :=
  match accuracyLevel with
  | high => or_default (high_accuracy_daily_limit config) 8
  | medium => or_default (medium_accuracy_daily_limit config) 15
  end.

(** [getDailyCost] *)
Definition getDailyCost (usage : ClientUsage) (currentDay : N) : Q :=
  get_count (requestCounts usage) (costKey currentDay).

(** [getDailyRequests] *)
Definition getDailyRequests (usage : ClientUsage) (currentDay : N)
  (accuracyLevel : AccuracyLevel) : Q :=
  get_count (requestCounts usage) (dailyKey currentDay accuracyLevel).

(** "Get or create client usage": the entry of the client, and the table
    with a fresh entry stored when there was none. *)
Definition get_or_create (clientUsage : gmap (list N) ClientUsage)
  (clientId : jsstring) (now : N)
  : ClientUsage * gmap (list N) ClientUsage :=
  match clientUsage !! clientId with
  | Some usage => (usage, clientUsage)
  | None =>
      let usage :=
        {| requestCounts := ∅; totalCost := 0; lastRequestTime := now |} in
      (usage, <[clientId := usage]> clientUsage)
  end.

(** [checkRateLimit] at clock reading [now].  Nothing in its [try] block
    throws, so the fail-open [catch] arm is not reached. *)
Definition checkRateLimit (clientUsage : gmap (list N) ClientUsage)
  (now : N) (clientId : jsstring) (accuracyLevel : AccuracyLevel)
  (estimatedCost : option Q)
  : list Event * (RateLimitResult * gmap (list N) ClientUsage) :=
  let currentHour := hour_of now in
  let currentDay := day_of now in
  let '(usage, clientUsage') := get_or_create clientUsage clientId now in
  let hourlyRequests := get_count (requestCounts usage) (hourKey currentHour) in
  let hourlyLimit := getHourlyLimit accuracyLevel in
  let called := Call_checkRateLimit clientId accuracyLevel in
  if Qle_bool hourlyLimit hourlyRequests then
    ([called; Logged SevWarn (js "Hourly rate limit exceeded")],
     ({| allowed := false;
         reason := Some (js "hourly_limit");
         remaining := 0;
         retryAfter := (currentHour + 1) * 60 * 60 * 1000;
         costRemaining :=
           sub64 (daily_cost_limit_usd config) (totalCost usage) |},
      clientUsage'))
  else
    let dailyCost := getDailyCost usage currentDay in
    if match estimatedCost with
       | Some c =>
           Qtruthy c && Qgtb (add64 dailyCost c) (daily_cost_limit_usd config)
       | None => false
       end
    then
      ([called; Logged SevWarn (js "Daily cost limit would be exceeded")],
       ({| allowed := false;
           reason := Some (js "cost_limit");
           remaining := hourlyLimit - hourlyRequests;
           retryAfter := (currentDay + 1) * 24 * 60 * 60 * 1000;
           costRemaining :=
             Qmax 0 (sub64 (daily_cost_limit_usd config) dailyCost) |},
        clientUsage'))
    else
      let dailyRequests := getDailyRequests usage currentDay accuracyLevel in
      let dailyLimit := getDailyLimit accuracyLevel in
      if Qle_bool dailyLimit dailyRequests then
        ([called; Logged SevWarn (js "Daily request limit exceeded")],
         ({| allowed := false;
             reason := Some (js "daily_limit");
             remaining := 0;
             retryAfter := (currentDay + 1) * 24 * 60 * 60 * 1000;
             costRemaining :=
             Qmax 0 (sub64 (daily_cost_limit_usd config) dailyCost) |},
          clientUsage'))
      else
        ([called],
         ({| allowed := true;
             reason := None;
             remaining :=
               Qmin (hourlyLimit - hourlyRequests - 1)
                 (dailyLimit - dailyRequests - 1);
             retryAfter := (currentHour + 1) * 60 * 60 * 1000;
             costRemaining :=
             Qmax 0 (sub64 (daily_cost_limit_usd config) dailyCost) |},
          clientUsage')).

End Limiter.

(** [recordRequest] at clock reading [now]; the entry of the client is
    updated in place.  [tokensUsed] only appears in a debug record. *)
Definition recordRequest (clientUsage : gmap (list N) ClientUsage)
  (now : N) (clientId : jsstring) (accuracyLevel : AccuracyLevel)
  (actualCost : Q) (tokensUsed : N)
  : list Event * gmap (list N) ClientUsage :=
  let currentHour := hour_of now in
  let currentDay := day_of now in
  let '(usage, clientUsage') := get_or_create clientUsage clientId now in
  let counts := requestCounts usage in
  let hourlyRequests := get_count counts (hourKey currentHour) in
  let counts := <[hourKey currentHour := (hourlyRequests + 1)%Q]> counts in
  let dailyRequests := get_count counts (dailyKey currentDay accuracyLevel) in
  let counts :=
    <[dailyKey currentDay accuracyLevel := (dailyRequests + 1)%Q]> counts in
  let dailyCost := get_count counts (costKey currentDay) in
  let counts := <[costKey currentDay := add64 dailyCost actualCost]> counts in
  let usage' :=
    {| requestCounts := counts;
       totalCost := add64 (totalCost usage) actualCost;
       lastRequestTime := now |} in
  ([Call_recordRequest clientId accuracyLevel],
   <[clientId := usage']> clientUsage').



(** A call of the limiter, with the clock reading it sees. *)
Inductive LimiterCall : Type :=
| CheckRateLimit (now : N) (clientId : jsstring) (accuracyLevel : AccuracyLevel)
    (estimatedCost : option Q)
| RecordRequest (now : N) (clientId : jsstring) (accuracyLevel : AccuracyLevel)
    (actualCost : Q) (tokensUsed : N).

(** The table after a sequence of calls. *)
Fixpoint run_calls (config : RateLimitConfig) (calls : list LimiterCall)
  (clientUsage : gmap (list N) ClientUsage) : gmap (list N) ClientUsage :=
  match calls with
  | [] => clientUsage
  | CheckRateLimit now clientId lvl est :: rest =>
      run_calls config rest
        (snd (snd (checkRateLimit config clientUsage now clientId lvl est)))
  | RecordRequest now clientId lvl cost tokens :: rest =>
      run_calls config rest
        (snd (recordRequest clientUsage now clientId lvl cost tokens))
  end.

(** The configuration with another [requests_per_hour]. *)
Definition with_requests_per_hour (value : Q) (config : RateLimitConfig)
  : RateLimitConfig :=
  {| requests_per_hour := value;
     requests_per_day := requests_per_day config;
     tokens_per_day := tokens_per_day config;
     daily_cost_limit_usd := daily_cost_limit_usd config;
     high_accuracy_daily_limit := high_accuracy_daily_limit config;
     medium_accuracy_daily_limit := medium_accuracy_daily_limit config |}.

(** The hourly counter of a client, [0] when it has none. *)
Definition hourly_count (clientUsage : gmap (list N) ClientUsage)
  (clientId : jsstring) (currentHour : N) : Q :=
  match clientUsage !! clientId with
  | Some usage => get_count (requestCounts usage) (hourKey currentHour)
  | None => 0
  end.


End RateLimiter.
Export RateLimiter.

(* ===================================================================== *)
(** * Concrete inputs used by the examples                               *)
(* ===================================================================== *)

Module Samples.

(** [toLowerCase] on ASCII letters, enough to run the validator on the
    sample queries below. *)
Definition ascii_toLowerCase (s : jsstring) : jsstring :=
  map (fun c => if is_upper c then c + 32 else c) s.

Definition request_of (query : string) (lvl : AccuracyLevel)
  (tokens temp : option Q) : DoDeepResearchRequest :=
  {| research_query := js query;
     accuracy_level := lvl;
     max_tokens := tokens;
     temperature := temp;
     include_sources := None;
     response_format := None |}.

Definition script_request : DoDeepResearchRequest :=
  request_of "<script>alert(1)</script>" medium None None.

Definition protocol_request : DoDeepResearchRequest :=
  request_of "is a javascript: link safe to click" medium None None.

Definition plain_request : DoDeepResearchRequest :=
  request_of "history of the steam engine" medium None None.

Definition short_request : DoDeepResearchRequest :=
  request_of "hello" medium None None.

Definition frugal_request : DoDeepResearchRequest :=
  request_of "history of the steam engine" high (Some 1000%Q) (Some (7 # 10)).

Definition usage_of (input output total : N) : Usage :=
  {| Cost.input_tokens := Some input;
     Cost.output_tokens := Some output;
     Cost.total_tokens := Some total;
     Cost.reasoning_tokens := Some output |}.

(** A response that is still being produced. *)
Definition incomplete_response : OpenAI.Response :=
  {| OpenAI.status := Some (js "incomplete");
     OpenAI.output_text := None;
     OpenAI.output := Some [];
     OpenAI.text := None;
     OpenAI.content := None;
     OpenAI.usage := Some (usage_of 120 4000 4120) |}.

(** A completed response whose only output item is a reasoning item. *)
Definition textless_response : OpenAI.Response :=
  {| OpenAI.status := Some (js "completed");
     OpenAI.output_text := Some (js "   ");
     OpenAI.output :=
       Some [ OpenAI.Object
                {| OpenAI.output_type := js "reasoning";
                   OpenAI.output_content := None |} ];
     OpenAI.text := None;
     OpenAI.content := None;
     OpenAI.usage := Some (usage_of 120 900 1020) |}.

Definition mock (response : OpenAI.Response)
  : jsstring -> jsstring -> Outcome OpenAI.Response :=
  fun _ _ => Returned response.

Definition no_keys : OpenAI.Response -> jsstring := fun _ => js "[]".
Definition no_summary : jsstring -> jsstring := fun _ => [].
Definition no_topics : jsstring -> list jsstring := fun _ => [].

Definition default_config : RateLimitConfig :=
  {| requests_per_hour := 10;
     requests_per_day := 50;
     tokens_per_day := 100000;
     daily_cost_limit_usd := 25;
     high_accuracy_daily_limit := Some 8%Q;
     medium_accuracy_daily_limit := Some 15%Q |}.


(** The rate limits of the default server configuration. *)
Definition loaded_config : RateLimitConfig :=
  {| requests_per_hour := 10;
     requests_per_day := 30;
     tokens_per_day := 100000;
     daily_cost_limit_usd := 25;
     high_accuracy_daily_limit := Some 8%Q;
     medium_accuracy_daily_limit := Some 15%Q |}.


End Samples.

(* ===================================================================== *)
(** * Validator, continued: error stages and [validateClientId]          *)
(* ===================================================================== *)

Module ValidationStages.

(** The issue codes of the schema stage. *)
Definition is_schema_code (c : jsstring) : bool :=
  existsb (jsstring_eqb c)
    (map js ["too_small"; "too_big"; "invalid_string"; "invalid_type";
             "invalid_enum_value"; "custom"]%string).

(** The code of the business rules. *)
Definition is_business_code (c : jsstring) : bool :=
  jsstring_eqb c (js "business_rule").

(** The codes of the content-safety stage. *)
Definition is_safety_code (c : jsstring) : bool :=
  existsb (jsstring_eqb c) (map js ["security"; "format"; "spam"]%string).

(** The fields an error of [validateResearchRequest] can name. *)
Definition is_request_field (f : jsstring) : bool :=
  existsb (jsstring_eqb f)
    (map js ["research_query"; "accuracy_level"; "max_tokens"; "temperature";
             "include_sources"; "response_format"]%string).

End ValidationStages.
Export ValidationStages.

Module ClientId.

(** [/^[a-zA-Z0-9_\-\.]+$/] on a string that is not empty. *)
Definition is_client_id_char (c : N) : bool :=
  is_lower c || is_upper c || is_digit c
  || code_eqb c 95 || code_eqb c 45 || code_eqb c 46.

Definition client_id_error (msg code : string) : ValidationError :=
  {| field := js "clientId"; message := js msg; code := js code |}.

(** [validateClientId] on a string argument. *)
Definition validateClientId (clientId : jsstring) : ValidationResult jsstring :=
  if negb (truthy_string clientId) then
    Invalid [client_id_error "Client ID is required and must be a string"
               "required"]
  else if Nat.ltb (List.length clientId) 3
          || Nat.ltb 100 (List.length clientId) then
    Invalid [client_id_error "Client ID must be between 3 and 100 characters"
               "length"]
  else if negb (truthy_string clientId && forallb is_client_id_char clientId)
  then
    Invalid [client_id_error
               "Client ID can only contain alphanumeric characters, underscores, hyphens, and periods"
               "format"]
  else Valid clientId.

End ClientId.
Export ClientId.

(* ===================================================================== *)
(** * Shapes of sanitized text                                           *)
(* ===================================================================== *)

Module TextShapes.

Definition is_angle (c : N) : bool := code_eqb c 60 || code_eqb c 62.

(** No [<] of the string has a [>] anywhere after it, so no substring is a
    complete tag. *)
Fixpoint no_tag_possible (s : jsstring) : bool :=
  match s with
  | [] => true
  | c :: s' =>
      (if code_eqb c 60 then negb (existsb (code_eqb 62) s') else true)
      && no_tag_possible s'
  end.

(** Number of white-space code units the string starts with. *)
Fixpoint ws_run (s : jsstring) : nat :=
  match s with
  | [] => 0
  | c :: s' => if is_space c then S (ws_run s') else 0
  end.

(** Every white-space code unit is a space that no white space follows. *)
Fixpoint ws_normal (s : jsstring) : bool :=
  match s with
  | [] => true
  | c :: s' =>
      (if is_space c then code_eqb c 32 && Nat.eqb (ws_run s') 0 else true)
      && ws_normal s'
  end.

(** The string neither starts nor ends with white space. *)
Definition is_trimmed (s : jsstring) : bool :=
  Nat.eqb (ws_run s) 0 && Nat.eqb (ws_run (rev s)) 0.

(** The white-space normalisation step of [sanitizeQuery] on its own:
    [s.trim().replace(/\s+/g, ' ')]. *)
Definition normalize_space (s : jsstring) : jsstring :=
  replace_all (plus space) (js " ") (trim s).

End TextShapes.
Export TextShapes.

(* ===================================================================== *)
(** * Rate limiter, continued: statistics and the periodic sweep         *)
(* ===================================================================== *)

(** The object [getUsageStats] resolves to. *)
Module UsageStats.

Record t : Type := {
  hourlyRequests : Q;
  dailyCost : Q;
  highAccuracyRequests : Q;
  mediumAccuracyRequests : Q
}.

Definition zero : t :=
  {| hourlyRequests := 0;
     dailyCost := 0;
     highAccuracyRequests := 0;
     mediumAccuracyRequests := 0 |}.

End UsageStats.

Module Sweep.

(** [getUsageStats] at clock reading [now]. *)
Definition getUsageStats (clientUsage : gmap (list N) ClientUsage)
  (now : N) (clientId : jsstring) : UsageStats.t :=
  match clientUsage !! clientId with
  | None => UsageStats.zero
  | Some usage =>
      let currentHour := hour_of now in
      let currentDay := day_of now in
      {| UsageStats.hourlyRequests :=
           get_count (requestCounts usage) (hourKey currentHour);
         UsageStats.dailyCost :=
           get_count (requestCounts usage) (costKey currentDay);
         UsageStats.highAccuracyRequests :=
           get_count (requestCounts usage) (dailyKey currentDay high);
         UsageStats.mediumAccuracyRequests :=
           get_count (requestCounts usage) (dailyKey currentDay medium) |}
  end.

(** The text up to the next colon. *)
Fixpoint until_colon (s : jsstring) : jsstring :=
  match s with
  | [] => []
  | c :: s' => if code_eqb c 58 then [] else c :: until_colon s'
  end.

(** [key.split(':')[1]]: the text between the first colon and the next
    one; [None] is [undefined], for a key without a colon. *)
Fixpoint split_colon_1 (key : jsstring) : option jsstring :=
  match key with
  | [] => None
  | c :: s' => if code_eqb c 58 then Some (until_colon s') else split_colon_1 s'
  end.

(** The value of a digit in a radix, if it is one. *)
Definition digit_value (radix : Z) (c : N) : option Z :=
  let value :=
    if is_digit c then Some (Z.of_N c - 48)%Z
    else if is_lower c then Some (Z.of_N c - 87)%Z
    else if is_upper c then Some (Z.of_N c - 55)%Z
    else None in
  match value with
  | Some v => if (v <? radix)%Z then Some v else None
  | None => None
  end.

(** The number the longest prefix of digits denotes; [acc] is [None] as
    long as no digit was read. *)
Fixpoint parse_digits (radix : Z) (s : jsstring) (acc : option Z) : option Z :=
  match s with
  | [] => acc
  | c :: s' =>
      match digit_value radix c with
      | Some v =>
          parse_digits radix s'
            (Some (radix * match acc with Some a => a | None => 0 end + v)%Z)
      | None => acc
      end
  end.

(** [parseInt(s)] without a radix: leading white space is skipped, a sign
    is read, a [0x] or [0X] prefix selects radix 16, and the longest prefix
    of digits is the result; [None] is [NaN].  The result is the integer
    read; the double [parseInt] returns is that integer up to 2^53 and its
    rounding above, which compares in the same way with every integer
    below 2^53. *)
Definition parseInt (s : jsstring) : option Z :=
  let s := trimStart s in
  let '(negative, s) :=
    match s with
    | c :: s' =>
        if code_eqb c 45 then (true, s')
        else if code_eqb c 43 then (false, s')
        else (false, s)
    | [] => (false, s)
    end in
  let '(radix, s) :=
    match s with
    | c :: x :: s' =>
        if code_eqb c 48 && (code_eqb x 120 || code_eqb x 88)
        then (16%Z, s') else (10%Z, s)
    | _ => (10%Z, s)
    end in
  match parse_digits radix s None with
  | Some v => Some (if negative then (- v)%Z else v)
  | None => None
  end.

(** [parseInt(str) < bound], false on [NaN]. *)
Definition parsed_below (str : jsstring) (bound : Z) : bool :=
  match parseInt str with
  | Some v => (v <? bound)%Z
  | None => false
  end.

(** Whether the inner loop of [cleanupOldEntries] deletes a key. *)
Definition is_stale (currentHour currentDay : N) (key : jsstring) : bool :=
  if starts_with (js "hour:") key then
    match split_colon_1 key with
    | Some hourStr =>
        truthy_string hourStr
        && parsed_below hourStr (Z.of_N currentHour - 1)
    | None => false
    end
  else if starts_with (js "day:") key || starts_with (js "cost:") key then
    match split_colon_1 key with
    | Some dayStr =>
        truthy_string dayStr
        && parsed_below dayStr (Z.of_N currentDay - 1)
    | None => false
    end
  else false.

(** [cleanupOldEntries] at clock reading [now].  Each entry of the two
    maps is visited once and judged on its own, so the loops are a filter
    of the table and of every remaining client's counters. *)
Definition cleanupOldEntries (clientUsage : gmap (list N) ClientUsage)
  (now : N) : gmap (list N) ClientUsage :=
  let cutoffTime := (Z.of_N now - 48 * 60 * 60 * 1000)%Z in
  let currentHour := hour_of now in
  let currentDay := day_of now in
  omap
    (fun usage =>
       if (Z.of_N (lastRequestTime usage) <? cutoffTime)%Z then None
       else
         Some
           {| requestCounts :=
                filter
                  (fun entry => is_stale currentHour currentDay (fst entry) = false)
                  (requestCounts usage);
              totalCost := totalCost usage;
              lastRequestTime := lastRequestTime usage |})
    clientUsage.

End Sweep.
Export Sweep.

Module LimiterCalls.

(** Whether a call is a [recordRequest] for the client. *)
Definition records_for (clientId : jsstring) (call : LimiterCall) : bool :=
  match call with
  | CheckRateLimit _ _ _ _ => false
  | RecordRequest _ other _ _ _ => jsstring_eqb other clientId
  end.

End LimiterCalls.
Export LimiterCalls.

(* ===================================================================== *)
(** * Request handler, continued                                         *)
(* ===================================================================== *)

Module HandlerSteps.

(** [{ ...validatedRequest, research_query: sanitizedQuery }] *)
Definition with_research_query (validatedRequest : DoDeepResearchRequest)
  (sanitizedQuery : jsstring) : DoDeepResearchRequest :=
  {| research_query := sanitizedQuery;
     accuracy_level := accuracy_level validatedRequest;
     max_tokens := max_tokens validatedRequest;
     temperature := temperature validatedRequest;
     include_sources := include_sources validatedRequest;
     response_format := response_format validatedRequest |}.

End HandlerSteps.
Export HandlerSteps.

(** Further inputs for the examples. *)
Module MoreSamples.

(** A query with white space at both ends and a run inside. *)
Definition spaced_request : DoDeepResearchRequest :=
  Samples.request_of "  history   of the steam engine " high (Some 4000%Q) None.

(** An API that rejects every call. *)
Definition failing_api : jsstring -> jsstring -> Outcome OpenAI.Response :=
  fun _ _ => Threw (ErrorObject (js "429 Too Many Requests")).

(** A completed response with its text in [output_text]. *)
Definition answered_response : OpenAI.Response :=
  {| OpenAI.status := Some (js "completed");
     OpenAI.output_text := Some (js " Steam engines [1] drove pumps [2]. ");
     OpenAI.output := Some [];
     OpenAI.text := Some (js "unused");
     OpenAI.content := None;
     OpenAI.usage := Some (Samples.usage_of 120 900 1020) |}.

(** A completed response whose only message holds one content item, with
    a number where its text should be. *)
Definition non_string_response : OpenAI.Response :=
  {| OpenAI.status := Some (js "completed");
     OpenAI.output_text := None;
     OpenAI.output :=
       Some [ OpenAI.Object
                {| OpenAI.output_type := js "message";
                   OpenAI.output_content :=
                     Some [ OpenAI.Object
                              {| OpenAI.content_type := js "output_text";
                                 OpenAI.content_text := OpenAI.NotText |} ] |} ];
     OpenAI.text := None;
     OpenAI.content := None;
     OpenAI.usage := Some (Samples.usage_of 120 900 1020) |}.

End MoreSamples.

(* ===================================================================== *)
(** * Research client, continued: [extractRelatedTopics]                 *)
(* ===================================================================== *)

Module Topics.

(** [s.split(sep)] for a separator of one code unit. *)
Fixpoint split_on (sep : N) (s : jsstring) : list jsstring :=
  match s with
  | [] => [[]]
  | c :: s' =>
      if code_eqb c sep then [] :: split_on sep s'
      else
        match split_on sep s' with
        | piece :: pieces => (c :: piece) :: pieces
        | [] => [[c]]
        end
  end.

(** The class of [/[-\*\d\.]/]. *)
Definition is_list_mark (c : N) : bool :=
  code_eqb c 45 || code_eqb c 42 || is_digit c || code_eqb c 46.

Definition mentions_related (line : jsstring) : bool :=
  includes (js "related") line
  || includes (js "also consider") line
  || includes (js "see also") line.

(** [line.replace(/[-\*\d\.]/g, '').trim()] *)
Definition topic_of (line : jsstring) : jsstring :=
  trim (replace_all (Class is_list_mark) [] line).

(** The [forEach] over the lines. *)
Fixpoint collect_topics (lines : list jsstring) : list jsstring :=
  match lines with
  | [] => []
  | line :: rest =>
      if mentions_related line then
        let topic := topic_of line in
        if Nat.ltb 10 (List.length topic) && Nat.ltb (List.length topic) 100
        then topic :: collect_topics rest
        else collect_topics rest
      else collect_topics rest
  end.

(** [extractRelatedTopics] *)
Definition extractRelatedTopics (content : jsstring) : list jsstring :=
  firstn 5 (collect_topics (split_on 10 content)).

End Topics.

(* ===================================================================== *)
(** * Values of any type                                                 *)
(* ===================================================================== *)

Module JsValues.

(** A number: finite, infinite or [NaN]. *)
Inductive Number : Type :=
| Finite (value : Q)
| Infinity (negative : bool)
| NaN.

(** [a < b] and [a > b] on numbers: false when either is [NaN]. *)
Definition lt (a b : Number) : bool :=
  match a, b with
  | NaN, _ | _, NaN => false
  | Finite x, Finite y => Qltb x y
  | Finite _, Infinity negative => negb negative
  | Infinity negative, Finite _ => negative
  | Infinity negative, Infinity negative' => negative && negb negative'
  end.
Definition gt (a b : Number) : bool := lt b a.

(** What is neither a primitive value nor a plain object. *)
Inductive Kind : Type :=
| KArray | KFunction | KBigInt | KSymbol | KDate | KPromise | KMap | KSet.

(** A value of type [unknown]; [O] is what is known of a plain object. *)
Inductive JsValue (O : Type) : Type :=
| JsUndefined
| JsNull
| JsBoolean (b : bool)
| JsNumber (n : Number)
| JsString (s : jsstring)
| JsObject (o : O)
| JsOther (kind : Kind).
Arguments JsUndefined {O}.
Arguments JsNull {O}.
Arguments JsBoolean {O} b.
Arguments JsNumber {O} n.
Arguments JsString {O} s.
Arguments JsObject {O} o.
Arguments JsOther {O} kind.

(** The name Zod's [getParsedType] gives the type of a value. *)
Definition parsedType {O} (v : JsValue O) : string :=
  match v with
  | JsUndefined => "undefined"
  | JsNull => "null"
  | JsBoolean _ => "boolean"
  | JsNumber NaN => "nan"
  | JsNumber _ => "number"
  | JsString _ => "string"
  | JsObject _ => "object"
  | JsOther KArray => "array"
  | JsOther KFunction => "function"
  | JsOther KBigInt => "bigint"
  | JsOther KSymbol => "symbol"
  | JsOther KDate => "date"
  | JsOther KPromise => "promise"
  | JsOther KMap => "map"
  | JsOther KSet => "set"
  end%string.

End JsValues.

(* ===================================================================== *)
(** * The validator on data of type [unknown]                            *)
(* ===================================================================== *)

Module UnknownData.

Import JsValues.

(** An object as [DoDeepResearchSchema] sees it: the six properties it
    reads, [JsUndefined] where the object has none; other properties are
    stripped. *)
Module Properties.
Record t : Type := {
  research_query : JsValue unit;
  accuracy_level : JsValue unit;
  max_tokens : JsValue unit;
  temperature : JsValue unit;
  include_sources : JsValue unit;
  response_format : JsValue unit
}.
End Properties.

(** The argument of [validateResearchRequest]. *)
Definition Data : Type := JsValue Properties.t.

(** The issue of Zod for a value of the wrong type, with the message of
    its default error map. *)
Definition invalid_type {O} (path expected : string) (v : JsValue O)
  : ValidationError :=
  {| field := js path;
     message :=
       match v with
       | JsUndefined => js "Required"
       | _ =>
           js "Expected " ++ js expected ++ js ", received "
           ++ js (parsedType v)
       end;
     code := js "invalid_type" |}.

(** The issues of a schema, or the value it parsed. *)
Definition issues_of {T} (r : list ValidationError + T)
  : list ValidationError :=
  match r with inl issues => issues | inr _ => [] end.

Definition checked {T} (issues : list ValidationError) (value : T)
  : list ValidationError + T :=
  match issues with [] => inr value | _ => inl issues end.

(** [ResearchQuerySchema]: the checks run on a string only. *)
Definition ResearchQuerySchema (v : JsValue unit)
  : list ValidationError + jsstring :=
  match v with
  | JsString query => checked (Validation.ResearchQuerySchema query) query
  | _ => inl [invalid_type "research_query" "string" v]
  end.

(** [AccuracyLevelSchema]: its error map gives every issue one message. *)
Definition AccuracyLevelSchema (v : JsValue unit)
  : list ValidationError + AccuracyLevel :=
  let message := "Accuracy level must be either 'high' or 'medium'"%string in
  match v with
  | JsString s =>
      if jsstring_eqb s (js "high") then inr high
      else if jsstring_eqb s (js "medium") then inr medium
      else inl [issue "accuracy_level" message "invalid_enum_value"]
  | _ => inl [issue "accuracy_level" message "invalid_type"]
  end.

(** [MaxTokensSchema.optional()]: [undefined] stays as it is, without the
    default; an infinity is a number and no integer. *)
Definition MaxTokensSchema (v : JsValue unit)
  : list ValidationError + option Q :=
  match v with
  | JsUndefined => inr None
  | JsNumber (Finite n) => checked (Validation.MaxTokensSchema (Some n)) (Some n)
  | JsNumber (Infinity negative) =>
      inl [ issue "max_tokens" "Max tokens must be an integer" "invalid_type";
            if negative
            then issue "max_tokens" "Max tokens must be at least 500"
                   "too_small"
            else issue "max_tokens" "Max tokens cannot exceed 8000"
                   "too_big" ]
  | _ => inl [invalid_type "max_tokens" "number" v]
  end.

(** [TemperatureSchema.optional()] *)
Definition TemperatureSchema (v : JsValue unit)
  : list ValidationError + option Q :=
  match v with
  | JsUndefined => inr None
  | JsNumber (Finite t) =>
      checked (Validation.TemperatureSchema (Some t)) (Some t)
  | JsNumber (Infinity negative) =>
      inl [ if negative
            then issue "temperature" "Temperature must be at least 0"
                   "too_small"
            else issue "temperature" "Temperature cannot exceed 1"
                   "too_big" ]
  | _ => inl [invalid_type "temperature" "number" v]
  end.

(** [z.boolean().default(true)] *)
Definition IncludeSourcesSchema (v : JsValue unit)
  : list ValidationError + bool :=
  match v with
  | JsUndefined => inr true
  | JsBoolean b => inr b
  | _ => inl [invalid_type "include_sources" "boolean" v]
  end.

(** [ResponseFormatSchema] *)
Definition ResponseFormatSchema (v : JsValue unit)
  : list ValidationError + ResponseFormat :=
  let message :=
    "Response format must be 'comprehensive', 'summary', or 'bullet_points'"%string
  in
  match v with
  | JsUndefined => inr comprehensive
  | JsString s =>
      if jsstring_eqb s (js "comprehensive") then inr comprehensive
      else if jsstring_eqb s (js "summary") then inr summary
      else if jsstring_eqb s (js "bullet_points") then inr bullet_points
      else inl [issue "response_format" message "invalid_enum_value"]
  | _ => inl [issue "response_format" message "invalid_type"]
  end.

(** [DoDeepResearchSchema.parse]: the value, or the issues of the
    [ZodError] it throws.  What is no plain object gives one issue with an
    empty path; the properties of an object are parsed in the order of the
    schema's keys, and their issues add up. *)
Definition DoDeepResearchSchema_parse (data : Data)
  : list ValidationError + DoDeepResearchRequest :=
  match data with
  | JsObject properties =>
      let query :=
        ResearchQuerySchema (Properties.research_query properties) in
      let level :=
        AccuracyLevelSchema (Properties.accuracy_level properties) in
      let tokens := MaxTokensSchema (Properties.max_tokens properties) in
      let temp := TemperatureSchema (Properties.temperature properties) in
      let sources :=
        IncludeSourcesSchema (Properties.include_sources properties) in
      let format :=
        ResponseFormatSchema (Properties.response_format properties) in
      match query, level, tokens, temp, sources, format with
      | inr query, inr level, inr tokens, inr temp, inr sources, inr format =>
          inr {| research_query := query;
                 accuracy_level := level;
                 max_tokens := tokens;
                 temperature := temp;
                 include_sources := Some sources;
                 response_format := Some format |}
      | _, _, _, _, _, _ =>
          inl (issues_of query ++ issues_of level ++ issues_of tokens
               ++ issues_of temp ++ issues_of sources ++ issues_of format)
      end
  | _ => inl [invalid_type "" "object" data]
  end.

Section Validator.

Variable toLowerCase : jsstring -> jsstring.

(** [validateResearchRequest] on any data.  Nothing in the [try] block
    throws but [DoDeepResearchSchema.parse], so the generic [catch] arm is
    dead. *)
Definition validateResearchRequest (data : Data)
  : M (ValidationResult DoDeepResearchRequest) :=
  match DoDeepResearchSchema_parse data with
  | inl validationErrors =>
      let* _ := log SevWarn "Research request validation failed" in
      ret (Invalid validationErrors)
  | inr validatedData =>
      let* businessValidation :=
        validateBusinessRules toLowerCase validatedData in
      match businessValidation with
      | Invalid _ => ret businessValidation
      | Valid _ =>
          match validateContentSafety (research_query validatedData) with
          | Invalid errors => ret (Invalid errors)
          | Valid _ => ret (Valid validatedData)
          end
      end
  end.

End Validator.

(** A request of the static type, as data. *)
Definition of_request (request : DoDeepResearchRequest) : Data :=
  JsObject
    {| Properties.research_query := JsString (research_query request);
       Properties.accuracy_level :=
         JsString (AccuracyLevel_toString (accuracy_level request));
       Properties.max_tokens :=
         match max_tokens request with
         | Some n => JsNumber (Finite n)
         | None => JsUndefined
         end;
       Properties.temperature :=
         match temperature request with
         | Some t => JsNumber (Finite t)
         | None => JsUndefined
         end;
       Properties.include_sources :=
         match include_sources request with
         | Some b => JsBoolean b
         | None => JsUndefined
         end;
       Properties.response_format :=
         match response_format request with
         | Some comprehensive => JsString (js "comprehensive")
         | Some summary => JsString (js "summary")
         | Some bullet_points => JsString (js "bullet_points")
         | None => JsUndefined
         end |}.

End UnknownData.

Module DataSamples.

Import JsValues.

(** An object with a number as query, a level that does not exist and a
    text where a boolean belongs. *)
Definition ill_typed_data : UnknownData.Data :=
  JsObject
    {| UnknownData.Properties.research_query := JsNumber (Finite 42);
       UnknownData.Properties.accuracy_level := JsString (js "low");
       UnknownData.Properties.max_tokens := JsUndefined;
       UnknownData.Properties.temperature := JsUndefined;
       UnknownData.Properties.include_sources := JsString (js "yes");
       UnknownData.Properties.response_format := JsUndefined |}.

End DataSamples.

(* ===================================================================== *)
(** * Configuration ([validateConfig], [loadConfig])                     *)
(* ===================================================================== *)

Module Config.

Import JsValues.

(** The settings [validateConfig] reads.  [parseInt] and [parseFloat] give
    [NaN] for a text they cannot read and an infinity for a number too
    large to hold. *)
Record OpenAIClientConfig : Type := {
  apiKey : jsstring;
  timeout : Number;
  maxRetries : Number
}.

Record RateLimitSettings : Type := {
  requests_per_hour : Number;
  requests_per_day : Number;
  tokens_per_day : Number;
  daily_cost_limit_usd : Number;
  high_accuracy_daily_limit : Number;
  medium_accuracy_daily_limit : Number
}.

Record Defaults : Type := {
  default_accuracy_level : jsstring;
  default_max_tokens : Number;
  default_temperature : Number;
  default_response_format : jsstring
}.

Record ServerConfig : Type := {
  openai : OpenAIClientConfig;
  redis_url : jsstring;
  rateLimits : RateLimitSettings;
  logLevel : jsstring;
  defaults : Defaults
}.

(** [if (cond) errors.push(msg)] *)
Definition push_if (cond : bool) (msg : jsstring) : list jsstring :=
  if cond then [msg] else [].

(** [list.includes(s)] on strings. *)
Definition one_of (list : list string) (s : jsstring) : bool :=
  existsb (fun x => jsstring_eqb s (js x)) list.

Definition validLogLevels : list string := ["error"; "warn"; "info"; "debug"]%string.

(** A text in double quotes. *)
Definition quoted (s : string) : jsstring := [34] ++ js s ++ [34].

(** [validateConfig].  The bound [0.01] is compared as 1/100: no double
    lies between the two. *)
Definition validateConfig (config : ServerConfig) : list jsstring :=
  let limits := rateLimits config in
  push_if (negb (truthy_string (apiKey (openai config))))
    (js "OpenAI API key is required (OPENAI_API_KEY)")
  ++ push_if (lt (timeout (openai config)) (Finite 10000))
       (js "OpenAI timeout must be at least 10 seconds")
  ++ push_if (lt (maxRetries (openai config)) (Finite 1)
              || gt (maxRetries (openai config)) (Finite 10))
       (js "OpenAI max retries must be between 1 and 10")
  ++ push_if (negb (truthy_string (redis_url config)))
       (js "Redis URL is required (REDIS_URL)")
  ++ push_if (lt (requests_per_hour limits) (Finite 1)
              || gt (requests_per_hour limits) (Finite 1000))
       (js "Requests per hour must be between 1 and 1000")
  ++ push_if (lt (requests_per_day limits) (Finite 1)
              || gt (requests_per_day limits) (Finite 10000))
       (js "Requests per day must be between 1 and 10000")
  ++ push_if (lt (daily_cost_limit_usd limits) (Finite (1 # 100))
              || gt (daily_cost_limit_usd limits) (Finite 1000))
       (js "Daily cost limit must be between $0.01 and $1000")
  ++ push_if (gt (high_accuracy_daily_limit limits)
                (requests_per_day limits))
       (js "High accuracy daily limit cannot exceed total daily requests")
  ++ push_if (gt (medium_accuracy_daily_limit limits)
                (requests_per_day limits))
       (js "Medium accuracy daily limit cannot exceed total daily requests")
  ++ push_if (negb (one_of validLogLevels (logLevel config)))
       (js "Log level must be one of: "
        ++ join (js ", ") (map js validLogLevels))
  ++ push_if (negb (one_of ["high"; "medium"]%string
                      (default_accuracy_level (defaults config))))
       (js "Default accuracy level must be " ++ quoted "high" ++ js " or "
        ++ quoted "medium")
  ++ push_if (lt (default_max_tokens (defaults config)) (Finite 500)
              || gt (default_max_tokens (defaults config)) (Finite 8000))
       (js "Default max tokens must be between 500 and 8000")
  ++ push_if (lt (default_temperature (defaults config)) (Finite 0)
              || gt (default_temperature (defaults config)) (Finite 1))
       (js "Default temperature must be between 0 and 1")
  ++ push_if (negb (one_of ["comprehensive"; "summary"; "bullet_points"]%string
                      (default_response_format (defaults config))))
       (js "Default response format must be " ++ quoted "comprehensive"
        ++ js ", " ++ quoted "summary" ++ js ", or "
        ++ quoted "bullet_points").

(** [loadConfig] on the configuration [getConfig] read from the
    environment. *)
Definition loadConfig (config : ServerConfig) : M ServerConfig :=
  let errors := validateConfig config in
  if Nat.ltb 0 (List.length errors) then
    throw (ErrorObject
             (js "Configuration validation failed:" ++ [10]
              ++ join [10] errors))
  else ret config.

(** [getRateLimitConfig]: a copy of the rate limits. *)
Definition getRateLimitConfig (config : ServerConfig) : RateLimitSettings :=
  rateLimits config.

(** The rate limits as the limiter carries them: its four plain numbers
    as rationals, a per-level limit that is [NaN] like an absent one (both
    are falsy, and no comparison with either holds).  Settings with
    another [NaN] or with an infinity have no such form. *)
Definition per_level (limit : Number) : option (option Q) :=
  match limit with
  | Finite v => Some (Some v)
  | NaN => Some None
  | Infinity _ => None
  end.

Definition as_limiter_config (settings : RateLimitSettings)
  : option RateLimitConfig :=
  match requests_per_hour settings, requests_per_day settings,
        tokens_per_day settings, daily_cost_limit_usd settings,
        per_level (high_accuracy_daily_limit settings),
        per_level (medium_accuracy_daily_limit settings) with
  | Finite perHour, Finite perDay, Finite tokens, Finite cost,
    Some highLimit, Some mediumLimit =>
      Some {| RateLimiter.requests_per_hour := perHour;
              RateLimiter.requests_per_day := perDay;
              RateLimiter.tokens_per_day := tokens;
              RateLimiter.daily_cost_limit_usd := cost;
              RateLimiter.high_accuracy_daily_limit := highLimit;
              RateLimiter.medium_accuracy_daily_limit := mediumLimit |}
  | _, _, _, _, _, _ => None
  end.

End Config.

Module ConfigSamples.

Import JsValues Config.

(** What [createDefaultConfig] builds when the environment holds an API
    key and nothing else. *)
Definition default_server_config : ServerConfig :=
  {| openai :=
       {| apiKey := js "sk-test";
          timeout := Finite 600000;
          maxRetries := Finite 3 |};
     redis_url := js "redis://localhost:6379";
     rateLimits :=
       {| requests_per_hour := Finite 10;
          requests_per_day := Finite 30;
          tokens_per_day := Finite 100000;
          daily_cost_limit_usd := Finite 25;
          high_accuracy_daily_limit := Finite 8;
          medium_accuracy_daily_limit := Finite 15 |};
     logLevel := js "info";
     defaults :=
       {| default_accuracy_level := js "medium";
          default_max_tokens := Finite 4000;
          default_temperature := Finite (3 # 10);
          default_response_format := js "comprehensive" |} |}.

(** The configuration read from an environment in which every numeric
    variable holds a text that is no number: all ten numbers are [NaN],
    the texts are as they were. *)
Definition unreadable_numbers (config : ServerConfig) : ServerConfig :=
  {| openai :=
       {| apiKey := apiKey (openai config);
          timeout := NaN;
          maxRetries := NaN |};
     redis_url := redis_url config;
     rateLimits :=
       {| requests_per_hour := NaN;
          requests_per_day := NaN;
          tokens_per_day := NaN;
          daily_cost_limit_usd := NaN;
          high_accuracy_daily_limit := NaN;
          medium_accuracy_daily_limit := NaN |};
     logLevel := logLevel config;
     defaults :=
       {| default_accuracy_level := default_accuracy_level (defaults config);
          default_max_tokens := NaN;
          default_temperature := NaN;
          default_response_format :=
            default_response_format (defaults config) |} |}.

End ConfigSamples.

(* ===================================================================== *)
(** * The matcher decides the language of a pattern                      *)
(* ===================================================================== *)

Lemma lang_void (w : jsstring) : ~ lang Void w.
Proof. intros H. inversion H. Qed.

Lemma lang_eps_inv (w : jsstring) : lang Eps w -> w = [].
Proof. intros H. inversion H. reflexivity. Qed.

Lemma lang_class_inv (p : N -> bool) (w : jsstring) :
  lang (Class p) w -> exists c, w = [c] /\ p c = true.
Proof. intros H. inversion H; subst. eauto. Qed.

Lemma lang_cat_inv (a b : regex) (w : jsstring) :
  lang (Cat a b) w -> exists u v, w = u ++ v /\ lang a u /\ lang b v.
Proof. intros H. inversion H; subst. eauto. Qed.

Lemma lang_alt_inv (a b : regex) (w : jsstring) :
  lang (Alt a b) w -> lang a w \/ lang b w.
Proof. intros H. inversion H; subst; auto. Qed.

Lemma nullable_lang (r : regex) : nullable r = true <-> lang r [].
Proof.
  induction r as [| |p|a IHa b IHb|a IHa b IHb|a IHa]; simpl.
  - split; [discriminate | intros H; inversion H].
  - split; [constructor | reflexivity].
  - split; [discriminate | intros H; inversion H].
  - rewrite andb_true_iff, IHa, IHb. split.
    + intros [Ha Hb]. apply (lang_cat a b [] [] Ha Hb).
    + intros H. apply lang_cat_inv in H as (u & v & Heq & Hu & Hv).
      symmetry in Heq. apply app_eq_nil in Heq as [-> ->]. split; assumption.
  - rewrite orb_true_iff, IHa, IHb. split.
    + intros [H|H]; [apply lang_alt_l | apply lang_alt_r]; exact H.
    + apply lang_alt_inv.
  - split; [constructor | reflexivity].
Qed.

Lemma is_void_lang (r : regex) (w : jsstring) :
  is_void r = true -> ~ lang r w.
Proof. destruct r; try discriminate. intros _. apply lang_void. Qed.

Lemma cat_lang (a b : regex) (w : jsstring) :
  lang (cat a b) w <-> lang (Cat a b) w.
Proof.
  assert (Hvl : lang Void w <-> lang (Cat Void b) w).
  { split; intros H; [inversion H|].
    apply lang_cat_inv in H as (u & v & _ & Hu & _).
    exfalso. exact (lang_void u Hu). }
  assert (Hvr : lang Void w <-> lang (Cat a Void) w).
  { split; intros H; [inversion H|].
    apply lang_cat_inv in H as (u & v & _ & _ & Hv).
    exfalso. exact (lang_void v Hv). }
  assert (Heps : lang b w <-> lang (Cat Eps b) w).
  { split.
    - intros H. apply (lang_cat Eps b [] w); [constructor | exact H].
    - intros H. apply lang_cat_inv in H as (u & v & -> & Hu & Hv).
      apply lang_eps_inv in Hu. subst u. exact Hv. }
  destruct a; simpl; try exact Hvl;
    destruct b; simpl; try reflexivity; try exact Hvr; try exact Heps.
Qed.

Lemma alt_lang (a b : regex) (w : jsstring) :
  lang (alt a b) w <-> lang (Alt a b) w.
Proof.
  assert (Hl : lang b w <-> lang (Alt Void b) w).
  { split; [apply lang_alt_r|].
    intros H. apply lang_alt_inv in H as [H|H]; [|exact H].
    exfalso. exact (lang_void w H). }
  assert (Hr : lang a w <-> lang (Alt a Void) w).
  { split; [apply lang_alt_l|].
    intros H. apply lang_alt_inv in H as [H|H]; [exact H|].
    exfalso. exact (lang_void w H). }
  destruct a; simpl; try exact Hl; destruct b; simpl;
    try reflexivity; try exact Hr.
Qed.

(** A non-empty word of an iteration starts with a non-empty word of the
    iterated pattern. *)
Lemma lang_star_cons_inv (a : regex) (c : N) (w : jsstring) :
  lang (Star a) (c :: w) ->
  exists u v, w = u ++ v /\ lang a (c :: u) /\ lang (Star a) v.
Proof.
  intros H. remember (Star a) as r eqn:Er. remember (c :: w) as s eqn:Es.
  revert c w Es.
  induction H as [| | | | | |a0 u v Hu _ Hv IHv]; try discriminate;
    intros c w Es.
  injection Er as ->. destruct u as [|c0 u].
  - apply IHv; [reflexivity | exact Es].
  - injection Es as -> <-. exists u, v. repeat split; assumption.
Qed.

Lemma deriv_lang (r : regex) :
  forall (c : N) (w : jsstring), lang (deriv c r) w <-> lang r (c :: w).
Proof.
  induction r as [| |p|a IHa b IHb|a IHa b IHb|a IHa]; intros c w; simpl.
  - split; intros H; inversion H.
  - split; intros H; inversion H.
  - destruct (p c) eqn:Hp; split; intros H.
    + apply lang_eps_inv in H. subst w. constructor. exact Hp.
    + apply lang_class_inv in H as (c0 & [= -> ->] & _). constructor.
    + inversion H.
    + apply lang_class_inv in H as (c0 & [= -> ->] & H). congruence.
  - rewrite alt_lang. split.
    + intros H. apply lang_alt_inv in H as [H|H].
      * apply cat_lang, lang_cat_inv in H as (u & v & -> & Hu & Hv).
        apply IHa in Hu. apply (lang_cat a b (c :: u) v Hu Hv).
      * destruct (nullable a) eqn:Hn; [|inversion H].
        apply IHb in H. apply nullable_lang in Hn.
        apply (lang_cat a b [] (c :: w) Hn H).
    + intros H. apply lang_cat_inv in H as (u & v & Heq & Hu & Hv).
      destruct u as [|c0 u].
      * simpl in Heq. subst v. apply lang_alt_r.
        apply nullable_lang in Hu. rewrite Hu. apply IHb. exact Hv.
      * injection Heq as <- ->. apply lang_alt_l, cat_lang.
        apply lang_cat; [apply IHa; exact Hu | exact Hv].
  - rewrite alt_lang. split; intros H; apply lang_alt_inv in H as [H|H].
    + apply lang_alt_l, IHa, H.
    + apply lang_alt_r, IHb, H.
    + apply lang_alt_l, IHa, H.
    + apply lang_alt_r, IHb, H.
  - rewrite cat_lang. split.
    + intros H. apply lang_cat_inv in H as (u & v & -> & Hu & Hv).
      apply IHa in Hu. apply (lang_star_cons a (c :: u) v Hu Hv).
    + intros H. apply lang_star_cons_inv in H as (u & v & -> & Hu & Hv).
      apply lang_cat; [apply IHa; exact Hu | exact Hv].
Qed.

(** [match_prefix] finds the prefixes in the language. *)
Lemma match_prefix_lang (s : jsstring) :
  forall r : regex,
    match_prefix r s = true <-> exists u v, s = u ++ v /\ lang r u.
Proof.
  induction s as [|c s IH]; intros r; simpl.
  - rewrite orb_false_r, nullable_lang. split.
    + intros H. exists [], []. split; [reflexivity | exact H].
    + intros (u & v & Heq & H). symmetry in Heq.
      apply app_eq_nil in Heq as [-> _]. exact H.
  - rewrite orb_true_iff, nullable_lang. split.
    + intros [H|H].
      * exists [], (c :: s). split; [reflexivity | exact H].
      * destruct (is_void r); [discriminate|].
        apply IH in H as (u & v & -> & H). apply deriv_lang in H.
        exists (c :: u), v. split; [reflexivity | exact H].
    + intros (u & v & Heq & H). destruct u as [|c0 u]; [left; exact H|].
      right. injection Heq as -> ->.
      destruct (is_void r) eqn:Hv;
        [exfalso; eapply is_void_lang; eassumption|].
      apply IH. exists u, v. split; [reflexivity|].
      apply deriv_lang. exact H.
Qed.

Lemma test_unfold (r : regex) (s : jsstring) :
  test r s
  = match_prefix r s || match s with [] => false | _ :: s' => test r s' end.
Proof. destruct s; reflexivity. Qed.

(** [test] finds the substrings in the language. *)
Lemma test_lang (r : regex) (s : jsstring) :
  test r s = true <-> exists a u b, s = a ++ u ++ b /\ lang r u.
Proof.
  induction s as [|c s IH]; rewrite test_unfold.
  - rewrite orb_false_r, match_prefix_lang. split.
    + intros (u & v & Heq & H). exists [], u, v. split; assumption.
    + intros (a & u & b & Heq & H). symmetry in Heq.
      apply app_eq_nil in Heq as [-> Heq]. exists u, b.
      split; [symmetry; exact Heq | exact H].
  - rewrite orb_true_iff, match_prefix_lang, IH. split.
    + intros [(u & v & Heq & H) | (a & u & b & Heq & H)].
      * exists [], u, v. split; assumption.
      * exists (c :: a), u, b. split; [rewrite Heq; reflexivity | exact H].
    + intros (a & u & b & Heq & H). destruct a as [|c0 a].
      * left. exists u, b. split; assumption.
      * right. injection Heq as -> ->. exists a, u, b.
        split; [reflexivity | exact H].
Qed.

(** The words of a case-insensitive literal: the literal up to the case of
    its ASCII letters. *)
Lemma lit_ci_lang (p : jsstring) :
  forall w : jsstring,
    lang (lit_ci p) w <-> Forall2 (fun a b => eqb_ci a b = true) p w.
Proof.
  induction p as [|a p IH]; intros w; simpl.
  - split.
    + intros H. apply lang_eps_inv in H. subst w. constructor.
    + intros H. inversion H. constructor.
  - split.
    + intros H. apply lang_cat_inv in H as (u & v & -> & Hu & Hv).
      apply lang_class_inv in Hu as (c & -> & Hc).
      constructor; [exact Hc | apply IH; exact Hv].
    + intros H. inversion H as [|? b ? w' Hab Hrest]; subst.
      apply (lang_cat (chr_ci a) (lit_ci p) [b] w').
      * constructor. exact Hab.
      * apply IH. exact Hrest.
Qed.

(* ===================================================================== *)
(** * Properties of the validator                                        *)
(* ===================================================================== *)

Section ValidatorFacts.

Variable toLowerCase : jsstring -> jsstring.

Lemma check_true (e : ValidationError) : check true e = [e].
Proof. reflexivity. Qed.

Lemma check_false (e : ValidationError) : check false e = [].
Proof. reflexivity. Qed.

(** The business rules read three fields, none of which parsing changes. *)
Lemma business_rule_errors_output (data : DoDeepResearchRequest) :
  business_rule_errors (DoDeepResearchSchema_output data)
  = business_rule_errors data.
Proof. reflexivity. Qed.

Lemma parse_ok (data : DoDeepResearchRequest) :
  DoDeepResearchSchema_issues data = [] ->
  DoDeepResearchSchema_parse data = inr (DoDeepResearchSchema_output data).
Proof. unfold DoDeepResearchSchema_parse. intros ->. reflexivity. Qed.

Lemma parse_failed (data : DoDeepResearchRequest) :
  DoDeepResearchSchema_issues data <> [] ->
  DoDeepResearchSchema_parse data = inl (DoDeepResearchSchema_issues data).
Proof.
  unfold DoDeepResearchSchema_parse.
  destruct (DoDeepResearchSchema_issues data); [congruence | reflexivity].
Qed.

(** What [validateBusinessRules] returns, whatever it logs. *)
Lemma validateBusinessRules_outcome (request : DoDeepResearchRequest) :
  outcome (validateBusinessRules toLowerCase request)
  = Returned (match business_rule_errors request with
              | [] => Valid request
              | es => Invalid es
              end).
Proof.
  unfold validateBusinessRules.
  destruct (accuracy_level request),
    (assessQueryComplexity toLowerCase (research_query request)),
    (business_rule_errors request); reflexivity.
Qed.

(** The result of [validateResearchRequest] as a function of the three
    stages. *)
Lemma validateResearchRequest_outcome (data : DoDeepResearchRequest) :
  outcome (validateResearchRequest toLowerCase data)
  = Returned
      (match DoDeepResearchSchema_issues data with
       | [] =>
           match business_rule_errors data with
           | [] =>
               match validateContentSafety (research_query data) with
               | Invalid es => Invalid es
               | Valid _ => Valid (DoDeepResearchSchema_output data)
               end
           | es => Invalid es
           end
       | es => Invalid es
       end).
Proof.
  unfold validateResearchRequest, DoDeepResearchSchema_parse.
  destruct (DoDeepResearchSchema_issues data) as [|i rest]; [|reflexivity].
  pose proof (validateBusinessRules_outcome (DoDeepResearchSchema_output data)) as Hb.
  rewrite business_rule_errors_output in Hb.
  destruct (validateBusinessRules toLowerCase (DoDeepResearchSchema_output data))
    as [t o].
  unfold outcome in Hb. simpl in Hb. subst o.
  destruct (business_rule_errors data); simpl.
  - destruct (validateContentSafety (research_query data)); reflexivity.
  - reflexivity.
Qed.

(** Every event of a validation is a log record. *)
Lemma validateResearchRequest_trace (data : DoDeepResearchRequest) :
  forallb is_log (trace (validateResearchRequest toLowerCase data)) = true.
Proof.
  unfold validateResearchRequest, validateBusinessRules.
  destruct (DoDeepResearchSchema_parse data) as [es|v]; [reflexivity|].
  destruct (accuracy_level v),
    (assessQueryComplexity toLowerCase (research_query v)),
    (business_rule_errors v); simpl;
    try reflexivity;
    destruct (validateContentSafety (research_query v)); reflexivity.
Qed.

Lemma content_safety_dangerous (query : jsstring) :
  matches_dangerous query = true ->
  exists rest, validateContentSafety query = Invalid (security_error :: rest).
Proof.
  intros H. unfold validateContentSafety. rewrite H, check_true.
  simpl. eexists. reflexivity.
Qed.

End ValidatorFacts.

(** What [matches_dangerous] decides: some substring of the query is a
    word of one of the six patterns. *)
Lemma matches_dangerous_lang (query : jsstring) :
  matches_dangerous query = true
  <-> exists pattern before matched after,
        In pattern dangerousPatterns
        /\ query = before ++ matched ++ after
        /\ lang pattern matched.
Proof.
  unfold matches_dangerous. rewrite existsb_exists. split.
  - intros (pattern & Hin & Ht). apply test_lang in Ht as (a & u & b & Hq & Hl).
    exists pattern, a, u, b. repeat split; assumption.
  - intros (pattern & a & u & b & Hin & Hq & Hl).
    exists pattern. split; [exact Hin|]. apply test_lang. eauto.
Qed.

(** C1 (as the code has it).  A query that matches one of the injection
    patterns is always rejected.  The rejection carries the error of code
    [security], in first place, when the request has passed the schema and
    the business rules, which run before the content-safety check and end
    the validation when they fail. *)
Theorem injection_query_rejected
  (toLowerCase : jsstring -> jsstring) (data : DoDeepResearchRequest) :
  matches_dangerous (research_query data) = true ->
  (exists errors,
      outcome (validateResearchRequest toLowerCase data)
      = Returned (Invalid errors))
  /\ (DoDeepResearchSchema_issues data = [] ->
      business_rule_errors data = [] ->
      exists rest,
        outcome (validateResearchRequest toLowerCase data)
        = Returned (Invalid (security_error :: rest))
        /\ code security_error = js "security").
Proof.
  intros Hm. rewrite validateResearchRequest_outcome.
  destruct (content_safety_dangerous _ Hm) as [rest Hs].
  split.
  - destruct (DoDeepResearchSchema_issues data); [|eauto].
    destruct (business_rule_errors data); [|eauto].
    rewrite Hs. eauto.
  - intros -> ->. rewrite Hs. exists rest. split; reflexivity.
Qed.

Lemma injection_query_rejected_witness :
  matches_dangerous (research_query Samples.protocol_request) = true
  /\ exists rest,
       outcome (validateResearchRequest Samples.ascii_toLowerCase
                  Samples.protocol_request)
       = Returned (Invalid (security_error :: rest)).
Proof.
  split; [vm_compute; reflexivity|].
  destruct (injection_query_rejected Samples.ascii_toLowerCase
              Samples.protocol_request) as [_ Hsec];
    [vm_compute; reflexivity|].
  destruct Hsec as (rest & Ho & _);
    [vm_compute; reflexivity | vm_compute; reflexivity |].
  exists rest. exact Ho.
Defined.

(** C1, as stated, fails on its own example: the query
    [<script>alert(1)</script>] matches the script-tag pattern, yet the
    schema's no-angle-bracket rule rejects it first, with the single error
    of code [invalid_string]; no error of code [security] is returned. *)
Lemma script_tag_rejected_by_schema :
  matches_dangerous (js "<script>alert(1)</script>") = true
  /\ outcome (validateResearchRequest Samples.ascii_toLowerCase
                Samples.script_request)
     = Returned
         (Invalid
            [ issue "research_query"
                "Research query cannot contain HTML/XML tags" "invalid_string" ])
  /\ ~ (exists errors e,
           outcome (validateResearchRequest Samples.ascii_toLowerCase
                      Samples.script_request)
           = Returned (Invalid errors)
           /\ In e errors /\ code e = js "security").
Proof.
  split; [vm_compute; reflexivity|].
  split; [vm_compute; reflexivity|].
  intros (errors & e & Ho & Hin & Hc).
  vm_compute in Ho. injection Ho as <-.
  destruct Hin as [<- | []]. vm_compute in Hc. discriminate Hc.
Qed.

(** C7.  On a request that passes the schema with [accuracy_level = high]:
    [max_tokens < 2000] makes validation fail with the [max_tokens]
    business-rule error; with [max_tokens = 3000] no returned error names
    [max_tokens]; [temperature > 0.5] makes validation fail with the
    [temperature] business-rule error. *)
Theorem high_accuracy_business_rules
  (toLowerCase : jsstring -> jsstring) (data : DoDeepResearchRequest) :
  DoDeepResearchSchema_issues data = [] ->
  accuracy_level data = high ->
  (forall n, max_tokens data = Some n -> (n < 2000)%Q ->
     exists errors,
       outcome (validateResearchRequest toLowerCase data)
       = Returned (Invalid errors)
       /\ In max_tokens_error errors
       /\ field max_tokens_error = js "max_tokens"
       /\ code max_tokens_error = js "business_rule")
  /\ (forall n, max_tokens data = Some n -> (n == 3000)%Q ->
      forall errors,
        outcome (validateResearchRequest toLowerCase data)
        = Returned (Invalid errors) ->
        Forall (fun e => field e <> js "max_tokens") errors)
  /\ (forall t, temperature data = Some t -> (1 # 2 < t)%Q ->
      exists errors,
        outcome (validateResearchRequest toLowerCase data)
        = Returned (Invalid errors)
        /\ In temperature_error errors
        /\ code temperature_error = js "business_rule").
Proof.
  intros Hs Hh. rewrite validateResearchRequest_outcome, Hs.
  pose proof Hs as Hs'. unfold DoDeepResearchSchema_issues in Hs'.
  apply app_eq_nil in Hs' as [_ Hs']. apply app_eq_nil in Hs' as [Hmt _].
  repeat split.
  - intros n Hn Hlt. unfold business_rule_errors. rewrite Hh, Hn. simpl.
    assert (Ht : Qtruthy n && Qltb n 2000 = true).
    { rewrite Hn in Hmt. simpl in Hmt.
      apply app_eq_nil in Hmt as [_ Hmt]. apply app_eq_nil in Hmt as [Hmin _].
      unfold check in Hmin.
      destruct (Qltb n 500) eqn:E500; [discriminate|].
      unfold Qltb in E500. apply negb_false_iff, Qle_bool_iff in E500.
      apply andb_true_iff. split.
      - unfold Qtruthy. apply negb_true_iff.
        destruct (Qeq_bool n 0) eqn:E0; [|reflexivity].
        apply Qeq_bool_iff in E0. rewrite E0 in E500.
        exfalso. revert E500. apply Qlt_not_le. reflexivity.
      - unfold Qltb. apply negb_true_iff.
        destruct (Qle_bool 2000 n) eqn:E; [|reflexivity].
        apply Qle_bool_iff in E. exfalso. revert E. apply Qlt_not_le, Hlt. }
    rewrite Ht, check_true. simpl. eexists. split; [reflexivity|].
    split; [left; reflexivity|]. split; reflexivity.
  - intros n Hn H3000 errors. unfold business_rule_errors. rewrite Hh, Hn.
    simpl.
    assert (Hf : Qtruthy n && Qltb n 2000 = false).
    { apply andb_false_iff. right. unfold Qltb. apply negb_false_iff.
      apply Qle_bool_iff. rewrite H3000. discriminate. }
    rewrite Hf, check_false. simpl.
    destruct (temperature data) as [t|]; simpl.
    + destruct (Qgtb t (1 # 2)); simpl.
      * intros [= <-]. repeat constructor. vm_compute. discriminate.
      * unfold validateContentSafety.
        repeat (match goal with
                | |- context [check ?b ?e] => destruct b; simpl
                end);
          intros [= <-]; repeat constructor; vm_compute; discriminate.
    + unfold validateContentSafety.
      repeat (match goal with
              | |- context [check ?b ?e] => destruct b; simpl
              end);
        intros [= <-]; repeat constructor; vm_compute; discriminate.
  - intros t Ht Hgt. unfold business_rule_errors. rewrite Hh, Ht. simpl.
    assert (Hg : Qgtb t (1 # 2) = true).
    { unfold Qgtb, Qltb. apply negb_true_iff.
      destruct (Qle_bool t (1 # 2)) eqn:E; [|reflexivity].
      apply Qle_bool_iff in E. exfalso. revert E. apply Qlt_not_le, Hgt. }
    rewrite Hg, check_true.
    destruct (check _ max_tokens_error) as [|e0 l0] eqn:Ec; simpl.
    + eexists. split; [reflexivity|]. split; [left; reflexivity|reflexivity].
    + eexists. split; [reflexivity|].
      split; [|reflexivity].
      unfold check in Ec.
      destruct (match max_tokens data with
                | Some n => Qtruthy n && Qltb n 2000
                | None => false
                end); [|discriminate].
      injection Ec as <- <-. right. left. reflexivity.
Qed.

Lemma high_accuracy_business_rules_witness :
  DoDeepResearchSchema_issues Samples.frugal_request = []
  /\ accuracy_level Samples.frugal_request = high
  /\ max_tokens Samples.frugal_request = Some 1000%Q
  /\ temperature Samples.frugal_request = Some (7 # 10)
  /\ (exists errors,
        outcome (validateResearchRequest Samples.ascii_toLowerCase
                   Samples.frugal_request)
        = Returned (Invalid errors)
        /\ In max_tokens_error errors)
  /\ (exists errors,
        outcome (validateResearchRequest Samples.ascii_toLowerCase
                   Samples.frugal_request)
        = Returned (Invalid errors)
        /\ In temperature_error errors).
Proof.
  split; [vm_compute; reflexivity|].
  repeat (split; [reflexivity|]).
  destruct (high_accuracy_business_rules Samples.ascii_toLowerCase
              Samples.frugal_request) as (Hlow & _ & Hwarm);
    [vm_compute; reflexivity | reflexivity |].
  split.
  - destruct (Hlow 1000%Q eq_refl) as (errors & Ho & Hin & _);
      [reflexivity|].
    exists errors. split; assumption.
  - destruct (Hwarm (7 # 10) eq_refl) as (errors & Ho & Hin & _);
      [reflexivity|].
    exists errors. split; assumption.
Defined.

(* ===================================================================== *)
(** * Properties of [sanitizeQuery]                                      *)
(* ===================================================================== *)

(** C2 fails on the code.  Removing the inner [javascript:] of
    [javajavascript:script:] joins the two halves around it into a new
    [javascript:], which the single pass leaves in the result, where the
    injection pattern still finds it; a second run removes it, so the two
    runs differ. *)
Lemma sanitizeQuery_twice_differs :
  outcome (sanitizeQuery (js "javajavascript:script:"))
  = Returned (js "javascript:")
  /\ test (lit_ci (js "javascript:")) (js "javascript:") = true
  /\ outcome (sanitizeQuery (js "javascript:")) = Returned []
  /\ ~ (forall x once twice,
          outcome (sanitizeQuery x) = Returned once ->
          outcome (sanitizeQuery once) = Returned twice ->
          twice = once).
Proof.
  split; [vm_compute; reflexivity|].
  split; [vm_compute; reflexivity|].
  split; [vm_compute; reflexivity|].
  intros H.
  specialize (H (js "javajavascript:script:") (js "javascript:") []).
  discriminate H; vm_compute; reflexivity.
Qed.

(** The cut at 2000 code units comes after the trim, so it can leave white
    space at the end, which a second run trims: here 1999 letters, a
    space and one more letter. *)
Lemma sanitizeQuery_cut_leaves_space :
  outcome (sanitizeQuery (repeat 97 1999 ++ [32; 98]))
  = Returned (repeat 97 1999 ++ [32])
  /\ outcome (sanitizeQuery (repeat 97 1999 ++ [32]))
     = Returned (repeat 97 1999).
Proof. split; vm_compute; reflexivity. Qed.

(* ===================================================================== *)
(** * Properties of the cost computation                                 *)
(* ===================================================================== *)

(** The integer [toFixed(4)] prints is within half a unit of the number
    scaled by [10^4]. *)
Lemma toFixed4_units_nearest (q : Q) :
  (Qabs (inject_Z (toFixed4_units q) - q * 10000) <= 1 # 2)%Q.
Proof.
  unfold toFixed4_units.
  set (y := (q * 10000)%Q).
  pose proof (Qfloor_le (y + (1 # 2))%Q) as Hle.
  pose proof (Qlt_floor (y + (1 # 2))%Q) as Hlt.
  set (n := Qfloor (y + (1 # 2))%Q) in *.
  rewrite inject_Z_plus in Hlt. change (inject_Z 1) with 1%Q in Hlt.
  apply Qabs_Qle_condition. split; lra.
Qed.

Section Rounding.

Local Open Scope Z_scope.

Lemma pow2_pos (z : Z) : 0 <= z -> 0 < 2 ^ z.
Proof. intros H. apply Z.pow_pos_nonneg; lia. Qed.

(** Comparisons of [n / d] with a power of two do not depend on the
    scaling. *)
Lemma below_pow2_scaled (n d z P R : Z) :
  0 <= P -> 0 <= R -> R - P = z ->
  below_pow2 n d z = (n * 2 ^ P <? d * 2 ^ R).
Proof.
  intros HP HR Hz. unfold below_pow2.
  destruct (Z.le_ge_cases 0 z) as [Hs|Hs].
  - rewrite (Z.max_l 0 (- z)), (Z.max_r 0 z) by lia.
    replace R with (z + P) by lia. rewrite Z.pow_add_r by lia.
    pose proof (pow2_pos P HP). pose proof (pow2_pos z Hs).
    rewrite Z.pow_0_r, Z.mul_1_r.
    destruct (Z.ltb_spec n (d * 2 ^ z)), (Z.ltb_spec (n * 2 ^ P) (d * (2 ^ z * 2 ^ P)));
      try reflexivity; exfalso; nia.
  - rewrite (Z.max_r 0 (- z)), (Z.max_l 0 z) by lia.
    replace P with (- z + R) by lia. rewrite Z.pow_add_r by lia.
    pose proof (pow2_pos R HR). pose proof (pow2_pos (- z) ltac:(lia)).
    rewrite Z.pow_0_r, Z.mul_1_r.
    destruct (Z.ltb_spec (n * 2 ^ (- z)) d),
      (Z.ltb_spec (n * (2 ^ (- z) * 2 ^ R)) (d * 2 ^ R));
      try reflexivity; exfalso; nia.
Qed.

(** The quotient lies between the powers of two next to the difference of
    the logarithms. *)
Lemma below_pow2_log2 (n d : Z) :
  0 < n -> 0 < d ->
  let c := Z.log2 n - Z.log2 d in
  below_pow2 n d (c - 1) = false /\ below_pow2 n d (c + 1) = true.
Proof.
  intros Hn Hd c.
  pose proof (Z.log2_spec n Hn) as [Hn1 Hn2].
  pose proof (Z.log2_spec d Hd) as [Hd1 Hd2].
  pose proof (Z.log2_nonneg n) as Ha. pose proof (Z.log2_nonneg d) as Hb.
  set (a := Z.log2 n) in *. set (b := Z.log2 d) in *.
  pose proof (pow2_pos a Ha). pose proof (pow2_pos b Hb).
  unfold Z.succ in Hn2, Hd2.
  rewrite Z.pow_add_r, Z.pow_1_r in Hn2, Hd2 by lia.
  split.
  - rewrite (below_pow2_scaled n d (c - 1) (b + 1) a) by (subst c; lia).
    apply Z.ltb_ge. rewrite Z.pow_add_r, Z.pow_1_r by lia.
    apply (Z.le_trans _ (2 ^ b * 2 * 2 ^ a)); [nia|].
    rewrite (Z.mul_comm n). apply Z.mul_le_mono_nonneg_l; lia.
  - rewrite (below_pow2_scaled n d (c + 1) b (a + 1)) by (subst c; lia).
    apply Z.ltb_lt. rewrite Z.pow_add_r, Z.pow_1_r by lia.
    apply (Z.lt_le_trans _ (2 ^ a * 2 * 2 ^ b)); [nia|].
    rewrite (Z.mul_comm d). apply Z.mul_le_mono_nonneg_l; lia.
Qed.

Lemma below_pow2_mono (n d z z' : Z) :
  0 < n -> 0 < d -> z <= z' ->
  below_pow2 n d z = true -> below_pow2 n d z' = true.
Proof.
  intros Hn Hd Hz.
  set (S := Z.max 0 (- z) + Z.max 0 (- z')).
  rewrite (below_pow2_scaled n d z S (S + z)) by (subst S; lia).
  rewrite (below_pow2_scaled n d z' S (S + z')) by (subst S; lia).
  rewrite !Z.ltb_lt. intros H.
  eapply Z.lt_le_trans; [exact H|].
  apply Z.mul_le_mono_nonneg_l; [lia|].
  apply Z.pow_le_mono_r; subst S; lia.
Qed.

(** Rounding moves by half a unit at most. *)
Lemma round_half_even_spec (num den : Z) :
  0 < den ->
  let m := round_half_even num den in
  num / den <= m <= num / den + 1
  /\ Z.abs (2 * (m * den - num)) <= den
  /\ (Z.abs (2 * (m * den - num)) = den -> Z.even m = true).
Proof.
  intros Hden. unfold round_half_even.
  pose proof (Z.div_mod num den ltac:(lia)) as Hdm.
  pose proof (Z.mod_pos_bound num den Hden) as Hr.
  set (k := num / den) in *. set (r := num mod den) in *.
  destruct (Z.ltb_spec (2 * r) den) as [H1|H1].
  { cbv zeta. split; [lia|]. split; [nia|]. intros E. exfalso. nia. }
  destruct (Z.ltb_spec den (2 * r)) as [H2|H2].
  { cbv zeta. split; [lia|]. split; [nia|]. intros E. exfalso. nia. }
  destruct (Z.even k) eqn:Ek.
  { cbv zeta. split; [lia|]. split; [nia|]. intros _. exact Ek. }
  cbv zeta. split; [lia|]. split; [nia|]. intros _.
  rewrite Z.even_add, Ek. reflexivity.
Qed.

(** The exponent that brings the quotient between [2^52] and [2^53]. *)
Lemma exponent_normal (n d : Z) :
  0 < n -> 0 < d ->
  let c := Z.log2 n - Z.log2 d in
  let e := if below_pow2 n d c then c - 53 else c - 52 in
  below_pow2 n d (e + 52) = false /\ below_pow2 n d (e + 53) = true.
Proof.
  intros Hn Hd c e. destruct (below_pow2_log2 n d Hn Hd) as [Hlo Hhi].
  fold c in Hlo, Hhi. subst e.
  destruct (below_pow2 n d c) eqn:Hc.
  - replace (c - 53 + 52) with (c - 1) by lia.
    replace (c - 53 + 53) with c by lia. split; assumption.
  - replace (c - 52 + 52) with c by lia.
    replace (c - 52 + 53) with (c + 1) by lia. split; assumption.
Qed.

(** The quotient scaled by [2^-e], as a fraction of integers. *)
Lemma scaled_bounds (n d e : Z) :
  0 < n -> 0 < d ->
  below_pow2 n d (e + 52) = false -> below_pow2 n d (e + 53) = true ->
  let num := n * 2 ^ Z.max 0 (- e) in
  let den := d * 2 ^ Z.max 0 e in
  0 < den /\ 2 ^ 52 <= num / den < 2 ^ 53.
Proof.
  intros Hn Hd Hlo Hhi num den.
  pose proof (pow2_pos (Z.max 0 e) ltac:(lia)) as HE.
  pose proof (pow2_pos (Z.max 0 (- e)) ltac:(lia)) as HF.
  assert (Hden : 0 < den) by (subst den; nia).
  rewrite (below_pow2_scaled n d (e + 52) (Z.max 0 (- e)) (Z.max 0 e + 52))
    in Hlo by lia.
  rewrite (below_pow2_scaled n d (e + 53) (Z.max 0 (- e)) (Z.max 0 e + 53))
    in Hhi by lia.
  apply Z.ltb_ge in Hlo. apply Z.ltb_lt in Hhi.
  rewrite Z.pow_add_r in Hlo, Hhi by lia.
  split; [exact Hden|]. split.
  - apply Z.div_le_lower_bound; [exact Hden|]. subst num den. lia.
  - apply Z.div_lt_upper_bound; [exact Hden|]. subst num den. lia.
Qed.

Lemma Qpower2_pos (z : Z) : (0 < 2 ^ z)%Q.
Proof. apply Qpower_0_lt. reflexivity. Qed.

Lemma Qpower2_split (e : Z) :
  (2 ^ e == inject_Z (2 ^ Z.max 0 e) / inject_Z (2 ^ Z.max 0 (- e)))%Q.
Proof.
  rewrite !Zpower_Qpower by lia. change (inject_Z 2) with 2%Q.
  rewrite <- Qpower_minus by discriminate.
  replace (Z.max 0 e - Z.max 0 (- e)) with e by lia. reflexivity.
Qed.

(** The error of a mantissa, as a fraction of integers. *)
Lemma scaled_value (n : Z) (d : positive) (m e : Z) :
  let X := m * (Zpos d * 2 ^ Z.max 0 e) - n * 2 ^ Z.max 0 (- e) in
  let Y := Zpos d * 2 ^ Z.max 0 e in
  let W := (inject_Z (Zpos d) * inject_Z (2 ^ Z.max 0 (- e)))%Q in
  (0 < W)%Q
  /\ (inject_Z m * 2 ^ e - (n # d) == 2 * inject_Z X / (2 * W))%Q
  /\ ((1 # 2) * 2 ^ e == inject_Z Y / (2 * W))%Q.
Proof.
  intros X Y W.
  pose proof (pow2_pos (Z.max 0 e) ltac:(lia)) as HE.
  pose proof (pow2_pos (Z.max 0 (- e)) ltac:(lia)) as HF.
  pose proof (Qpower2_split e) as Hpow.
  set (A := 2 ^ Z.max 0 e) in *. set (B := 2 ^ Z.max 0 (- e)) in *.
  assert (HA : (0 < inject_Z A)%Q)
    by (change 0%Q with (inject_Z 0); rewrite <- Zlt_Qlt; exact HE).
  assert (HB : (0 < inject_Z B)%Q)
    by (change 0%Q with (inject_Z 0); rewrite <- Zlt_Qlt; exact HF).
  assert (HD : (0 < inject_Z (Zpos d))%Q) by reflexivity.
  subst W.
  split; [apply Qmult_lt_0_compat; assumption|].
  split.
  - rewrite Hpow, (Qmake_Qdiv n d). subst X. unfold Z.sub.
    rewrite inject_Z_plus, inject_Z_opp, !inject_Z_mult. field. split; lra.
  - rewrite Hpow. subst Y. rewrite inject_Z_mult. field. split; lra.
Qed.

(** The error of a rounded mantissa, in units of the quotient. *)
Lemma scaled_error (n : Z) (d : positive) (m e : Z) :
  let X := m * (Zpos d * 2 ^ Z.max 0 e) - n * 2 ^ Z.max 0 (- e) in
  let Y := Zpos d * 2 ^ Z.max 0 e in
  (Z.abs (2 * X) <= Y ->
   (Qabs (inject_Z m * 2 ^ e - (n # d)) <= (1 # 2) * 2 ^ e)%Q)
  /\ ((Qabs (inject_Z m * 2 ^ e - (n # d)) == (1 # 2) * 2 ^ e)%Q ->
      Z.abs (2 * X) = Y).
Proof.
  intros X Y. destruct (scaled_value n d m e) as (HW & Hx & Hy).
  fold X in Hx. fold Y in Hy. rewrite Hx, Hy.
  set (W := (inject_Z (Zpos d) * inject_Z (2 ^ Z.max 0 (- e)))%Q) in *.
  assert (Hscale : forall a b : Q,
             (a / (2 * W) <= b / (2 * W) <-> a <= b)%Q).
  { intros a b. unfold Qdiv. apply Qmult_le_r. apply Qinv_lt_0_compat. lra. }
  assert (Hscale_eq : forall a b : Q,
             (a / (2 * W) == b / (2 * W) <-> a == b)%Q).
  { intros a b. unfold Qdiv. split; intros H.
    - apply (Qmult_inj_r _ _ (/ (2 * W))); [|exact H].
      intros E. pose proof (Qinv_lt_0_compat (2 * W) ltac:(lra)). lra.
    - rewrite H. reflexivity. }
  split.
  - intros H. apply Qabs_Qle_condition.
    assert (HXY : (- inject_Z Y <= 2 * inject_Z X <= inject_Z Y)%Q).
    { change 2%Q with (inject_Z 2). rewrite <- inject_Z_mult, <- inject_Z_opp.
      rewrite <- !Zle_Qle. lia. }
    split.
    + assert (E : (- (inject_Z Y / (2 * W)) == (- inject_Z Y) / (2 * W))%Q)
        by (field; lra).
      rewrite E. apply Hscale. lra.
    + apply Hscale. lra.
  - intros H.
    assert (HZ : (2 * inject_Z X == inject_Z Y
                  \/ 2 * inject_Z X == - inject_Z Y)%Q).
    { revert H. apply Qabs_case; intros Hs H.
      - left. apply Hscale_eq. exact H.
      - right. apply Hscale_eq.
        assert (E : (- inject_Z Y / (2 * W) == - (inject_Z Y / (2 * W)))%Q)
          by (field; lra).
        rewrite E, <- H. ring. }
    change 2%Q with (inject_Z 2) in HZ.
    rewrite <- inject_Z_mult, <- inject_Z_opp, !inject_Z_injective in HZ.
    assert (0 < Y)
      by (subst Y; pose proof (pow2_pos (Z.max 0 e) ltac:(lia)); nia).
    lia.
Qed.

Lemma digits2_pos_size (p : positive) : digits2_pos p = Pos.size p.
Proof. induction p; simpl; congruence. Qed.

Lemma size_53 (m : positive) :
  2 ^ 52 <= Zpos m < 2 ^ 53 -> Pos.size m = 53%positive.
Proof.
  intros [Hlo Hhi].
  pose proof (Pos.size_gt m) as Hgt. pose proof (Pos.size_le m) as Hle.
  apply Pos2Z.pos_lt_pos in Hgt. apply Pos2Z.pos_le_pos in Hle.
  rewrite Pos2Z.inj_pow in Hgt, Hle.
  change (Z.pos m~0) with (2 * Z.pos m) in Hle.
  set (s := Pos.size m) in *.
  assert (Hs1 : ~ (Zpos s <= 52)).
  { intros H. pose proof (Z.pow_le_mono_r 2 (Zpos s) 52 ltac:(lia) H). lia. }
  assert (Hs2 : ~ (54 <= Zpos s)).
  { intros H. pose proof (Z.pow_le_mono_r 2 54 (Zpos s) ltac:(lia) H).
    change (2 ^ 54) with (2 * 2 ^ 53) in *. lia. }
  clear - Hs1 Hs2. apply Pos2Z.inj. lia.
Qed.

(** A 53-bit mantissa with an exponent of the normal range is a double. *)
Lemma normal_double (m : positive) (e : Z) :
  2 ^ 52 <= Zpos m < 2 ^ 53 -> -1074 <= e <= 971 ->
  Prim2SF (SF2Prim (S754_finite false m e)) = S754_finite false m e.
Proof.
  intros Hm He. apply Prim2SF_SF2Prim.
  unfold valid_binary, bounded, canonical_mantissa, fexp, SpecFloat.emin.
  rewrite digits2_pos_size, (size_53 m Hm).
  apply andb_true_iff. split.
  - apply Z.eqb_eq. change prec with 53. change emax with 1024. lia.
  - apply Z.leb_le. change prec with 53. change emax with 1024. lia.
Qed.

(** No multiple of the denominator is nearer to the numerator than the
    rounded one. *)
Lemma round_half_even_nearest (num den j : Z) :
  0 < den ->
  Z.abs (round_half_even num den * den - num) <= Z.abs (j * den - num).
Proof.
  intros Hden.
  destruct (round_half_even_spec num den Hden) as (_ & Herr & _).
  set (m := round_half_even num den) in *.
  destruct (Z.eq_dec j m) as [->|Hj]; [lia|].
  assert (den <= Z.abs ((j - m) * den)) by nia.
  nia.
Qed.

Lemma Qabs_inject_Z (x : Z) : (Qabs (inject_Z x) == inject_Z (Z.abs x))%Q.
Proof. unfold inject_Z. symmetry. apply Zabs_Qabs. Qed.

(** The distance of [j * 2^e] from the quotient grows with the distance of
    [j * den] from the numerator. *)
Lemma scaled_distance (n : Z) (d : positive) (e i j : Z) :
  let num := n * 2 ^ Z.max 0 (- e) in
  let den := Zpos d * 2 ^ Z.max 0 e in
  Z.abs (i * den - num) <= Z.abs (j * den - num) ->
  (Qabs (inject_Z i * 2 ^ e - (n # d))
   <= Qabs (inject_Z j * 2 ^ e - (n # d)))%Q.
Proof.
  intros num den H.
  destruct (scaled_value n d i e) as (HW & Hi & _).
  destruct (scaled_value n d j e) as (_ & Hj & _).
  fold num den in Hi, Hj.
  set (W := (inject_Z (Zpos d) * inject_Z (2 ^ Z.max 0 (- e)))%Q) in *.
  assert (Habs : forall X : Z,
             (Qabs (2 * inject_Z X / (2 * W))
              == inject_Z (Z.abs X) * / W)%Q).
  { intros X. unfold Qdiv. rewrite !Qabs_Qmult.
    rewrite (Qabs_pos 2) by discriminate.
    rewrite (Qabs_pos (/ (2 * W))).
    - rewrite Qabs_inject_Z. field. lra.
    - apply Qlt_le_weak, Qinv_lt_0_compat. lra. }
  rewrite Hi, Hj, !Habs.
  apply Qmult_le_r; [apply Qinv_lt_0_compat; exact HW|].
  rewrite <- Zle_Qle. exact H.
Qed.

(** No number with a mantissa of at most 53 bits is nearer to the
    quotient than the mantissa rounded at the exponent that brings the
    quotient to [2^52] or above. *)
Lemma rounded_is_nearest (n d : positive) (e : Z) (m2 : positive) (e2 : Z) :
  let num := Zpos n * 2 ^ Z.max 0 (- e) in
  let den := Zpos d * 2 ^ Z.max 0 e in
  2 ^ 52 * den <= num ->
  Zpos m2 < 2 ^ 53 ->
  (Qabs (inject_Z (round_half_even num den) * 2 ^ e - (Zpos n # d))
   <= Qabs (magnitude m2 e2 - (Zpos n # d)))%Q.
Proof.
  intros num den Hnum Hm2.
  assert (Hden : 0 < den)
    by (subst den; pose proof (pow2_pos (Z.max 0 e) ltac:(lia)); nia).
  destruct (Z.le_gt_cases e e2) as [He|He].
  - assert (Hv : (magnitude m2 e2
                  == inject_Z (Zpos m2 * 2 ^ (e2 - e)) * 2 ^ e)%Q).
    { unfold magnitude. rewrite inject_Z_mult, Zpower_Qpower by lia.
      change (inject_Z 2) with 2%Q.
      rewrite <- Qmult_assoc, <- Qpower_plus by discriminate.
      replace (e2 - e + e) with e2 by lia. reflexivity. }
    rewrite Hv. apply scaled_distance.
    apply round_half_even_nearest. exact Hden.
  - pose proof (scaled_distance (Zpos n) d e (round_half_even num den)
                  (2 ^ 52) (round_half_even_nearest num den (2 ^ 52) Hden))
      as Hnear.
    destruct (scaled_value (Zpos n) d (2 ^ 52) e) as (HW & Hb & _).
    fold num den in Hb.
    set (W := (inject_Z (Zpos d) * inject_Z (2 ^ Z.max 0 (- e)))%Q) in *.
    set (b := (inject_Z (2 ^ 52) * 2 ^ e)%Q) in *.
    set (q := (Zpos n # d)%Q) in *.
    assert (Hbq : (b <= q)%Q).
    { assert (Hx : (2 * inject_Z (2 ^ 52 * den - num) / (2 * W) <= 0)%Q).
      { unfold Qdiv.
        assert (Hn : (2 * inject_Z (2 ^ 52 * den - num) <= 0)%Q).
        { change 2%Q with (inject_Z 2). rewrite <- inject_Z_mult.
          change 0%Q with (inject_Z 0). rewrite <- Zle_Qle. lia. }
        pose proof (Qinv_lt_0_compat (2 * W) ltac:(lra)) as Hi.
        setoid_replace 0%Q with (0 * / (2 * W))%Q using relation Qeq
          by ring.
        apply Qmult_le_compat_r; [exact Hn | lra]. }
      lra. }
    assert (Hv2 : (magnitude m2 e2 < b)%Q).
    { unfold magnitude. subst b.
      assert (Hp : (2 ^ e2 <= 2 ^ (e - 1))%Q)
        by (apply Qpower_le_compat_l; [lia | discriminate]).
      assert (He1 : (2 ^ e == 2 * 2 ^ (e - 1))%Q).
      { replace e with (1 + (e - 1)) at 1 by lia.
        rewrite Qpower_plus by discriminate. reflexivity. }
      rewrite He1.
      pose proof (Qpower2_pos e2) as Hpos2.
      pose proof (Qpower2_pos (e - 1)) as Hpos1.
      assert (Hm : (inject_Z (Zpos m2) < inject_Z (2 ^ 53))%Q)
        by (rewrite <- Zlt_Qlt; exact Hm2).
      change (inject_Z (2 ^ 53)) with (2 * inject_Z (2 ^ 52))%Q in Hm.
      apply (Qlt_le_trans _ (2 * inject_Z (2 ^ 52) * 2 ^ e2)).
      - apply Qmult_lt_r; assumption.
      - setoid_replace (inject_Z (2 ^ 52) * (2 * 2 ^ (e - 1)))%Q
          with (2 * inject_Z (2 ^ 52) * 2 ^ (e - 1))%Q using relation Qeq
          by ring.
        apply Qmult_le_l; [reflexivity | exact Hp]. }
    rewrite (Qabs_neg (magnitude m2 e2 - q)) by lra.
    rewrite (Qabs_neg (b - q)) in Hnear by lra.
    lra.
Qed.

(** [nearest_quotient] rounds to nearest: for a quotient in the normal
    range of the doubles the result is the double nearest to it. *)
Lemma nearest_quotient_rounds (n d : positive) :
  -1021 <= Z.log2 (Zpos n) - Z.log2 (Zpos d) <= 1022 ->
  nearest_double (Zpos n # d) (nearest_quotient (Zpos n) d).
Proof.
  intros Hc. unfold nearest_double, nearest_quotient.
  set (c := Z.log2 (Zpos n) - Z.log2 (Zpos d)) in *.
  destruct (exponent_normal (Zpos n) (Zpos d) ltac:(lia) ltac:(lia))
    as [Hlo Hhi].
  fold c in Hlo, Hhi.
  set (e1 := if below_pow2 (Zpos n) (Zpos d) c then c - 53 else c - 52) in *.
  assert (He1 : c - 53 <= e1 <= c - 52)
    by (subst e1; destruct (below_pow2 _ _ c); lia).
  rewrite (Z.max_l e1 (-1074)) by lia.
  destruct (scaled_bounds (Zpos n) (Zpos d) e1 ltac:(lia) ltac:(lia) Hlo Hhi)
    as [Hden Hk].
  destruct (round_half_even_spec (Zpos n * 2 ^ Z.max 0 (- e1))
              (Zpos d * 2 ^ Z.max 0 e1) Hden) as (Hm & Herr & Heven).
  set (num := Zpos n * 2 ^ Z.max 0 (- e1)) in *.
  set (den := Zpos d * 2 ^ Z.max 0 e1) in *.
  set (m := round_half_even num den) in *.
  destruct (Z.eqb_spec m (2 ^ 53)) as [Hcarry|Hcarry].
  - change (2 ^ 52) with (Zpos (2 ^ 52)%positive).
    rewrite (proj2 (Z.leb_le (e1 + 1) 971)) by lia.
    exists (2 ^ 52)%positive, (e1 + 1).
    split; [apply normal_double; [split; [reflexivity | reflexivity] | lia]|].
    split; [split; [reflexivity | reflexivity]|].
    assert (Hv : (magnitude (2 ^ 52) (e1 + 1) == inject_Z m * 2 ^ e1)%Q).
    { unfold magnitude. rewrite Hcarry, Qpower_plus by discriminate.
      change (2 ^ 1)%Q with 2%Q.
      change (inject_Z (Zpos (2 ^ 52))) with (inject_Z (2 ^ 52)).
      change (inject_Z (2 ^ 53)) with (2 * inject_Z (2 ^ 52))%Q. ring. }
    pose proof (proj1 (scaled_error (Zpos n) d m e1) Herr) as Hq.
    pose proof (Qpower2_pos e1) as Hp.
    assert (Hp1 : (2 ^ (e1 + 1) == 2 * 2 ^ e1)%Q).
    { rewrite Qpower_plus by discriminate. change (2 ^ 1)%Q with 2%Q. ring. }
    split; [rewrite Hv, Hp1; lra|].
    split; [intros _; reflexivity|].
    intros m2 e2 Hm2. rewrite Hv. subst m.
    apply rounded_is_nearest; [|exact Hm2].
    fold num den. pose proof (Z.mul_div_le num den Hden). nia.
  - destruct m as [|pm|pm] eqn:Em; [exfalso; lia | | exfalso; lia].
    rewrite (proj2 (Z.leb_le e1 971)) by lia.
    exists pm, e1.
    split; [apply normal_double; lia|].
    split; [lia|].
    destruct (scaled_error (Zpos n) d (Zpos pm) e1) as [Hq Htie].
    split; [exact (Hq Herr)|].
    split; [intros H; apply Heven, Htie, H|].
    intros m2 e2 Hm2. unfold magnitude at 1. rewrite <- Em. subst m.
    apply rounded_is_nearest; [|exact Hm2].
    fold num den. pose proof (Z.mul_div_le num den Hden). nia.
Qed.

End Rounding.

(** The integer [toFixed(4)] prints for a positive number below [10^21]
    is not negative and at most [10^25]. *)
Lemma toFixed4_units_range (q : Q) :
  (0 < q)%Q -> (q < inject_Z (10 ^ 21))%Q ->
  (0 <= toFixed4_units q <= 10 ^ 25)%Z.
Proof.
  intros Hpos Hlt. unfold toFixed4_units.
  pose proof (Qfloor_le (q * 10000 + (1 # 2))%Q) as Hle.
  set (n := Qfloor (q * 10000 + (1 # 2))%Q) in *.
  split.
  - change 0%Z with (Qfloor 0). apply Qfloor_resp_le. lra.
  - assert (H : (inject_Z n < inject_Z (10 ^ 25 + 1))%Q).
    { change (inject_Z (10 ^ 25 + 1))
        with (inject_Z (10 ^ 21) * 10000 + 1)%Q.
      lra. }
    rewrite <- Zlt_Qlt in H. lia.
Qed.

(** A quotient [n / 10^4] with [n] up to [10^25] is in the normal range of
    the doubles. *)
Lemma ten_thousandths_normal (n : positive) :
  (Zpos n <= 10 ^ 25)%Z ->
  (-1021 <= Z.log2 (Zpos n) - Z.log2 (Zpos 10000) <= 1022)%Z.
Proof.
  intros Hn. change (Z.log2 (Zpos 10000)) with 13%Z.
  pose proof (Z.log2_nonneg (Zpos n)) as Hlo.
  assert (Hhi : (Z.log2 (Zpos n) < 84)%Z).
  { apply Z.log2_lt_pow2; [reflexivity|].
    apply (Z.le_lt_trans _ (10 ^ 25)); [exact Hn | reflexivity]. }
  lia.
Qed.

(** C5.  [calculateCosts] reports the rate of the level, tier [premium] for
    high and [standard] for medium, and as estimated cost the product
    [(total_tokens / 1000) * rate] rounded to four decimals.  When the
    product is a finite number [m * 2^e] below [10^21], the result is read
    from the decimal [n / 10^4], where [n] is an integer within half a
    unit of [m * 2^e * 10^4]: it is [0] when [n] is [0], and otherwise the
    double nearest to [n / 10^4], which is within half a unit of its last
    bit and no farther from [n / 10^4] than any other double.  A zero
    product gives [0]; from [10^21] on the product is an integer and is
    returned as it is.  For 5000 tokens at medium accuracy, where the rate
    is [0.006], the result is [0.03]. *)
Theorem calculateCosts_rounds_to_4_decimals
  (accuracyLevel : AccuracyLevel) (usage : option Usage) :
  let totalTokens :=
    match usage with Some u => or_zero (Cost.total_tokens u) | None => 0 end in
  let product :=
    PrimFloat.mul (PrimFloat.div (N_to_number totalTokens) 1000)
      (costPerToken accuracyLevel) in
  let costInfo := calculateCosts accuracyLevel usage in
  cost_per_1k_tokens costInfo = costPerToken accuracyLevel
  /\ billing_tier costInfo
     = match accuracyLevel with high => premium | medium => standard end
  /\ match Prim2SF product with
     | S754_finite s m e =>
         if Qle_bool (inject_Z (10 ^ 21)) (magnitude m e)
         then estimated_cost_usd costInfo = product
         else
           exists n : Z,
             (Qabs (inject_Z n - magnitude m e * 10000) <= 1 # 2)%Q
             /\ estimated_cost_usd costInfo
                = (if s then PrimFloat.opp (nearest_quotient n 10000)
                   else nearest_quotient n 10000)
             /\ (0 <= n)%Z
             /\ (n = 0%Z -> nearest_quotient n 10000 = 0%float)
             /\ ((0 < n)%Z ->
                 nearest_double (n # 10000) (nearest_quotient n 10000))
     | S754_zero _ => estimated_cost_usd costInfo = 0%float
     | S754_infinity _ | S754_nan => estimated_cost_usd costInfo = product
     end
  /\ (accuracyLevel = medium -> totalTokens = 5000 ->
      costPerToken accuracyLevel = 0x1.89374bc6a7efap-8%float (* 0.006 *)
      /\ estimated_cost_usd costInfo = 0x1.eb851eb851eb8p-6%float (* 0.03 *)).
Proof.
  intros totalTokens product costInfo.
  split; [reflexivity|].
  split; [destruct accuracyLevel; reflexivity|].
  split.
  - subst costInfo. unfold calculateCosts, estimated_cost_usd.
    unfold parseFloat_toFixed4.
    change (estimatedCost accuracyLevel usage) with product.
    destruct (Prim2SF product) as [sz|si| |s m e]; try reflexivity.
    destruct (Qle_bool (inject_Z (10 ^ 21)) (magnitude m e)) eqn:Hbig;
      [reflexivity|].
    assert (Hlt : (magnitude m e < inject_Z (10 ^ 21))%Q).
    { apply Qnot_le_lt. intros H. apply Qle_bool_iff in H. congruence. }
    assert (Hpos : (0 < magnitude m e)%Q).
    { unfold magnitude. apply Qmult_lt_0_compat; [reflexivity|].
      apply Qpower_0_lt. reflexivity. }
    pose proof (toFixed4_units_range _ Hpos Hlt) as [Hn0 Hn1].
    exists (toFixed4_units (magnitude m e)).
    split; [apply toFixed4_units_nearest|].
    split; [reflexivity|].
    split; [exact Hn0|].
    split; [intros ->; reflexivity|].
    intros Hn. destruct (toFixed4_units (magnitude m e)) as [|p|p];
      [lia | | lia].
    apply nearest_quotient_rounds, ten_thousandths_normal, Hn1.
  - intros -> Ht. split; [reflexivity|].
    subst costInfo. unfold calculateCosts, estimated_cost_usd, estimatedCost.
    fold totalTokens. rewrite Ht. vm_compute. reflexivity.
Qed.

Lemma calculateCosts_rounds_to_4_decimals_witness :
  estimated_cost_usd
    (calculateCosts medium (Some (Samples.usage_of 1200 3800 5000)))
  = 0x1.eb851eb851eb8p-6%float
  /\ billing_tier
       (calculateCosts medium (Some (Samples.usage_of 1200 3800 5000)))
     = standard.
Proof.
  destruct (calculateCosts_rounds_to_4_decimals medium
              (Some (Samples.usage_of 1200 3800 5000)))
    as (_ & Htier & _ & H5000).
  split; [apply H5000; reflexivity | exact Htier].
Defined.

(* ===================================================================== *)
(** * Properties of the research client                                  *)
(* ===================================================================== *)

Lemma code_eqb_eq (a b : N) : code_eqb a b = true <-> a = b.
Proof. apply N.eqb_eq. Qed.

Lemma jsstring_eqb_eq (a b : jsstring) : jsstring_eqb a b = true <-> a = b.
Proof.
  revert b. induction a as [|x a IH]; intros [|y b]; simpl;
    try (split; [discriminate | discriminate]); [tauto|].
  rewrite andb_true_iff, code_eqb_eq, IH.
  split; [intros [-> ->]; reflexivity | intros [= -> ->]; auto].
Qed.

Lemma starts_with_app (p s : jsstring) : starts_with p (p ++ s) = true.
Proof.
  induction p as [|c p IH]; simpl; [destruct s; reflexivity|].
  rewrite IH, andb_true_r. apply code_eqb_eq. reflexivity.
Qed.

Lemma includes_starts_with (needle hay : jsstring) :
  starts_with needle hay = true -> includes needle hay = true.
Proof. intros H. destruct hay; simpl; rewrite H; reflexivity. Qed.

Lemma includes_app (needle before after : jsstring) :
  includes needle (before ++ needle ++ after) = true.
Proof.
  induction before as [|c before IH].
  - change ([] ++ needle ++ after) with (needle ++ after).
    apply includes_starts_with, starts_with_app.
  - simpl. rewrite IH. apply orb_true_r.
Qed.

Lemma bind_returned {A B} (t : list Event) (a : A) (k : A -> M B) :
  bind (t, Returned a) k = (t ++ trace (k a), outcome (k a)).
Proof. unfold bind, trace, outcome. destruct (k a). reflexivity. Qed.

Lemma bind_threw {A B} (t : list Event) (e : Thrown) (k : A -> M B) :
  bind (t, Threw e) k = (t, Threw e).
Proof. reflexivity. Qed.

Lemma count_events_app (p : Event -> bool) (t1 t2 : list Event) :
  count_events p (t1 ++ t2) = (count_events p t1 + count_events p t2)%nat.
Proof. unfold count_events. rewrite List.filter_app, List.length_app. reflexivity. Qed.

(** A trace of log records holds no call. *)
Lemma count_events_logs (p : Event -> bool) (t : list Event) :
  (forall sev msg, p (Logged sev msg) = false) ->
  forallb is_log t = true -> count_events p t = 0%nat.
Proof.
  intros Hp. unfold count_events.
  induction t as [|e t IH]; simpl; [reflexivity|].
  destruct e; simpl; try discriminate. rewrite Hp. exact IH.
Qed.

Section ClientFacts.

Variable responses_create : jsstring -> jsstring -> Outcome OpenAI.Response.
Variable JSON_stringify_keys : OpenAI.Response -> jsstring.
Variable generateExecutiveSummary : jsstring -> jsstring.
Variable extractRelatedTopics : jsstring -> list jsstring.
Variable client_now : N.
Variable client_timestamp : jsstring.

Local Abbreviation perform :=
  (performDeepResearch responses_create JSON_stringify_keys
     generateExecutiveSummary extractRelatedTopics client_now client_timestamp).

(** What the final fallback yields on a blank extraction. *)
Lemma final_content_blank (response : OpenAI.Response) (content : jsstring) :
  extract_content response = Returned content ->
  is_blank content = true ->
  let tokenCount :=
    match OpenAI.usage response with
    | Some u => or_zero (Cost.output_tokens u)
    | None => 0
    end in
  final_content JSON_stringify_keys response
  = if 0 <? tokenCount
    then ([Logged SevError (js "Content extraction failed despite token usage")],
          Returned (parsing_error_placeholder JSON_stringify_keys tokenCount response))
    else ([], Returned no_content_placeholder).
Proof.
  intros He Hb tokenCount. unfold final_content.
  rewrite He, bind_returned, Hb. fold tokenCount.
  destruct (0 <? tokenCount); reflexivity.
Qed.

(** When the extraction does not throw, the final fallback returns. *)
Lemma final_content_returns (response : OpenAI.Response) (content : jsstring) :
  extract_content response = Returned content ->
  exists logs final,
    final_content JSON_stringify_keys response = (logs, Returned final)
    /\ forallb is_log logs = true
    /\ (is_blank content = false -> logs = [] /\ final = content).
Proof.
  intros He. unfold final_content. rewrite He, bind_returned.
  destruct (is_blank content); [destruct (0 <? _)|];
    eexists; eexists; (split; [reflexivity|]); split;
    try reflexivity; try discriminate; auto.
Qed.

(** When the extraction throws, so does the final fallback. *)
Lemma final_content_throws (response : OpenAI.Response) (error : Thrown) :
  extract_content response = Threw error ->
  final_content JSON_stringify_keys response = ([], Threw error).
Proof. intros He. unfold final_content. rewrite He. reflexivity. Qed.

Lemma status_not_incomplete (response : OpenAI.Response) :
  OpenAI.status response <> Some (js "incomplete") ->
  match OpenAI.status response with
  | Some s => jsstring_eqb s (js "incomplete")
  | None => false
  end = false.
Proof.
  intros Hs. destruct (OpenAI.status response) as [s|]; [|reflexivity].
  destruct (jsstring_eqb s (js "incomplete")) eqn:E; [|reflexivity].
  apply jsstring_eqb_eq in E. subst s. congruence.
Qed.

(** The events and the result of a call whose response is not
    [incomplete] and whose extraction does not throw. *)
Lemma performDeepResearch_complete
  (request : DoDeepResearchRequest) (response : OpenAI.Response)
  (content : jsstring) :
  responses_create (getModelForAccuracy (accuracy_level request))
    (research_query request) = Returned response ->
  OpenAI.status response <> Some (js "incomplete") ->
  extract_content response = Returned content ->
  exists result,
    outcome (perform request) = Returned result
    /\ trace (perform request)
       = [ Call_performDeepResearch request;
           Call_responses_create
             (getModelForAccuracy (accuracy_level request))
             (research_query request) ]
         ++ trace (final_content JSON_stringify_keys response)
    /\ outcome (final_content JSON_stringify_keys response)
       = Returned (ResearchResponse.research_results result)
    /\ ResearchResponse.rate_limit_remaining result = 100.
Proof.
  intros Hr Hs He.
  unfold performDeepResearch, performDeepResearch_body.
  rewrite Hr. unfold emit.
  rewrite !bind_returned, (status_not_incomplete response Hs).
  destruct (final_content_returns response content He) as (t & c & Hfc & _).
  rewrite Hfc, bind_returned.
  cbn [trace outcome fst snd ret try_catch app].
  eexists. split; [reflexivity|]. split; [rewrite app_nil_r; reflexivity|].
  split; reflexivity.
Qed.

(** The events and the failure of a call whose response makes the
    extraction throw. *)
Lemma performDeepResearch_extraction_throws
  (request : DoDeepResearchRequest) (response : OpenAI.Response)
  (error : Thrown) :
  responses_create (getModelForAccuracy (accuracy_level request))
    (research_query request) = Returned response ->
  OpenAI.status response <> Some (js "incomplete") ->
  extract_content response = Threw error ->
  perform request
  = ([ Call_performDeepResearch request;
       Call_responses_create
         (getModelForAccuracy (accuracy_level request))
         (research_query request);
       Logged SevError
         ([10060; 32] ++ js "OpenAI Client: performDeepResearch failed") ],
     Threw (ErrorObject
              (js "OpenAI Deep Research failed: " ++ thrown_text error))).
Proof.
  intros Hr Hs He.
  unfold performDeepResearch, performDeepResearch_body.
  rewrite Hr. unfold emit.
  rewrite !bind_returned, (status_not_incomplete response Hs).
  rewrite (final_content_throws response error He). reflexivity.
Qed.

(** The events and the failure of a call whose response is [incomplete]. *)
Lemma performDeepResearch_incomplete
  (request : DoDeepResearchRequest) (response : OpenAI.Response) :
  responses_create (getModelForAccuracy (accuracy_level request))
    (research_query request) = Returned response ->
  OpenAI.status response = Some (js "incomplete") ->
  perform request
  = ([ Call_performDeepResearch request;
       Call_responses_create
         (getModelForAccuracy (accuracy_level request))
         (research_query request);
       Logged SevWarn
         (js "OpenAI response is incomplete - model is still processing");
       Logged SevError
         ([10060; 32] ++ js "OpenAI Client: performDeepResearch failed") ],
     Threw (ErrorObject
              (js "OpenAI Deep Research failed: "
               ++ incomplete_message response))).
Proof.
  intros Hr Hs.
  unfold performDeepResearch, performDeepResearch_body.
  rewrite Hr. unfold emit. rewrite !bind_returned, Hs.
  replace (jsstring_eqb (js "incomplete") (js "incomplete")) with true
    by (symmetry; apply jsstring_eqb_eq; reflexivity).
  reflexivity.
Qed.

(** Whatever the external call does, the client's events are its own
    entry, one call of the external API, and log records. *)
Lemma performDeepResearch_trace (request : DoDeepResearchRequest) :
  exists logs,
    trace (perform request)
    = [ Call_performDeepResearch request;
        Call_responses_create
          (getModelForAccuracy (accuracy_level request))
          (research_query request) ] ++ logs
    /\ forallb is_log logs = true.
Proof.
  unfold performDeepResearch, performDeepResearch_body.
  destruct (responses_create _ _) as [response|e].
  - unfold emit. rewrite !bind_returned.
    destruct (match OpenAI.status response with
              | Some s => jsstring_eqb s (js "incomplete")
              | None => false
              end).
    + eexists. split; reflexivity.
    + destruct (extract_content response) as [content | error] eqn:He.
      * destruct (final_content_returns response content He)
          as (t & c & -> & Ht & _).
        rewrite bind_returned. cbn [trace outcome fst snd ret try_catch app].
        rewrite app_nil_r. exists t. split; [reflexivity | exact Ht].
      * rewrite (final_content_throws response error He).
        eexists. split; reflexivity.
  - eexists. split; reflexivity.
Qed.

End ClientFacts.

(** C8 (as the code has it).  When the response is not [incomplete], the
    extraction runs through without throwing (no element the loops visit
    is [null] or [undefined], and no content item they visit holds a
    truthy text that is not a string) and its three methods leave no text
    but white space, [performDeepResearch] still
    returns, and [research_results] is not empty: with a non-zero output
    token count it is the diagnostic placeholder, and an error record is
    logged; with a zero count it is the literal
    [No content returned from OpenAI]. *)
Theorem extraction_failure_yields_placeholder
  (responses_create : jsstring -> jsstring -> Outcome OpenAI.Response)
  (JSON_stringify_keys : OpenAI.Response -> jsstring)
  (generateExecutiveSummary : jsstring -> jsstring)
  (extractRelatedTopics : jsstring -> list jsstring)
  (client_now : N) (client_timestamp : jsstring)
  (request : DoDeepResearchRequest) (response : OpenAI.Response)
  (content : jsstring) :
  responses_create (getModelForAccuracy (accuracy_level request))
    (research_query request) = Returned response ->
  OpenAI.status response <> Some (js "incomplete") ->
  extract_content response = Returned content ->
  is_blank content = true ->
  let tokenCount :=
    match OpenAI.usage response with
    | Some u => or_zero (Cost.output_tokens u)
    | None => 0
    end in
  let run :=
    performDeepResearch responses_create JSON_stringify_keys
      generateExecutiveSummary extractRelatedTopics client_now
      client_timestamp request in
  exists result,
    outcome run = Returned result
    /\ ResearchResponse.research_results result <> []
    /\ (0 < tokenCount ->
        ResearchResponse.research_results result
        = js "[Content parsing error: OpenAI generated "
          ++ Number_toString tokenCount
          ++ js " tokens but content extraction failed. Response structure: "
          ++ JSON_stringify_keys response ++ js "]"
        /\ In (Logged SevError
                 (js "Content extraction failed despite token usage"))
             (trace run))
    /\ (tokenCount = 0 ->
        ResearchResponse.research_results result
        = js "No content returned from OpenAI"
        /\ count_events is_error_log (trace run) = 0%nat).
Proof.
  intros Hr Hs He Hb tokenCount run.
  destruct (performDeepResearch_complete responses_create JSON_stringify_keys
              generateExecutiveSummary extractRelatedTopics client_now
              client_timestamp request response content Hr Hs He)
    as (result & Ho & Ht & Hc & _).
  fold run in Ho, Ht.
  pose proof (final_content_blank JSON_stringify_keys response content He Hb)
    as Hf.
  cbv zeta in Hf. fold tokenCount in Hf.
  exists result. split; [exact Ho|].
  rewrite Hf in Hc, Ht.
  destruct (0 <? tokenCount) eqn:Hpos.
  - injection Hc as Hc. rewrite <- Hc.
    split; [discriminate|]. split.
    + intros _. split; [reflexivity|].
      rewrite Ht. right. right. left. reflexivity.
    + intros H0. rewrite H0 in Hpos. discriminate Hpos.
  - injection Hc as Hc. rewrite <- Hc.
    split; [discriminate|]. split.
    + intros Hlt. apply N.ltb_lt in Hlt. congruence.
    + intros _. split; [reflexivity|]. rewrite Ht. reflexivity.
Qed.

Lemma extraction_failure_yields_placeholder_witness :
  let run :=
    performDeepResearch (Samples.mock Samples.textless_response)
      Samples.no_keys Samples.no_summary Samples.no_topics 1700000000000
      (js "2023-11-14T22:13:20.000Z") Samples.plain_request in
  extract_content Samples.textless_response = Returned []
  /\ exists result,
       outcome run = Returned result
       /\ ResearchResponse.research_results result
          = js "[Content parsing error: OpenAI generated 900 tokens but content extraction failed. Response structure: []]"
       /\ In (Logged SevError
                (js "Content extraction failed despite token usage"))
            (trace run).
Proof.
  intros run. split; [vm_compute; reflexivity|].
  destruct (extraction_failure_yields_placeholder
              (Samples.mock Samples.textless_response)
              Samples.no_keys Samples.no_summary Samples.no_topics
              1700000000000 (js "2023-11-14T22:13:20.000Z")
              Samples.plain_request Samples.textless_response [])
    as (result & Ho & _ & Hpos & _).
  - reflexivity.
  - vm_compute. discriminate.
  - vm_compute. reflexivity.
  - reflexivity.
  - destruct Hpos as [Hres Hlog]; [reflexivity|].
    exists result. split; [exact Ho|]. split; [|exact Hlog].
    rewrite Hres. vm_compute. reflexivity.
Defined.

(** C8, as stated, fails on two kinds of response from which no
    extraction method yields text and whose output token count is not
    zero.  On a response of status [incomplete], [performDeepResearch]
    throws before any extraction.  On a completed response whose message
    holds a content item with a truthy text that is not a string, the
    debug record of the extraction loop throws a [TypeError].  Either way
    no result is returned, placeholder or other. *)
Lemma textless_response_yields_no_placeholder :
  let run response :=
    performDeepResearch (Samples.mock response)
      Samples.no_keys Samples.no_summary Samples.no_topics 1700000000000
      (js "2023-11-14T22:13:20.000Z") Samples.plain_request in
  (OpenAI.status Samples.incomplete_response = Some (js "incomplete")
   /\ extract_content Samples.incomplete_response = Returned []
   /\ OpenAI.usage Samples.incomplete_response
      = Some (Samples.usage_of 120 4000 4120)
   /\ outcome (run Samples.incomplete_response)
      = Threw (ErrorObject
                 (js "OpenAI Deep Research failed: OpenAI Deep Research response incomplete. The model is still processing your request. Please try again in a few moments. Status: incomplete, Reasoning tokens used: 4000")))
  /\ (OpenAI.status MoreSamples.non_string_response = Some (js "completed")
      /\ extract_output_text MoreSamples.non_string_response = []
      /\ extract_fallback MoreSamples.non_string_response = []
      /\ OpenAI.usage MoreSamples.non_string_response
         = Some (Samples.usage_of 120 900 1020)
      /\ outcome (run MoreSamples.non_string_response)
         = Threw (ErrorObject
                    (js "OpenAI Deep Research failed: contentItem.text.substring is not a function")))
  /\ ~ (exists result,
          outcome (run Samples.incomplete_response) = Returned result)
  /\ ~ (exists result,
          outcome (run MoreSamples.non_string_response) = Returned result).
Proof.
  intros run.
  assert (H1 : outcome (run Samples.incomplete_response)
               = Threw (ErrorObject
                          (js "OpenAI Deep Research failed: OpenAI Deep Research response incomplete. The model is still processing your request. Please try again in a few moments. Status: incomplete, Reasoning tokens used: 4000")))
    by (vm_compute; reflexivity).
  assert (H2 : outcome (run MoreSamples.non_string_response)
               = Threw (ErrorObject
                          (js "OpenAI Deep Research failed: contentItem.text.substring is not a function")))
    by (vm_compute; reflexivity).
  split; [repeat split; try exact H1; vm_compute; reflexivity|].
  split; [repeat split; try exact H2; vm_compute; reflexivity|].
  split; intros [result Hr]; [rewrite H1 in Hr | rewrite H2 in Hr];
    discriminate Hr.
Qed.

(* ===================================================================== *)
(** * Properties of the request handler                                  *)
(* ===================================================================== *)

(** [sanitizeQuery] always returns, and only ever logs. *)
Lemma sanitizeQuery_returns (query : jsstring) :
  exists logs sanitized,
    sanitizeQuery query = (logs, Returned sanitized)
    /\ forallb is_log logs = true.
Proof.
  unfold sanitizeQuery.
  destruct (Nat.ltb 2000 _); eexists; eexists; split; reflexivity.
Qed.

(** A query shorter than ten code units does not pass the schema. *)
Lemma short_query_rejected
  (toLowerCase : jsstring -> jsstring) (data : DoDeepResearchRequest) :
  (List.length (research_query data) < 10)%nat ->
  exists errors,
    outcome (validateResearchRequest toLowerCase data)
    = Returned (Invalid errors).
Proof.
  intros Hlen. rewrite validateResearchRequest_outcome.
  assert (Hi : DoDeepResearchSchema_issues data <> []).
  { unfold DoDeepResearchSchema_issues, ResearchQuerySchema.
    apply Nat.ltb_lt in Hlen. rewrite Hlen. discriminate. }
  destruct (DoDeepResearchSchema_issues data); [congruence|eauto].
Qed.

Section HandlerFacts.

Variable toLowerCase : jsstring -> jsstring.
Variable responses_create : jsstring -> jsstring -> Outcome OpenAI.Response.
Variable JSON_stringify_keys : OpenAI.Response -> jsstring.
Variable generateExecutiveSummary : jsstring -> jsstring.
Variable extractRelatedTopics : jsstring -> list jsstring.
Variable client_now : N.
Variable client_timestamp : jsstring.
Variable requestId : jsstring.
Variable startTime endTime : Z.
Variable handler_timestamp : jsstring.

Local Abbreviation handle :=
  (handleDeepResearchRequest toLowerCase responses_create JSON_stringify_keys
     generateExecutiveSummary extractRelatedTopics client_now client_timestamp
     requestId startTime endTime handler_timestamp).

Local Abbreviation perform :=
  (performDeepResearch responses_create JSON_stringify_keys
     generateExecutiveSummary extractRelatedTopics client_now client_timestamp).

(** The rejected branch. *)
Lemma handle_rejected (request : DoDeepResearchRequest)
  (errors : list ValidationError) :
  outcome (validateResearchRequest toLowerCase request)
  = Returned (Invalid errors) ->
  handle request
  = (trace (validateResearchRequest toLowerCase request)
     ++ [Logged SevWarn (js "Request validation failed")],
     Returned
       {| content_text :=
            Failure
              {| FailureEnvelope.success := false;
                 FailureEnvelope.error := validation_error_message errors;
                 FailureEnvelope.error_type := js "validation_error";
                 FailureEnvelope.request_id := requestId;
                 FailureEnvelope.timestamp := None |};
          _meta := ValidationMeta requestId handler_timestamp errors |}).
Proof.
  intros Hv.
  unfold handleDeepResearchRequest, handleDeepResearchRequest_body.
  destruct (validateResearchRequest toLowerCase request) as [tv ov].
  unfold outcome in Hv. simpl in Hv. subst ov.
  rewrite bind_returned. reflexivity.
Qed.

(** The rejected branch invokes neither the client nor the limiter. *)
Lemma handle_rejected_calls (request : DoDeepResearchRequest)
  (errors : list ValidationError) :
  outcome (validateResearchRequest toLowerCase request)
  = Returned (Invalid errors) ->
  count_events is_client_call (trace (handle request)) = 0%nat
  /\ count_events is_limiter_call (trace (handle request)) = 0%nat.
Proof.
  intros Hv. rewrite (handle_rejected request errors Hv).
  cbn [trace outcome fst snd]. rewrite !count_events_app.
  pose proof (validateResearchRequest_trace toLowerCase request) as Htv.
  rewrite !(count_events_logs _ _ (fun _ _ => eq_refl) Htv).
  split; reflexivity.
Qed.

(** The accepted branch, up to the client call. *)
Lemma handle_accepted (request validated : DoDeepResearchRequest) :
  outcome (validateResearchRequest toLowerCase request)
  = Returned (Valid validated) ->
  exists logs sanitized,
    forallb is_log logs = true
    /\ let researchRequest :=
         {| research_query := sanitized;
            accuracy_level := accuracy_level validated;
            max_tokens := max_tokens validated;
            temperature := temperature validated;
            include_sources := include_sources validated;
            response_format := response_format validated |} in
       trace (handle request)
       = logs ++ trace (perform researchRequest)
         ++ match outcome (perform researchRequest) with
            | Returned _ => []
            | Threw _ => [Logged SevError (js "Research request failed")]
            end
       /\ match outcome (perform researchRequest) with
          | Returned researchResult =>
              exists body,
                outcome (handle request)
                = Returned
                    {| content_text := Success body;
                       _meta :=
                         ResultMeta requestId
                           (ResearchResponse.model_used researchResult)
                           (PrimFloat.div (Z_to_number (endTime - startTime))
                              1000)
                           (ResearchResponse.cost_info researchResult) |}
                /\ SuccessEnvelope.success body = true
                /\ SuccessEnvelope.rate_limit_remaining body = 100
                /\ SuccessEnvelope.research_results body
                   = ResearchResponse.research_results researchResult
          | Threw error =>
              outcome (handle request)
              = Returned
                  {| content_text :=
                       Failure
                         {| FailureEnvelope.success := false;
                            FailureEnvelope.error :=
                              match error with
                              | ErrorObject msg => msg
                              | OtherValue _ =>
                                  js "An unexpected error occurred"
                              end;
                            FailureEnvelope.error_type := js "internal_error";
                            FailureEnvelope.request_id := requestId;
                            FailureEnvelope.timestamp :=
                              Some handler_timestamp |};
                     _meta := ErrorMeta requestId handler_timestamp true |}
          end.
Proof.
  intros Hv.
  unfold handleDeepResearchRequest, handleDeepResearchRequest_body.
  pose proof (validateResearchRequest_trace toLowerCase request) as Htv.
  destruct (validateResearchRequest toLowerCase request) as [tv ov].
  unfold outcome in Hv. simpl in Hv. subst ov. unfold trace in Htv. simpl in Htv.
  destruct (sanitizeQuery_returns (research_query validated))
    as (ts & sanitized & Hsq & Hts).
  exists (tv ++ ts), sanitized.
  split; [rewrite forallb_app, Htv, Hts; reflexivity|].
  cbv zeta. rewrite bind_returned, Hsq, bind_returned.
  cbn [trace outcome fst snd].
  destruct (performDeepResearch _ _ _ _ _ _ _) as [tp [res|err]].
  - rewrite bind_returned. cbn [trace outcome fst snd ret try_catch].
    rewrite !app_nil_r, app_assoc. split; [reflexivity|].
    eexists. split; [reflexivity|]. repeat split.
  - rewrite bind_threw. cbn [trace outcome fst snd ret try_catch bind log emit].
    rewrite app_nil_r, <- !app_assoc. split; reflexivity.
Qed.

End HandlerFacts.

(** C4.  When validation rejects the request, the handler returns the
    failure envelope [{success: false, error, error_type:
    "validation_error", request_id}], and neither the research client (its
    entry point and the external API) nor the rate limiter is invoked. *)
Theorem rejected_request_makes_no_call
  (toLowerCase : jsstring -> jsstring)
  (responses_create : jsstring -> jsstring -> Outcome OpenAI.Response)
  (JSON_stringify_keys : OpenAI.Response -> jsstring)
  (generateExecutiveSummary : jsstring -> jsstring)
  (extractRelatedTopics : jsstring -> list jsstring)
  (client_now : N) (client_timestamp requestId : jsstring)
  (startTime endTime : Z) (handler_timestamp : jsstring)
  (request : DoDeepResearchRequest) (errors : list ValidationError) :
  outcome (validateResearchRequest toLowerCase request)
  = Returned (Invalid errors) ->
  let run :=
    handleDeepResearchRequest toLowerCase responses_create
      JSON_stringify_keys generateExecutiveSummary extractRelatedTopics
      client_now client_timestamp requestId startTime endTime
      handler_timestamp request in
  outcome run
  = Returned
      {| content_text :=
           Failure
             {| FailureEnvelope.success := false;
                FailureEnvelope.error := validation_error_message errors;
                FailureEnvelope.error_type := js "validation_error";
                FailureEnvelope.request_id := requestId;
                FailureEnvelope.timestamp := None |};
         _meta := ValidationMeta requestId handler_timestamp errors |}
  /\ count_events is_client_call (trace run) = 0%nat
  /\ count_events is_limiter_call (trace run) = 0%nat.
Proof.
  intros Hv run. subst run. split.
  - rewrite (handle_rejected toLowerCase responses_create JSON_stringify_keys
               generateExecutiveSummary extractRelatedTopics client_now
               client_timestamp requestId startTime endTime handler_timestamp
               request errors Hv).
    reflexivity.
  - apply (handle_rejected_calls toLowerCase responses_create
             JSON_stringify_keys generateExecutiveSummary extractRelatedTopics
             client_now client_timestamp requestId startTime endTime
             handler_timestamp request errors Hv).
Qed.

Lemma rejected_request_makes_no_call_witness :
  let run :=
    handleDeepResearchRequest Samples.ascii_toLowerCase
      (Samples.mock Samples.textless_response) Samples.no_keys
      Samples.no_summary Samples.no_topics 1700000000000
      (js "2023-11-14T22:13:20.000Z") (js "req_1700000000000_k3j9x0q2a")
      1700000000000 1700000000250 (js "2023-11-14T22:13:20.250Z")
      Samples.short_request in
  List.length (research_query Samples.short_request) = 5%nat
  /\ (exists body meta,
         outcome run = Returned {| content_text := Failure body; _meta := meta |}
         /\ FailureEnvelope.error_type body = js "validation_error")
  /\ count_events is_client_call (trace run) = 0%nat
  /\ count_events is_limiter_call (trace run) = 0%nat.
Proof.
  intros run. split; [reflexivity|].
  destruct (short_query_rejected Samples.ascii_toLowerCase
              Samples.short_request) as [errors He];
    [vm_compute; lia|].
  destruct (rejected_request_makes_no_call Samples.ascii_toLowerCase
              (Samples.mock Samples.textless_response) Samples.no_keys
              Samples.no_summary Samples.no_topics 1700000000000
              (js "2023-11-14T22:13:20.000Z")
              (js "req_1700000000000_k3j9x0q2a")
              1700000000000 1700000000250 (js "2023-11-14T22:13:20.250Z")
              Samples.short_request errors He) as (Ho & Hc & Hl).
  split; [|split; assumption].
  eexists. eexists. split; [exact Ho|reflexivity].
Defined.

(** The message of an incomplete response tells the caller to try again. *)
Lemma incomplete_message_guidance (response : OpenAI.Response) :
  includes (js "Please try again")
    (js "OpenAI Deep Research failed: " ++ incomplete_message response)
  = true.
Proof.
  unfold incomplete_message.
  change (js "OpenAI Deep Research response incomplete. The model is still processing your request. Please try again in a few moments. Status: ")
    with (js "OpenAI Deep Research response incomplete. The model is still processing your request. "
          ++ js "Please try again" ++ js " in a few moments. Status: ").
  rewrite <- !app_assoc. rewrite app_assoc. apply includes_app.
Qed.

(** C9.  On every path the handler returns a response and invokes neither
    [checkRateLimit] nor [recordRequest]; a success envelope always
    reports [rate_limit_remaining: 100]. *)
Theorem handler_reports_constant_rate_limit
  (toLowerCase : jsstring -> jsstring)
  (responses_create : jsstring -> jsstring -> Outcome OpenAI.Response)
  (JSON_stringify_keys : OpenAI.Response -> jsstring)
  (generateExecutiveSummary : jsstring -> jsstring)
  (extractRelatedTopics : jsstring -> list jsstring)
  (client_now : N) (client_timestamp requestId : jsstring)
  (startTime endTime : Z) (handler_timestamp : jsstring)
  (request : DoDeepResearchRequest) :
  let run :=
    handleDeepResearchRequest toLowerCase responses_create
      JSON_stringify_keys generateExecutiveSummary extractRelatedTopics
      client_now client_timestamp requestId startTime endTime
      handler_timestamp request in
  count_events is_limiter_call (trace run) = 0%nat
  /\ exists response,
       outcome run = Returned response
       /\ match content_text response with
          | Success body =>
              SuccessEnvelope.success body = true
              /\ SuccessEnvelope.rate_limit_remaining body = 100
          | Failure body => FailureEnvelope.success body = false
          end.
Proof.
  intros run.
  pose proof (validateResearchRequest_outcome toLowerCase request) as Hv.
  set (verdict := match DoDeepResearchSchema_issues request with
                  | [] => _ | _ => _ end) in Hv.
  destruct verdict as [validated | errors].
  - destruct (handle_accepted toLowerCase responses_create JSON_stringify_keys
                generateExecutiveSummary extractRelatedTopics client_now
                client_timestamp requestId startTime endTime handler_timestamp
                request validated Hv)
      as (logs & sanitized & Hlogs & Htr & Hout).
    fold run in Htr, Hout.
    match type of Htr with
    | context [performDeepResearch _ _ _ _ _ _ ?rr] =>
        destruct (performDeepResearch_trace responses_create
                    JSON_stringify_keys generateExecutiveSummary
                    extractRelatedTopics client_now client_timestamp rr)
          as (plogs & Hpt & Hplogs);
        rewrite Hpt in Htr;
        destruct (outcome (performDeepResearch responses_create
                             JSON_stringify_keys generateExecutiveSummary
                             extractRelatedTopics client_now client_timestamp
                             rr)) as [res | err]
    end.
    + split.
      * rewrite Htr, !count_events_app.
        rewrite !(count_events_logs _ _ (fun _ _ => eq_refl) Hlogs).
        rewrite !(count_events_logs _ _ (fun _ _ => eq_refl) Hplogs).
        reflexivity.
      * destruct Hout as (body & Ho & Hs & Hr & _).
        eexists. split; [exact Ho|]. split; assumption.
    + split.
      * rewrite Htr, !count_events_app.
        rewrite !(count_events_logs _ _ (fun _ _ => eq_refl) Hlogs).
        rewrite !(count_events_logs _ _ (fun _ _ => eq_refl) Hplogs).
        reflexivity.
      * eexists. split; [exact Hout|]. reflexivity.
  - destruct (handle_rejected_calls toLowerCase responses_create
                JSON_stringify_keys generateExecutiveSummary
                extractRelatedTopics client_now client_timestamp requestId
                startTime endTime handler_timestamp request errors Hv)
      as (_ & Hl).
    fold run in Hl. split; [exact Hl|].
    subst run.
    rewrite (handle_rejected toLowerCase responses_create JSON_stringify_keys
               generateExecutiveSummary extractRelatedTopics client_now
               client_timestamp requestId startTime endTime handler_timestamp
               request errors Hv).
    eexists. split; reflexivity.
Qed.

(* ===================================================================== *)
(** * Properties of the rate limiter                                     *)
(* ===================================================================== *)

Lemma hourKey_ne_dailyKey (h d : N) (lvl : AccuracyLevel) :
  dailyKey d lvl <> hourKey h.
Proof.
  unfold hourKey, dailyKey. intros H.
  apply (f_equal (hd 0)) in H. vm_compute in H. discriminate H.
Qed.

Lemma hourKey_ne_costKey (h d : N) : costKey d <> hourKey h.
Proof.
  unfold hourKey, costKey. intros H.
  apply (f_equal (hd 0)) in H. vm_compute in H. discriminate H.
Qed.

(** [x || 0] is the number itself, whether it is zero or not. *)
Lemma or_default_zero (v : Q) : (or_default (Some v) 0 == v)%Q.
Proof.
  unfold or_default, Qtruthy.
  destruct (Qeq_bool v 0) eqn:E; simpl; [|reflexivity].
  apply Qeq_bool_iff in E. symmetry. exact E.
Qed.

(** The counter the hourly check reads. *)
Lemma get_or_create_hourly (clientUsage : gmap (list N) ClientUsage)
  (clientId : jsstring) (now h : N) :
  get_count (requestCounts (fst (get_or_create clientUsage clientId now)))
    (hourKey h)
  = hourly_count clientUsage clientId h.
Proof.
  unfold get_or_create, hourly_count.
  destruct (clientUsage !! clientId); reflexivity.
Qed.



(** The first check: a counter at or above the hourly limit denies the
    request, whatever the cost estimate and the daily counters are. *)
Lemma checkRateLimit_hourly (config : RateLimitConfig)
  (clientUsage : gmap (list N) ClientUsage) (now : N) (clientId : jsstring)
  (lvl : AccuracyLevel) (estimatedCost : option Q) :
  Qle_bool (getHourlyLimit config lvl)
    (hourly_count clientUsage clientId (hour_of now)) = true ->
  let result :=
    fst (snd (checkRateLimit config clientUsage now clientId lvl estimatedCost)) in
  allowed result = false
  /\ reason result = Some (js "hourly_limit")
  /\ retryAfter result = (hour_of now + 1) * hour_ms.
Proof.
  intros Hle. unfold checkRateLimit.
  pose proof (get_or_create_hourly clientUsage clientId now (hour_of now)) as Hc.
  destruct (get_or_create clientUsage clientId now) as [usage table].
  simpl in Hc. rewrite Hc, Hle. cbn.
  repeat split. unfold hour_ms. lia.
Qed.

(** Which denial a check reports, by its reason. *)
Lemma checkRateLimit_reason (config : RateLimitConfig)
  (clientUsage : gmap (list N) ClientUsage) (now : N) (clientId : jsstring)
  (lvl : AccuracyLevel) (estimatedCost : option Q) :
  reason (fst (snd (checkRateLimit config clientUsage now clientId lvl
                      estimatedCost)))
  = Some (js "hourly_limit")
  <-> Qle_bool (getHourlyLimit config lvl)
        (hourly_count clientUsage clientId (hour_of now)) = true.
Proof.
  split.
  - unfold checkRateLimit.
    pose proof (get_or_create_hourly clientUsage clientId now (hour_of now))
      as Hc.
    destruct (get_or_create clientUsage clientId now) as [usage table].
    simpl in Hc. rewrite Hc.
    destruct (Qle_bool (getHourlyLimit config lvl) _); [reflexivity|].
    destruct (match estimatedCost with Some _ => _ | None => _ end);
      [cbn; intros H; vm_compute in H; discriminate H|].
    destruct (Qle_bool (getDailyLimit config lvl) _);
      cbn; intros H; vm_compute in H; discriminate H.
  - intros H. apply (checkRateLimit_hourly _ _ _ _ _ estimatedCost H).
Qed.


(** The table a check leaves behind. *)
Lemma checkRateLimit_table (config : RateLimitConfig)
  (clientUsage : gmap (list N) ClientUsage) (now : N) (clientId : jsstring)
  (lvl : AccuracyLevel) (estimatedCost : option Q) :
  snd (snd (checkRateLimit config clientUsage now clientId lvl estimatedCost))
  = snd (get_or_create clientUsage clientId now).
Proof.
  unfold checkRateLimit.
  destruct (get_or_create clientUsage clientId now) as [usage table].
  destruct (Qle_bool (getHourlyLimit config lvl) _); [reflexivity|].
  destruct (match estimatedCost with Some _ => _ | None => _ end);
    [reflexivity|].
  destruct (Qle_bool (getDailyLimit config lvl) _); reflexivity.
Qed.

Lemma or_default_nonneg (x : option Q) :
  (forall v, x = Some v -> 0 <= v)%Q -> (0 <= or_default x 0)%Q.
Proof.
  intros H. destruct x as [v|]; [|discriminate].
  rewrite or_default_zero. apply H. reflexivity.
Qed.






(** C10.  The hourly limit [checkRateLimit] compares with is the
    per-level daily-limit setting, [high_accuracy_daily_limit] or 3 when it
    is falsy for high, [medium_accuracy_daily_limit] or 6 when it is falsy
    for medium: a check is denied with [hourly_limit] exactly when the
    hourly counter has reached that value.  [requests_per_hour] has no
    influence on any check. *)
Theorem hourly_limit_reads_daily_setting
  (config : RateLimitConfig) (clientUsage : gmap (list N) ClientUsage)
  (now : N) (clientId : jsstring) (lvl : AccuracyLevel)
  (estimatedCost : option Q) :
  let setting :=
    match lvl with
    | high => high_accuracy_daily_limit config
    | medium => medium_accuracy_daily_limit config
    end in
  let fallback := match lvl with high => 3%Q | medium => 6%Q end in
  let limit :=
    match setting with
    | Some v => if Qeq_bool v 0 then fallback else v
    | None => fallback
    end in
  (reason (fst (snd (checkRateLimit config clientUsage now clientId lvl
                       estimatedCost)))
   = Some (js "hourly_limit")
   <-> (limit <= hourly_count clientUsage clientId (hour_of now))%Q)
  /\ forall value,
       checkRateLimit (with_requests_per_hour value config) clientUsage now
         clientId lvl estimatedCost
       = checkRateLimit config clientUsage now clientId lvl estimatedCost.
Proof.
  intros setting fallback limit. split.
  - rewrite checkRateLimit_reason, Qle_bool_iff.
    assert (Hl : getHourlyLimit config lvl = limit).
    { subst limit setting fallback. unfold getHourlyLimit, or_default, Qtruthy.
      destruct lvl;
        [destruct (high_accuracy_daily_limit config) as [v|]
        |destruct (medium_accuracy_daily_limit config) as [v|]];
        try reflexivity; destruct (Qeq_bool v 0); reflexivity. }
    rewrite Hl. reflexivity.
  - intros value. destruct config. reflexivity.
Qed.

(* ===================================================================== *)
(** * Further properties of the validator                                *)
(* ===================================================================== *)

Lemma check_nil (b : bool) (e : ValidationError) : check b e = [] <-> b = false.
Proof. destruct b; simpl; split; congruence. Qed.

Lemma Qltb_false (a b : Q) : Qltb a b = false <-> (b <= a)%Q.
Proof. unfold Qltb. rewrite negb_false_iff. apply Qle_bool_iff. Qed.

Lemma Qltb_true (a b : Q) : Qltb a b = true <-> (a < b)%Q.
Proof.
  unfold Qltb. rewrite negb_true_iff. split.
  - intros H. apply Qnot_le_lt. intros Hle.
    apply Qle_bool_iff in Hle. congruence.
  - intros H. destruct (Qle_bool b a) eqn:E; [|reflexivity].
    apply Qle_bool_iff in E. exfalso. exact (Qlt_not_le _ _ H E).
Qed.

(** Empty error lists, check by check. *)
Ltac split_checks :=
  repeat match goal with
         | H : _ ++ _ = [] |- _ => apply app_eq_nil in H as [? ?]
         | H : check _ _ = [] |- _ => apply check_nil in H
         | H : negb _ = false |- _ => apply negb_false_iff in H
         | H : Nat.ltb _ _ = false |- _ => apply Nat.ltb_ge in H
         | H : Nat.leb _ _ = true |- _ => apply Nat.leb_le in H
         end.

(** X1.  What an accepted request is known to satisfy: the value handed on is
    the parsed request; the query has 10 to 2000 code units, at least 10
    after trimming, no angle bracket, no injection pattern and no fourfold
    repetition; [max_tokens], when given, is an integer from 500 to 8000,
    and at least 2000 under high accuracy; [temperature], when given, lies
    in [0, 1], and is at most 0.5 under high accuracy. *)
Theorem accepted_request_guarantees
  (toLowerCase : jsstring -> jsstring)
  (data validated : DoDeepResearchRequest) :
  outcome (validateResearchRequest toLowerCase data)
  = Returned (Valid validated) ->
  validated = DoDeepResearchSchema_output data
  /\ (10 <= List.length (research_query data) <= 2000)%nat
  /\ (10 <= List.length (trim (research_query data)))%nat
  /\ no_angle_brackets (research_query data) = true
  /\ matches_dangerous (research_query data) = false
  /\ has_repetition (research_query data) = false
  /\ (forall n, max_tokens data = Some n ->
        Qis_integer n = true /\ (500 <= n)%Q /\ (n <= 8000)%Q
        /\ (accuracy_level data = high -> (2000 <= n)%Q))
  /\ (forall t, temperature data = Some t ->
        (0 <= t)%Q /\ (t <= 1)%Q
        /\ (accuracy_level data = high -> (t <= 1 # 2)%Q)).
Proof.
  intros Hv. rewrite validateResearchRequest_outcome in Hv.
  destruct (DoDeepResearchSchema_issues data) eqn:Hi; [|discriminate].
  destruct (business_rule_errors data) eqn:Hb; [|discriminate].
  destruct (validateContentSafety (research_query data)) eqn:Hc;
    [|discriminate].
  injection Hv as <-. split; [reflexivity|].
  unfold DoDeepResearchSchema_issues, ResearchQuerySchema in Hi.
  unfold validateContentSafety in Hc.
  destruct (check (matches_dangerous _) _ ++ _) eqn:Hs; [|discriminate].
  unfold business_rule_errors in Hb.
  split_checks.
  repeat (split; [assumption || lia|]).
  split.
  - intros n Hn. rewrite Hn in *. simpl in *. split_checks.
    match goal with H : Qltb n 500 = false |- _ => apply Qltb_false in H end.
    match goal with
    | H : Qgtb n 8000 = false |- _ => unfold Qgtb in H; apply Qltb_false in H
    end.
    repeat (split; [assumption|]).
    intros Hh.
    match goal with
    | H : is_high _ && _ = false |- _ =>
        rewrite Hh in H; simpl in H; apply andb_false_iff in H as [H|H];
        [unfold Qtruthy in H; apply negb_false_iff, Qeq_bool_iff in H; lra
        |apply Qltb_false in H; exact H]
    end.
  - intros t Ht. rewrite Ht in *. simpl in *. split_checks.
    match goal with H : Qltb t 0 = false |- _ => apply Qltb_false in H end.
    match goal with
    | H : Qgtb t 1 = false |- _ => unfold Qgtb in H; apply Qltb_false in H
    end.
    repeat (split; [assumption|]).
    intros Hh.
    match goal with
    | H : is_high _ && Qgtb t _ = false |- _ =>
        rewrite Hh in H; simpl in H; unfold Qgtb in H;
        apply Qltb_false in H; exact H
    end.
Qed.

Lemma accepted_request_guarantees_witness :
  outcome (validateResearchRequest Samples.ascii_toLowerCase
             Samples.plain_request)
  = Returned (Valid (DoDeepResearchSchema_output Samples.plain_request))
  /\ matches_dangerous (research_query Samples.plain_request) = false
  /\ (10 <= List.length (research_query Samples.plain_request) <= 2000)%nat.
Proof.
  split; [vm_compute; reflexivity|].
  destruct (accepted_request_guarantees Samples.ascii_toLowerCase
              Samples.plain_request
              (DoDeepResearchSchema_output Samples.plain_request))
    as (_ & Hlen & _ & _ & Hd & _);
    [vm_compute; reflexivity|].
  split; assumption.
Defined.

Lemma Forall_code_issue (P : ValidationError -> Prop)
  (b : bool) (e : ValidationError) :
  P e -> Forall P (check b e).
Proof. intros H. destruct b; simpl; auto. Qed.

(** The schema's issues all carry a schema code and a request field. *)
Lemma schema_issues_codes (data : DoDeepResearchRequest) :
  Forall (fun e => is_schema_code (code e) = true
                   /\ is_request_field (field e) = true)
    (DoDeepResearchSchema_issues data).
Proof.
  unfold DoDeepResearchSchema_issues, ResearchQuerySchema, MaxTokensSchema,
    TemperatureSchema.
  repeat apply Forall_app_2;
    try (apply Forall_code_issue; split; vm_compute; reflexivity).
  - destruct (max_tokens data); [|constructor].
    repeat apply Forall_app_2;
      apply Forall_code_issue; split; vm_compute; reflexivity.
  - destruct (temperature data); [|constructor].
    repeat apply Forall_app_2;
      apply Forall_code_issue; split; vm_compute; reflexivity.
Qed.

Lemma business_errors_codes (data : DoDeepResearchRequest) :
  Forall (fun e => is_business_code (code e) = true
                   /\ is_request_field (field e) = true)
    (business_rule_errors data).
Proof.
  unfold business_rule_errors.
  apply Forall_app_2; apply Forall_code_issue; split; vm_compute; reflexivity.
Qed.

Lemma safety_errors_codes (query : jsstring) (errors : list ValidationError) :
  validateContentSafety query = Invalid errors ->
  Forall (fun e => is_safety_code (code e) = true
                   /\ is_request_field (field e) = true) errors.
Proof.
  unfold validateContentSafety.
  destruct (check (matches_dangerous query) _ ++ _) eqn:E; [discriminate|].
  intros [= <-]. rewrite <- E.
  repeat apply Forall_app_2;
    apply Forall_code_issue; split; vm_compute; reflexivity.
Qed.

(** The validator on data of any type: its answer by stage. *)
Lemma validateResearchRequest_unknown_outcome
  (toLowerCase : jsstring -> jsstring) (data : UnknownData.Data) :
  outcome (UnknownData.validateResearchRequest toLowerCase data)
  = Returned
      (match UnknownData.DoDeepResearchSchema_parse data with
       | inl es => Invalid es
       | inr validatedData =>
           match business_rule_errors validatedData with
           | [] =>
               match validateContentSafety (research_query validatedData) with
               | Invalid es => Invalid es
               | Valid _ => Valid validatedData
               end
           | es => Invalid es
           end
       end).
Proof.
  unfold UnknownData.validateResearchRequest.
  destruct (UnknownData.DoDeepResearchSchema_parse data) as [es|validated];
    [reflexivity|].
  pose proof (validateBusinessRules_outcome toLowerCase validated) as Hb.
  destruct (validateBusinessRules toLowerCase validated) as [t o].
  unfold outcome in Hb. simpl in Hb. subst o.
  destruct (business_rule_errors validated); simpl.
  - destruct (validateContentSafety (research_query validated)); reflexivity.
  - reflexivity.
Qed.

Lemma issues_of_checked {T} (issues : list ValidationError) (value : T) :
  UnknownData.issues_of (UnknownData.checked issues value) = issues.
Proof. destruct issues; reflexivity. Qed.

Lemma checked_inl {T} (issues : list ValidationError) (value : T) :
  UnknownData.checked issues value <> inl [].
Proof. destruct issues; discriminate. Qed.

(** A schema that fails reports an issue. *)
Definition reports_issue {T} (r : list ValidationError + T) : Prop :=
  r <> inl [].

(** Every issue of a schema carries a schema code and a request field. *)
Definition schema_issues {T} (r : list ValidationError + T) : Prop :=
  Forall (fun e => is_schema_code (code e) = true
                   /\ is_request_field (field e) = true)
    (UnknownData.issues_of r).

Ltac by_value v :=
  destruct v as [| | | [| |] | | |]; cbn [UnknownData.issues_of];
  try (repeat constructor; fail); try discriminate.

Lemma ResearchQuerySchema_issues (v : JsValues.JsValue unit) :
  reports_issue (UnknownData.ResearchQuerySchema v)
  /\ schema_issues (UnknownData.ResearchQuerySchema v).
Proof.
  unfold reports_issue, schema_issues, UnknownData.ResearchQuerySchema.
  split.
  - by_value v. apply checked_inl.
  - by_value v. rewrite issues_of_checked.
    unfold ResearchQuerySchema.
    repeat apply Forall_app_2;
      apply Forall_code_issue; split; vm_compute; reflexivity.
Qed.

Lemma AccuracyLevelSchema_issues (v : JsValues.JsValue unit) :
  reports_issue (UnknownData.AccuracyLevelSchema v)
  /\ schema_issues (UnknownData.AccuracyLevelSchema v).
Proof.
  unfold reports_issue, schema_issues, UnknownData.AccuracyLevelSchema.
  split; by_value v;
    repeat match goal with
           | |- context [jsstring_eqb ?a ?b] => destruct (jsstring_eqb a b)
           end;
    cbn [UnknownData.issues_of]; try discriminate; repeat constructor.
Qed.

Lemma MaxTokensSchema_issues (v : JsValues.JsValue unit) :
  reports_issue (UnknownData.MaxTokensSchema v)
  /\ schema_issues (UnknownData.MaxTokensSchema v).
Proof.
  unfold reports_issue, schema_issues, UnknownData.MaxTokensSchema.
  split.
  - by_value v. apply checked_inl.
  - by_value v.
    + rewrite issues_of_checked. unfold MaxTokensSchema.
      repeat apply Forall_app_2;
        apply Forall_code_issue; split; vm_compute; reflexivity.
    + destruct negative; repeat constructor.
Qed.

Lemma TemperatureSchema_issues (v : JsValues.JsValue unit) :
  reports_issue (UnknownData.TemperatureSchema v)
  /\ schema_issues (UnknownData.TemperatureSchema v).
Proof.
  unfold reports_issue, schema_issues, UnknownData.TemperatureSchema.
  split.
  - by_value v. apply checked_inl.
  - by_value v.
    + rewrite issues_of_checked. unfold TemperatureSchema.
      repeat apply Forall_app_2;
        apply Forall_code_issue; split; vm_compute; reflexivity.
    + destruct negative; repeat constructor.
Qed.

Lemma IncludeSourcesSchema_issues (v : JsValues.JsValue unit) :
  reports_issue (UnknownData.IncludeSourcesSchema v)
  /\ schema_issues (UnknownData.IncludeSourcesSchema v).
Proof.
  unfold reports_issue, schema_issues, UnknownData.IncludeSourcesSchema.
  split; by_value v.
Qed.

Lemma ResponseFormatSchema_issues (v : JsValues.JsValue unit) :
  reports_issue (UnknownData.ResponseFormatSchema v)
  /\ schema_issues (UnknownData.ResponseFormatSchema v).
Proof.
  unfold reports_issue, schema_issues, UnknownData.ResponseFormatSchema.
  split; by_value v;
    repeat match goal with
           | |- context [jsstring_eqb ?a ?b] => destruct (jsstring_eqb a b)
           end;
    cbn [UnknownData.issues_of]; try discriminate; repeat constructor.
Qed.

(** The issues of an object: at least one, each with a schema code and
    the name of the property it is about. *)
Lemma parse_object_issues (properties : UnknownData.Properties.t)
  (errors : list ValidationError) :
  UnknownData.DoDeepResearchSchema_parse (JsValues.JsObject properties)
  = inl errors ->
  errors <> []
  /\ Forall (fun e => is_schema_code (code e) = true
                      /\ is_request_field (field e) = true) errors.
Proof.
  unfold UnknownData.DoDeepResearchSchema_parse.
  destruct (ResearchQuerySchema_issues
              (UnknownData.Properties.research_query properties)) as [N1 F1].
  destruct (AccuracyLevelSchema_issues
              (UnknownData.Properties.accuracy_level properties)) as [N2 F2].
  destruct (MaxTokensSchema_issues
              (UnknownData.Properties.max_tokens properties)) as [N3 F3].
  destruct (TemperatureSchema_issues
              (UnknownData.Properties.temperature properties)) as [N4 F4].
  destruct (IncludeSourcesSchema_issues
              (UnknownData.Properties.include_sources properties)) as [N5 F5].
  destruct (ResponseFormatSchema_issues
              (UnknownData.Properties.response_format properties)) as [N6 F6].
  unfold reports_issue, schema_issues in *.
  pose proof (Forall_app_2 _ _ _ F5 F6) as Fall.
  pose proof (Forall_app_2 _ _ _ F4 Fall) as Fall4. clear Fall.
  pose proof (Forall_app_2 _ _ _ F3 Fall4) as Fall3. clear Fall4.
  pose proof (Forall_app_2 _ _ _ F2 Fall3) as Fall2. clear Fall3.
  pose proof (Forall_app_2 _ _ _ F1 Fall2) as Fall. clear Fall2.
  clear F1 F2 F3 F4 F5 F6.
  destruct (UnknownData.ResearchQuerySchema _) as [[|e1 r1]|v1];
    [contradiction N1; reflexivity| |];
    (destruct (UnknownData.AccuracyLevelSchema _) as [[|e2 r2]|v2];
     [contradiction N2; reflexivity| |]);
    (destruct (UnknownData.MaxTokensSchema _) as [[|e3 r3]|v3];
     [contradiction N3; reflexivity| |]);
    (destruct (UnknownData.TemperatureSchema _) as [[|e4 r4]|v4];
     [contradiction N4; reflexivity| |]);
    (destruct (UnknownData.IncludeSourcesSchema _) as [[|e5 r5]|v5];
     [contradiction N5; reflexivity| |]);
    (destruct (UnknownData.ResponseFormatSchema _) as [[|e6 r6]|v6];
     [contradiction N6; reflexivity| |]);
    try discriminate;
    intros [= <-]; cbn [UnknownData.issues_of app] in *;
    (split; [discriminate | exact Fall]).
Qed.

(** What is no object gives one issue, without a field. *)
Lemma parse_no_object (data : UnknownData.Data) :
  match data with
  | JsValues.JsObject _ => True
  | _ =>
      UnknownData.DoDeepResearchSchema_parse data
      = inl [UnknownData.invalid_type "" "object" data]
  end.
Proof. destruct data; first [exact I | reflexivity]. Qed.

(** On a request of the static type the validator answers as it does on
    the request as data. *)
Lemma validateResearchRequest_of_request
  (toLowerCase : jsstring -> jsstring) (request : DoDeepResearchRequest) :
  UnknownData.validateResearchRequest toLowerCase
    (UnknownData.of_request request)
  = validateResearchRequest toLowerCase request.
Proof.
  unfold UnknownData.validateResearchRequest, validateResearchRequest.
  assert (Hparse :
            UnknownData.DoDeepResearchSchema_parse
              (UnknownData.of_request request)
            = DoDeepResearchSchema_parse request).
  { unfold UnknownData.DoDeepResearchSchema_parse, UnknownData.of_request,
      DoDeepResearchSchema_parse, DoDeepResearchSchema_issues,
      DoDeepResearchSchema_output.
    cbn [UnknownData.Properties.research_query UnknownData.Properties.accuracy_level
         UnknownData.Properties.max_tokens UnknownData.Properties.temperature
         UnknownData.Properties.include_sources UnknownData.Properties.response_format].
    destruct request as [query level tokens temp sources format].
    cbn [research_query accuracy_level max_tokens temperature
         include_sources response_format].
    cbn [UnknownData.ResearchQuerySchema].
    destruct (ResearchQuerySchema query) as [|q qs];
      cbn [UnknownData.checked UnknownData.issues_of app];
      destruct level, sources as [[|]|], format as [[| |]|];
      cbn [UnknownData.AccuracyLevelSchema UnknownData.IncludeSourcesSchema
           UnknownData.ResponseFormatSchema AccuracyLevel_toString];
      repeat match goal with
             | |- context [jsstring_eqb (js ?a) (js ?b)] =>
                 let r := eval vm_compute in (jsstring_eqb (js a) (js b)) in
                 change (jsstring_eqb (js a) (js b)) with r
             end;
      cbv iota;
      destruct tokens as [n|], temp as [t|];
      cbn [UnknownData.MaxTokensSchema UnknownData.TemperatureSchema];
      try destruct (MaxTokensSchema (Some n)) as [|m ms];
      try destruct (TemperatureSchema (Some t)) as [|u us];
      cbn [UnknownData.checked UnknownData.issues_of app MaxTokensSchema
           TemperatureSchema];
      rewrite ?app_nil_r; reflexivity. }
  rewrite Hparse. reflexivity.
Qed.

(** X2.  [validateResearchRequest] takes data of any type.  A rejection
    always carries at least one error.  For data that is no plain object
    it is the one issue of Zod for a value of the wrong type, without a
    field.  For an object every error names one of the six request
    fields, and all errors come from one stage: the schema, the business
    rules or the content-safety check.  Errors of a later stage are never
    reported beside those of an earlier one. *)
Theorem rejection_comes_from_one_stage
  (toLowerCase : jsstring -> jsstring) (data : UnknownData.Data)
  (errors : list ValidationError) :
  outcome (UnknownData.validateResearchRequest toLowerCase data)
  = Returned (Invalid errors) ->
  errors <> []
  /\ match data with
     | JsValues.JsObject _ =>
         Forall (fun e => is_request_field (field e) = true) errors
     | _ => errors = [UnknownData.invalid_type "" "object" data]
     end
  /\ (Forall (fun e => is_schema_code (code e) = true) errors
      \/ Forall (fun e => is_business_code (code e) = true) errors
      \/ Forall (fun e => is_safety_code (code e) = true) errors).
Proof.
  intros Hv. rewrite validateResearchRequest_unknown_outcome in Hv.
  destruct (UnknownData.DoDeepResearchSchema_parse data)
    as [issues|validated] eqn:Hparse.
  - injection Hv as <-.
    pose proof (parse_no_object data) as Hno.
    destruct data as [| | | | |properties|];
      try (rewrite Hno in Hparse; injection Hparse as <-;
           split; [discriminate|]; split; [reflexivity|];
           left; repeat constructor).
    destruct (parse_object_issues properties issues Hparse) as [Hne Hall].
    split; [exact Hne|].
    split; [|left]; eapply Forall_impl; try exact Hall;
      intros e [? ?]; assumption.
  - pose proof (business_errors_codes validated) as Hb.
    assert (Hobject : match data with
                      | JsValues.JsObject _ => True
                      | _ => False
                      end).
    { pose proof (parse_no_object data) as Hno.
      destruct data; try (rewrite Hno in Hparse; discriminate Hparse).
      exact I. }
    destruct data as [| | | | |properties|]; try contradiction.
    destruct (business_rule_errors validated) as [|b brest].
    + destruct (validateContentSafety (research_query validated))
        as [|es] eqn:Hc; [discriminate|].
      injection Hv as <-. pose proof (safety_errors_codes _ _ Hc) as Hsafe.
      split.
      * unfold validateContentSafety in Hc.
        destruct (check _ _ ++ _); [discriminate|].
        injection Hc as <-. discriminate.
      * split; [|right; right]; eapply Forall_impl; try exact Hsafe;
          intros e [? ?]; assumption.
    + injection Hv as <-. split; [discriminate|].
      split; [|right; left]; eapply Forall_impl; try exact Hb;
        intros e [? ?]; assumption.
Qed.

Lemma rejection_comes_from_one_stage_witness :
  let errors :=
    [ UnknownData.invalid_type (O := unit) "research_query" "string"
        (JsValues.JsNumber (JsValues.Finite 42));
      issue "accuracy_level"
        "Accuracy level must be either 'high' or 'medium'"
        "invalid_enum_value";
      UnknownData.invalid_type (O := unit) "include_sources" "boolean"
        (JsValues.JsString (js "yes")) ] in
  outcome (UnknownData.validateResearchRequest Samples.ascii_toLowerCase
             DataSamples.ill_typed_data)
  = Returned (Invalid errors)
  /\ errors <> []
  /\ Forall (fun e => is_request_field (field e) = true) errors.
Proof.
  intros errors.
  assert (Ho : outcome (UnknownData.validateResearchRequest
                          Samples.ascii_toLowerCase DataSamples.ill_typed_data)
               = Returned (Invalid errors))
    by (vm_compute; reflexivity).
  split; [exact Ho|].
  destruct (rejection_comes_from_one_stage Samples.ascii_toLowerCase
              DataSamples.ill_typed_data errors Ho)
    as (Hne & Hf & _).
  split; assumption.
Defined.

(** X3.  [validateClientId] accepts exactly the strings of 3 to 100 code units
    drawn from letters, digits, underscore, hyphen and period, and returns
    them unchanged; every rejection carries a single error on [clientId],
    whose code is that of the first rule broken: [required] for the empty
    string, else [length], else [format]. *)
Theorem validateClientId_first_violation (clientId : jsstring) :
  (validateClientId clientId = Valid clientId
   <-> (3 <= List.length clientId <= 100)%nat
       /\ forallb is_client_id_char clientId = true)
  /\ (forall v, validateClientId clientId = Valid v -> v = clientId)
  /\ (forall errors, validateClientId clientId = Invalid errors ->
        exists e,
          errors = [e] /\ field e = js "clientId"
          /\ code e
             = if Nat.eqb (List.length clientId) 0 then js "required"
               else if Nat.ltb (List.length clientId) 3
                       || Nat.ltb 100 (List.length clientId)
                    then js "length"
                    else js "format").
Proof.
  unfold validateClientId.
  destruct clientId as [|c rest]; simpl truthy_string; cbn [negb andb].
  - split; [|split].
    + split; [discriminate | simpl; lia].
    + discriminate.
    + intros errors [= <-]. eexists. repeat split.
  - set (id := c :: rest).
    assert (Hz : Nat.eqb (List.length id) 0 = false) by reflexivity.
    rewrite Hz.
    destruct (Nat.ltb (List.length id) 3 || Nat.ltb 100 (List.length id))
      eqn:Hlen.
    + split; [|split].
      * split; [discriminate|]. intros [Hr _].
        apply orb_true_iff in Hlen as [H|H]; apply Nat.ltb_lt in H; lia.
      * discriminate.
      * intros errors [= <-]. eexists. repeat split.
    + apply orb_false_iff in Hlen as [H3 H100].
      apply Nat.ltb_ge in H3, H100.
      destruct (forallb is_client_id_char id) eqn:Hch; cbn [negb].
      * split; [|split].
        -- split; [intros _; split; [lia | reflexivity] | reflexivity].
        -- intros v [= <-]. reflexivity.
        -- discriminate.
      * split; [|split].
        -- split; [discriminate | intros [_ H]; discriminate H].
        -- discriminate.
        -- intros errors [= <-]. eexists. repeat split.
Qed.

(** X4.  However [toLowerCase] behaves, a query of at most 100 code units with
    at most one question mark is never assessed as highly complex, so the
    business rules log no complexity warning for it. *)
Theorem short_query_never_complex
  (toLowerCase : jsstring -> jsstring) (request : DoDeepResearchRequest) :
  (List.length (research_query request) <= 100)%nat ->
  (List.length (List.filter (code_eqb 63) (research_query request)) <= 1)%nat ->
  assessQueryComplexity toLowerCase (research_query request) <> complexity_high
  /\ trace (validateBusinessRules toLowerCase request) = [].
Proof.
  intros Hlen Hq.
  assert (Hc : assessQueryComplexity toLowerCase (research_query request)
               <> complexity_high).
  { unfold assessQueryComplexity.
    assert (H200 : Nat.ltb 200 (List.length (research_query request)) = false)
      by (apply Nat.ltb_ge; lia).
    assert (H100 : Nat.ltb 100 (List.length (research_query request)) = false)
      by (apply Nat.ltb_ge; lia).
    assert (Hq3 : Nat.ltb 3 (List.length (List.filter (code_eqb 63)
                                            (research_query request))) = false)
      by (apply Nat.ltb_ge; lia).
    assert (Hq1 : Nat.ltb 1 (List.length (List.filter (code_eqb 63)
                                            (research_query request))) = false)
      by (apply Nat.ltb_ge; lia).
    cbv zeta. rewrite H200, H100, Hq3, Hq1.
    repeat match goal with
           | |- context [if Nat.ltb ?a ?b then _ else _] =>
               destruct (Nat.ltb a b)
           end; vm_compute; discriminate. }
  split; [exact Hc|].
  unfold validateBusinessRules.
  destruct (accuracy_level request),
    (assessQueryComplexity toLowerCase (research_query request)),
    (business_rule_errors request); try reflexivity; congruence.
Qed.

Lemma short_query_never_complex_witness :
  (List.length (research_query Samples.plain_request) <= 100)%nat
  /\ assessQueryComplexity Samples.ascii_toLowerCase
       (research_query Samples.plain_request) <> complexity_high.
Proof.
  split; [vm_compute; lia|].
  apply (short_query_never_complex Samples.ascii_toLowerCase
           Samples.plain_request); vm_compute; lia.
Defined.

(** ** The repetition check *)

Lemma starts_with_iff (p s : jsstring) :
  starts_with p s = true <-> exists rest, s = p ++ rest.
Proof.
  revert s. induction p as [|a p IH]; intros s; simpl.
  - split; [intros _; exists s; reflexivity | reflexivity].
  - destruct s as [|b s].
    + split; [discriminate | intros [rest H]; discriminate H].
    + rewrite andb_true_iff, code_eqb_eq, IH. split.
      * intros [-> [rest ->]]. exists rest. reflexivity.
      * intros [rest [= -> ->]]. split; [reflexivity | eauto].
Qed.

Lemma skipn_length_app (w rest : jsstring) :
  skipn (List.length w) (w ++ rest) = rest.
Proof. induction w as [|c w IH]; [reflexivity | exact IH]. Qed.

Lemma firstn_length_app (w rest : jsstring) :
  firstn (List.length w) (w ++ rest) = w.
Proof. induction w as [|c w IH]; [reflexivity | simpl; rewrite IH; reflexivity]. Qed.

Lemma repeats_three (w s : jsstring) :
  repeats w 3 s = true <-> exists rest, s = w ++ w ++ w ++ rest.
Proof.
  simpl. rewrite andb_true_r. split.
  - intros H. apply andb_true_iff in H as [H1 H].
    apply starts_with_iff in H1 as [r1 ->]. rewrite skipn_length_app in H.
    apply andb_true_iff in H as [H2 H3].
    apply starts_with_iff in H2 as [r2 ->]. rewrite skipn_length_app in H3.
    apply starts_with_iff in H3 as [r3 ->]. exists r3. reflexivity.
  - intros [rest ->].
    rewrite starts_with_app, skipn_length_app, starts_with_app,
      skipn_length_app, starts_with_app. reflexivity.
Qed.

(** The test [repeated_block_at] makes for one block length. *)
Lemma block_iff (s : jsstring) (len : nat) :
  Nat.leb len (List.length s)
  && forallb (fun c => negb (is_line_terminator c)) (firstn len s)
  && repeats (firstn len s) 3 (skipn len s) = true
  <-> exists w rest,
        s = w ++ w ++ w ++ w ++ rest /\ List.length w = len
        /\ forallb (fun c => negb (is_line_terminator c)) w = true.
Proof.
  rewrite !andb_true_iff, Nat.leb_le, repeats_three. split.
  - intros [[Hlen Hlt] [rest Hrest]].
    exists (firstn len s), rest. split; [|split].
    + rewrite <- Hrest. symmetry. apply firstn_skipn.
    + apply firstn_length_le. exact Hlen.
    + exact Hlt.
  - intros (w & rest & -> & <- & Hlt).
    rewrite firstn_length_app, skipn_length_app. split; [split|].
    + rewrite !List.length_app. lia.
    + exact Hlt.
    + exists rest. reflexivity.
Qed.

Lemma repeated_block_at_iff (s : jsstring) (fuel : nat) :
  forall len,
    repeated_block_at s len fuel = true
    <-> exists w rest,
          s = w ++ w ++ w ++ w ++ rest
          /\ (len <= List.length w <= len + fuel)%nat
          /\ forallb (fun c => negb (is_line_terminator c)) w = true.
Proof.
  induction fuel as [|fuel IH]; intros len; simpl;
    rewrite orb_true_iff, block_iff.
  - split.
    + intros [(w & rest & Hs & Hl & Hw) | H]; [|discriminate].
      exists w, rest. repeat split; [assumption | lia | lia | assumption].
    + intros (w & rest & Hs & Hl & Hw). left.
      exists w, rest. repeat split; [assumption | lia | assumption].
  - rewrite IH. split.
    + intros [(w & rest & Hs & Hl & Hw) | (w & rest & Hs & Hl & Hw)];
        exists w, rest; repeat split; try assumption; lia.
    + intros (w & rest & Hs & Hl & Hw).
      destruct (Nat.eq_dec (List.length w) len) as [He|Hne].
      * left. exists w, rest. repeat split; assumption.
      * right. exists w, rest. repeat split; try assumption; lia.
Qed.

(** X5.  The spam check of [validateContentSafety] fires exactly when the query
    holds a block of at least three code units, none a line terminator,
    four times in a row. *)
Theorem repetition_check_finds_fourfold_blocks (query : jsstring) :
  has_repetition query = true
  <-> exists before w after,
        query = before ++ w ++ w ++ w ++ w ++ after
        /\ (3 <= List.length w)%nat
        /\ forallb (fun c => negb (is_line_terminator c)) w = true.
Proof.
  induction query as [|c query IH].
  - simpl. split; [discriminate|].
    intros (before & w & after & Hq & Hl & _).
    destruct before; [|discriminate Hq].
    destruct w; [simpl in Hl; lia | discriminate Hq].
  - cbn [has_repetition]. rewrite orb_true_iff, repeated_block_at_iff, IH.
    split.
    + intros [(w & rest & Hs & Hl & Hw)
             | (before & w & after & Hq & Hl & Hw)].
      * exists [], w, rest. repeat split; [exact Hs | lia | exact Hw].
      * exists (c :: before), w, after.
        repeat split; [rewrite Hq; reflexivity | exact Hl | exact Hw].
    + intros (before & w & after & Hq & Hl & Hw).
      destruct before as [|c0 before].
      * left. exists w, after. repeat split; [exact Hq | lia | | exact Hw].
        simpl in Hq. rewrite Hq, !List.length_app. lia.
      * right. injection Hq as -> ->. exists before, w, after.
        repeat split; assumption.
Qed.

(* ===================================================================== *)
(** * Matching and replacing                                             *)
(* ===================================================================== *)

Lemma longest_from_keeps (s : jsstring) :
  forall (r : regex) (n : nat) (best : option nat),
    match_prefix r s = false -> longest_from r s n best = best.
Proof.
  induction s as [|c s IH]; intros r n best; simpl; rewrite orb_false_r ||
    idtac.
  - intros ->. reflexivity.
  - intros H. apply orb_false_iff in H as [-> H].
    destruct (is_void r); [reflexivity|]. apply IH. exact H.
Qed.

Lemma longest_none (r : regex) (s : jsstring) :
  match_prefix r s = false -> longest r s = None.
Proof. apply longest_from_keeps. Qed.

Lemma longest_from_some (s : jsstring) :
  forall (r : regex) (n b : nat),
    exists k, longest_from r s n (Some b) = Some k.
Proof.
  induction s as [|c s IH]; intros r n b; simpl.
  - destruct (nullable r); eauto.
  - destruct (is_void r); [destruct (nullable r); eauto|].
    destruct (nullable r); apply IH.
Qed.

Lemma longest_from_found (s : jsstring) :
  forall (r : regex) (n : nat) (best : option nat),
    match_prefix r s = true -> exists k, longest_from r s n best = Some k.
Proof.
  induction s as [|c s IH]; intros r n best; simpl.
  - rewrite orb_false_r. intros ->. eauto.
  - intros H. destruct (nullable r) eqn:Hn.
    + destruct (is_void r); [eauto | apply longest_from_some].
    + simpl in H. destruct (is_void r); [discriminate|]. apply IH. exact H.
Qed.

(** What [longest_from] reports is the running best or a match that ends
    later. *)
Lemma longest_from_value (s : jsstring) :
  forall (r : regex) (n : nat) (best : option nat) (k : nat),
    longest_from r s n best = Some k ->
    best = Some k
    \/ exists m, k = (n + m)%nat /\ (m <= List.length s)%nat
                 /\ lang r (firstn m s).
Proof.
  induction s as [|c s IH]; intros r n best k; simpl.
  - destruct (nullable r) eqn:Hn; [|auto].
    intros [= <-]. right. exists 0%nat. repeat split; [lia | lia |].
    apply nullable_lang. exact Hn.
  - intros H.
    assert (Hbest : (if nullable r then Some n else best) = Some k ->
                    best = Some k
                    \/ exists m, k = (n + m)%nat
                                 /\ (m <= S (List.length s))%nat
                                 /\ lang r (firstn m (c :: s))).
    { destruct (nullable r) eqn:Hn; [|auto].
      intros [= <-]. right. exists 0%nat. repeat split; [lia | lia |].
      apply nullable_lang. exact Hn. }
    destruct (is_void r); [auto|].
    apply IH in H as [H | (m & -> & Hm & Hl)]; [auto|].
    right. exists (S m). repeat split; [lia | lia |].
    simpl. apply deriv_lang. exact Hl.
Qed.

(** A match found at a position is a word of the pattern. *)
Lemma longest_lang (r : regex) (s : jsstring) (k : nat) :
  longest r s = Some k ->
  (k <= List.length s)%nat /\ lang r (firstn k s).
Proof.
  intros H. apply longest_from_value in H as [H | (m & -> & Hm & Hl)];
    [discriminate|].
  split; assumption.
Qed.

(** Where nothing matches, nothing is replaced. *)
Lemma replace_all_no_match (r : regex) (repl s : jsstring) :
  test r s = false -> replace_all r repl s = s.
Proof.
  unfold replace_all. induction s as [|c s IH]; [reflexivity|].
  rewrite test_unfold. intros H. apply orb_false_iff in H as [Hp Ht].
  cbn [replace_all_from]. rewrite (longest_none _ _ Hp), IH by exact Ht.
  reflexivity.
Qed.

(** Replacing by at most one code unit never makes the string longer. *)
Lemma replace_all_from_length (r : regex) (repl s : jsstring) :
  (List.length repl <= 1)%nat ->
  forall skip,
    (List.length (replace_all_from r repl s skip) <= List.length s)%nat.
Proof.
  intros Hr. induction s as [|c s IH]; intros skip; [simpl; lia|].
  cbn [replace_all_from]. destruct skip as [|k].
  - destruct (longest r (c :: s)) as [[|k]|].
    + simpl. specialize (IH 0%nat). lia.
    + rewrite List.length_app. specialize (IH k). simpl. lia.
    + simpl. specialize (IH 0%nat). lia.
  - specialize (IH k). simpl. lia.
Qed.

(** Replacing words that hold no code unit of a class, by a text that
    holds none either, leaves the code units of the class as they are. *)
Lemma replace_all_from_filter (p : N -> bool) (r : regex) (repl : jsstring) :
  (forall w, lang r w -> forallb (fun c => negb (p c)) w = true) ->
  forallb (fun c => negb (p c)) repl = true ->
  forall s skip,
    forallb (fun c => negb (p c)) (firstn skip s) = true ->
    List.filter p (replace_all_from r repl s skip) = List.filter p s.
Proof.
  intros Hw Hrepl.
  assert (Hnone : forall l, forallb (fun c => negb (p c)) l = true ->
                            List.filter p l = []).
  { induction l as [|c l IH]; [reflexivity|]. simpl.
    intros H. apply andb_true_iff in H as [Hc Hl].
    apply negb_true_iff in Hc. rewrite Hc. apply IH, Hl. }
  induction s as [|c s IH]; intros skip Hskip; [reflexivity|].
  cbn [replace_all_from]. destruct skip as [|k].
  - destruct (longest r (c :: s)) as [[|k]|] eqn:Hl.
    + simpl. rewrite IH by reflexivity. reflexivity.
    + apply longest_lang in Hl as [_ Hl]. apply Hw in Hl.
      simpl in Hl. apply andb_true_iff in Hl as [Hc Hk].
      rewrite List.filter_app, (Hnone _ Hrepl), IH by exact Hk.
      simpl. apply negb_true_iff in Hc. rewrite Hc. reflexivity.
    + simpl. rewrite IH by reflexivity. reflexivity.
  - simpl in Hskip. apply andb_true_iff in Hskip as [Hc Hk].
    rewrite IH by exact Hk. simpl.
    apply negb_true_iff in Hc. rewrite Hc. reflexivity.
Qed.

(** With an empty replacement, what is left was there before. *)
Lemma replace_all_from_In (r : regex) (x : N) (s : jsstring) :
  forall skip, In x (replace_all_from r [] s skip) -> In x s.
Proof.
  induction s as [|c s IH]; intros skip; [auto|].
  cbn [replace_all_from]. destruct skip as [|k].
  - destruct (longest r (c :: s)) as [[|k]|]; simpl.
    + intros [H|H]; [auto | right; eapply IH; exact H].
    + intros H. right. eapply IH. exact H.
    + intros [H|H]; [auto | right; eapply IH; exact H].
  - intros H. right. eapply IH. exact H.
Qed.

(** ** Character classes *)

Lemma in_range_true (lo hi c : N) :
  in_range lo hi c = true <-> lo <= c /\ c <= hi.
Proof. unfold in_range. rewrite andb_true_iff, !N.leb_le. reflexivity. Qed.

(** From a disjunction of range and equality tests to arithmetic. *)
Ltac class_cases H :=
  repeat (apply orb_true_iff in H as [H|H]);
  (apply in_range_true in H || apply code_eqb_eq in H).

Lemma letter_not_space (c : N) :
  is_lower c = true \/ is_upper c = true -> is_space c = false.
Proof.
  intros Hl. apply not_true_is_false. intros H.
  assert (65 <= c /\ c <= 122)
    by (destruct Hl as [Hl|Hl]; apply in_range_true in Hl; lia).
  unfold is_space in H. class_cases H; lia.
Qed.

Lemma letter_not_angle (c : N) :
  is_lower c = true \/ is_upper c = true -> is_angle c = false.
Proof.
  intros Hl. apply not_true_is_false. intros H.
  assert ((65 <= c /\ c <= 90) \/ (97 <= c /\ c <= 122))
    by (destruct Hl as [Hl|Hl]; apply in_range_true in Hl; lia).
  unfold is_angle in H. class_cases H; lia.
Qed.

(** Two code units equal up to case are equal or both letters. *)
Lemma eqb_ci_cases (a b : N) :
  eqb_ci a b = true ->
  a = b
  \/ ((is_lower a = true \/ is_upper a = true)
      /\ (is_lower b = true \/ is_upper b = true)).
Proof.
  unfold eqb_ci, ascii_upper. intros H. apply code_eqb_eq in H.
  destruct (is_lower a) eqn:Ha, (is_lower b) eqn:Hb.
  - right. auto.
  - right. split; [auto|]. right.
    apply in_range_true in Ha. apply in_range_true. lia.
  - right. split; [|auto]. right.
    apply in_range_true in Hb. apply in_range_true. lia.
  - left. exact H.
Qed.

(** A class that holds no letter does not tell apart code units that are
    equal up to case. *)
Lemma eqb_ci_class (q : N -> bool) (a b : N) :
  (forall c, is_lower c = true \/ is_upper c = true -> q c = false) ->
  eqb_ci a b = true -> q b = q a.
Proof.
  intros Hq H. apply eqb_ci_cases in H as [-> | [Ha Hb]]; [reflexivity|].
  rewrite (Hq a Ha), (Hq b Hb). reflexivity.
Qed.

(** The words of a case-insensitive literal avoid every letter-free class
    the literal avoids. *)
Lemma lit_ci_avoids (q : N -> bool) (p w : jsstring) :
  (forall c, is_lower c = true \/ is_upper c = true -> q c = false) ->
  forallb (fun c => negb (q c)) p = true ->
  lang (lit_ci p) w ->
  forallb (fun c => negb (q c)) w = true.
Proof.
  intros Hq Hp Hl. apply lit_ci_lang in Hl.
  induction Hl as [|a b p w Hab _ IH]; [reflexivity|].
  simpl in *. apply andb_true_iff in Hp as [Ha Hp].
  rewrite (eqb_ci_class q a b Hq Hab), Ha. apply IH, Hp.
Qed.

Lemma lang_star_class (p : N -> bool) (u : jsstring) :
  forallb p u = true -> lang (Star (Class p)) u.
Proof.
  induction u as [|c u IH]; simpl; [constructor|].
  intros H. apply andb_true_iff in H as [Hc Hu].
  apply (lang_star_cons (Class p) [c] u); [constructor; exact Hc | auto].
Qed.

Lemma lang_star_class_inv (p : N -> bool) (u : jsstring) :
  lang (Star (Class p)) u -> forallb p u = true.
Proof.
  intros H. remember (Star (Class p)) as r eqn:Er.
  induction H as [| | | | | |a u v Hu _ Hv IHv]; try discriminate;
    [reflexivity|].
  injection Er as ->. apply lang_class_inv in Hu as (c & -> & Hc).
  simpl. rewrite Hc. apply IHv. reflexivity.
Qed.

Lemma code_eqb_sym (a b : N) : code_eqb a b = code_eqb b a.
Proof. apply N.eqb_sym. Qed.

(** ** Tags *)

(** The words of [/<[^>]*>/]. *)
Lemma lang_html_tag (w : jsstring) :
  lang re_html_tag w
  <-> exists u, w = 60 :: u ++ [62]
                /\ forallb (fun c => negb (code_eqb c 62)) u = true.
Proof.
  unfold re_html_tag, chr. split.
  - intros H. apply lang_cat_inv in H as (a & b & -> & Ha & Hb).
    apply lang_class_inv in Ha as (c & -> & Hc). apply code_eqb_eq in Hc.
    apply lang_cat_inv in Hb as (u & v & -> & Hu & Hv).
    apply lang_class_inv in Hv as (d & -> & Hd). apply code_eqb_eq in Hd.
    apply lang_star_class_inv in Hu. subst. exists u. split; [reflexivity|].
    exact Hu.
  - intros (u & -> & Hu).
    apply (lang_cat _ _ [60] (u ++ [62])); [constructor; reflexivity|].
    apply lang_cat; [apply lang_star_class; exact Hu|].
    constructor. reflexivity.
Qed.

(** Up to its first [>], a string splits into a part without [>] and the
    rest. *)
Lemma first_close (s : jsstring) :
  existsb (code_eqb 62) s = true ->
  exists u v, s = u ++ 62 :: v
              /\ forallb (fun c => negb (code_eqb c 62)) u = true.
Proof.
  induction s as [|c s IH]; cbn [existsb]; [discriminate|].
  destruct (code_eqb 62 c) eqn:E.
  - intros _. apply code_eqb_eq in E. subst c. exists [], s. auto.
  - cbn [orb]. intros H. destruct (IH H) as (u & v & -> & Hu).
    exists (c :: u), v. split; [reflexivity|].
    cbn [forallb]. rewrite Hu, andb_true_r.
    apply negb_true_iff. rewrite code_eqb_sym. exact E.
Qed.

(** A [<] with a [>] somewhere after it starts a tag. *)
Lemma open_then_close_matches (s : jsstring) :
  existsb (code_eqb 62) s = true ->
  exists k, longest re_html_tag (60 :: s) = Some (S k).
Proof.
  intros H. destruct (first_close s H) as (u & v & -> & Hu).
  assert (Hm : match_prefix re_html_tag (60 :: u ++ 62 :: v) = true).
  { apply match_prefix_lang. exists (60 :: u ++ [62]), v. split.
    - simpl. rewrite <- app_assoc. reflexivity.
    - apply lang_html_tag. eauto. }
  destruct (longest_from_found _ re_html_tag 0 None Hm) as [k Hk].
  fold (longest re_html_tag (60 :: u ++ 62 :: v)) in Hk.
  destruct k as [|k]; [|eauto].
  apply longest_lang in Hk as [_ Hk]. simpl in Hk.
  apply lang_html_tag in Hk as (u0 & Hu0 & _). discriminate Hu0.
Qed.

(** After the tag removal no [<] has a [>] after it. *)
Lemma strip_tags_no_tag_possible (s : jsstring) :
  forall skip, no_tag_possible (replace_all_from re_html_tag [] s skip) = true.
Proof.
  induction s as [|c s IH]; intros skip; [reflexivity|].
  cbn [replace_all_from]. destruct skip as [|k]; [|apply IH].
  destruct (longest re_html_tag (c :: s)) as [[|k]|] eqn:Hl.
  - apply longest_lang in Hl as [_ Hl]. simpl in Hl.
    apply lang_html_tag in Hl as (u & Hu & _). discriminate Hu.
  - apply IH.
  - cbn [no_tag_possible]. rewrite IH, andb_true_r.
    destruct (code_eqb c 60) eqn:Hc; [|reflexivity].
    apply code_eqb_eq in Hc. subst c. apply negb_true_iff.
    destruct (existsb (code_eqb 62) (replace_all_from re_html_tag [] s 0))
      eqn:He; [|reflexivity].
    apply existsb_exists in He as (x & Hin & Hx).
    apply replace_all_from_In in Hin.
    assert (Hs : existsb (code_eqb 62) s = true)
      by (apply existsb_exists; eauto).
    destruct (open_then_close_matches s Hs) as [k Hk]. congruence.
Qed.

Lemma existsb_close_filter (s : jsstring) :
  existsb (code_eqb 62) (List.filter is_angle s) = existsb (code_eqb 62) s.
Proof.
  induction s as [|c s IH]; [reflexivity|]. cbn [List.filter existsb].
  destruct (is_angle c) eqn:Ha; cbn [existsb]; rewrite IH; [reflexivity|].
  unfold is_angle in Ha. apply orb_false_iff in Ha as [_ Ha].
  rewrite code_eqb_sym, Ha. reflexivity.
Qed.

(** Whether a tag is possible depends on the angle brackets only. *)
Lemma no_tag_possible_filter (s : jsstring) :
  no_tag_possible (List.filter is_angle s) = no_tag_possible s.
Proof.
  induction s as [|c s IH]; [reflexivity|].
  cbn [List.filter no_tag_possible].
  destruct (is_angle c) eqn:Ha; cbn [no_tag_possible].
  - rewrite IH, existsb_close_filter. reflexivity.
  - rewrite IH. unfold is_angle in Ha. apply orb_false_iff in Ha as [-> _].
    reflexivity.
Qed.

Lemma no_tag_possible_firstn (s : jsstring) :
  forall n, no_tag_possible s = true -> no_tag_possible (firstn n s) = true.
Proof.
  induction s as [|c s IH]; intros [|n]; try reflexivity.
  cbn [firstn no_tag_possible]. intros H.
  apply andb_true_iff in H as [Hc Hs]. rewrite (IH n Hs), andb_true_r.
  destruct (code_eqb c 60); [|reflexivity].
  apply negb_true_iff in Hc. apply negb_true_iff.
  destruct (existsb (code_eqb 62) (firstn n s)) eqn:He; [|reflexivity].
  apply existsb_exists in He as (x & Hin & Hx).
  assert (Hin' : In x s)
    by (rewrite <- (firstn_skipn n s); apply in_or_app; auto).
  assert (existsb (code_eqb 62) s = true) by (apply existsb_exists; eauto).
  congruence.
Qed.

(** Where no tag is possible, the tag pattern finds nothing. *)
Lemma no_tag_possible_test (s : jsstring) :
  no_tag_possible s = true -> test re_html_tag s = false.
Proof.
  intros H. apply not_true_is_false. intros Ht.
  apply test_lang in Ht as (a & w & b & -> & Hw).
  apply lang_html_tag in Hw as (u & -> & _).
  induction a as [|c a IH].
  - simpl in H. apply andb_true_iff in H as [H _].
    apply negb_true_iff in H.
    rewrite <- app_assoc, existsb_app in H.
    apply orb_false_iff in H as [_ H]. simpl in H. discriminate H.
  - simpl in H. apply andb_true_iff in H as [_ H]. apply IH, H.
Qed.

(** ** Trimming *)

Lemma space_not_angle (c : N) : is_space c = true -> is_angle c = false.
Proof.
  intros Hs. apply not_true_is_false. intros H.
  unfold is_angle in H. unfold is_space in Hs.
  class_cases H; subst c; vm_compute in Hs; discriminate Hs.
Qed.

Lemma drop_while_split (q : N -> bool) (s : jsstring) :
  exists dropped,
    s = dropped ++ drop_while q s /\ forallb q dropped = true.
Proof.
  induction s as [|c s (d & Hs & Hd)]; [exists []; auto|].
  cbn [drop_while]. destruct (q c) eqn:Hc.
  - exists (c :: d). split; [simpl; congruence|]. simpl. rewrite Hc, Hd.
    reflexivity.
  - exists []. auto.
Qed.

(** [trim] cuts white space off both ends. *)
Lemma trim_split (s : jsstring) :
  exists left right,
    s = left ++ trim s ++ right
    /\ forallb is_space left = true /\ forallb is_space right = true.
Proof.
  unfold trim, trimEnd, trimStart.
  destruct (drop_while_split is_space s) as (l & Hs & Hl).
  destruct (drop_while_split is_space (rev (drop_while is_space s)))
    as (r & Hr & Hrs).
  exists l, (rev r). split; [|split].
  - rewrite Hs at 1. f_equal.
    rewrite <- (rev_involutive (drop_while is_space s)) at 1.
    rewrite Hr at 1. rewrite rev_app_distr. reflexivity.
  - exact Hl.
  - rewrite forallb_forall in *. intros x Hx. apply Hrs.
    apply in_rev. exact Hx.
Qed.

Lemma filter_none (p : N -> bool) (l : jsstring) :
  forallb (fun c => negb (p c)) l = true -> List.filter p l = [].
Proof.
  induction l as [|c l IH]; [reflexivity|]. cbn [forallb List.filter].
  intros H. apply andb_true_iff in H as [Hc Hl].
  apply negb_true_iff in Hc. rewrite Hc. apply IH, Hl.
Qed.

Lemma spaces_no_angle (l : jsstring) :
  forallb is_space l = true -> forallb (fun c => negb (is_angle c)) l = true.
Proof.
  rewrite !forallb_forall. intros H x Hx.
  apply negb_true_iff, space_not_angle, H, Hx.
Qed.

Lemma trim_filter_angle (s : jsstring) :
  List.filter is_angle (trim s) = List.filter is_angle s.
Proof.
  destruct (trim_split s) as (l & r & Hs & Hl & Hr).
  rewrite Hs at 2. rewrite !List.filter_app.
  rewrite (filter_none _ _ (spaces_no_angle _ Hl)).
  rewrite (filter_none _ _ (spaces_no_angle _ Hr)).
  rewrite app_nil_r. reflexivity.
Qed.

Lemma trim_length (s : jsstring) :
  (List.length (trim s) <= List.length s)%nat.
Proof.
  destruct (trim_split s) as (l & r & Hs & _). rewrite Hs at 2.
  rewrite !List.length_app. lia.
Qed.

(** ** The steps of [sanitizeQuery] *)

(** The words of [/\s+/] are white space. *)
Lemma lang_spaces (w : jsstring) :
  lang (plus space) w -> w <> [] /\ forallb is_space w = true.
Proof.
  unfold plus, space. intros H.
  apply lang_cat_inv in H as (a & b & -> & Ha & Hb).
  apply lang_class_inv in Ha as (c & -> & Hc).
  apply lang_star_class_inv in Hb. split; [discriminate|].
  simpl. rewrite Hc, Hb. reflexivity.
Qed.

Lemma replace_all_filter_angle (r : regex) (repl s : jsstring) :
  (forall w, lang r w -> forallb (fun c => negb (is_angle c)) w = true) ->
  forallb (fun c => negb (is_angle c)) repl = true ->
  List.filter is_angle (replace_all r repl s) = List.filter is_angle s.
Proof.
  intros Hw Hr. apply (replace_all_from_filter is_angle r repl Hw Hr s 0%nat).
  reflexivity.
Qed.

(** The text [sanitizeQuery] has before the cut at 2000 code units. *)
Lemma sanitizeQuery_steps (query : jsstring) :
  let uncut :=
    normalize_space
      (replace_all (lit_ci (js "data:text/html")) []
         (replace_all (lit_ci (js "javascript:")) []
            (replace_all re_html_tag [] query))) in
  sanitizeQuery query
  = if Nat.ltb 2000 (List.length uncut)
    then ([Logged SevWarn (js "Research query truncated for safety")],
          Returned (firstn 2000 uncut))
    else ([], Returned uncut).
Proof.
  intros uncut. unfold sanitizeQuery. fold (normalize_space
    (replace_all (lit_ci (js "data:text/html")) []
       (replace_all (lit_ci (js "javascript:")) []
          (replace_all re_html_tag [] query)))).
  fold uncut. destruct (Nat.ltb 2000 (List.length uncut)); reflexivity.
Qed.

(** The angle brackets of the uncut text are those the tag removal left. *)
Lemma uncut_filter_angle (query : jsstring) :
  List.filter is_angle
    (normalize_space
       (replace_all (lit_ci (js "data:text/html")) []
          (replace_all (lit_ci (js "javascript:")) []
             (replace_all re_html_tag [] query))))
  = List.filter is_angle (replace_all re_html_tag [] query).
Proof.
  unfold normalize_space.
  rewrite replace_all_filter_angle, trim_filter_angle.
  - rewrite (replace_all_filter_angle (lit_ci (js "data:text/html"))),
      (replace_all_filter_angle (lit_ci (js "javascript:")));
      try reflexivity;
      intros w Hw;
      apply (lit_ci_avoids is_angle _ w letter_not_angle) in Hw;
      try exact Hw; vm_compute; reflexivity.
  - intros w Hw. apply lang_spaces in Hw as [_ Hw].
    apply spaces_no_angle, Hw.
  - vm_compute. reflexivity.
Qed.

(** X6.  For every input, the sanitized text has at most 2000 code units and
    holds no complete tag: no [<] is followed, however far, by a [>].
    Nothing is logged, or else the truncation warning is, and then the
    text has exactly 2000 code units. *)
Theorem sanitizeQuery_bounded_and_tag_free (query : jsstring) :
  exists sanitized,
    outcome (sanitizeQuery query) = Returned sanitized
    /\ (List.length sanitized <= 2000)%nat
    /\ no_tag_possible sanitized = true
    /\ test re_html_tag sanitized = false
    /\ (trace (sanitizeQuery query) = []
        \/ trace (sanitizeQuery query)
           = [Logged SevWarn (js "Research query truncated for safety")]
           /\ List.length sanitized = 2000%nat).
Proof.
  pose proof (sanitizeQuery_steps query) as Hs. cbv zeta in Hs.
  pose proof (uncut_filter_angle query) as Hf.
  set (uncut := normalize_space _) in *.
  assert (Hn : no_tag_possible uncut = true).
  { rewrite <- no_tag_possible_filter, Hf, no_tag_possible_filter.
    apply strip_tags_no_tag_possible. }
  rewrite Hs. destruct (Nat.ltb 2000 (List.length uncut)) eqn:Hlen.
  - apply Nat.ltb_lt in Hlen. exists (firstn 2000 uncut).
    assert (Hl : List.length (firstn 2000 uncut) = 2000%nat)
      by (apply firstn_length_le; lia).
    pose proof (no_tag_possible_firstn uncut 2000 Hn) as Hn'.
    repeat split; [lia | exact Hn' | apply no_tag_possible_test, Hn' |].
    right. split; [reflexivity | exact Hl].
  - apply Nat.ltb_ge in Hlen. exists uncut.
    repeat split; [exact Hlen | exact Hn | apply no_tag_possible_test, Hn |].
    left. reflexivity.
Qed.

(** ** White-space normalisation *)

Lemma longest_from_void (s : jsstring) (n : nat) (best : option nat) :
  longest_from Void s n best = best.
Proof. destruct s; reflexivity. Qed.

Lemma longest_from_star_space (s : jsstring) :
  forall (n : nat) (best : option nat),
    longest_from (Star space) s n best = Some (n + ws_run s)%nat.
Proof.
  induction s as [|c s IH]; intros n best; cbn [longest_from nullable is_void].
  - simpl. f_equal. lia.
  - cbn [deriv space ws_run]. unfold space. cbn [deriv].
    destruct (is_space c).
    + cbn [cat]. fold space. rewrite IH. f_equal. lia.
    + cbn [cat]. rewrite longest_from_void. f_equal. lia.
Qed.

(** [/\s+/] matches at a position exactly the white-space run there. *)
Lemma longest_plus_space (c : N) (s : jsstring) :
  longest (plus space) (c :: s)
  = if is_space c then Some (S (ws_run s)) else None.
Proof.
  unfold longest, plus. cbn [longest_from nullable is_void andb].
  unfold space at 1. cbn [deriv nullable]. destruct (is_space c).
  - cbn [cat alt]. fold space. rewrite longest_from_star_space.
    reflexivity.
  - cbn [cat alt]. apply longest_from_void.
Qed.

(** A text in normal form is left as it is. *)
Lemma collapse_normal (s : jsstring) :
  ws_normal s = true -> replace_all (plus space) (js " ") s = s.
Proof.
  unfold replace_all. induction s as [|c s IH]; [reflexivity|].
  cbn [ws_normal]. intros H. apply andb_true_iff in H as [Hc Hs].
  cbn [replace_all_from]. rewrite longest_plus_space.
  destruct (is_space c).
  - apply andb_true_iff in Hc as [Hc Hr]. apply code_eqb_eq in Hc.
    apply Nat.eqb_eq in Hr. subst c. rewrite Hr.
    change (js " ") with [32]. simpl. f_equal. apply IH, Hs.
  - f_equal. apply IH, Hs.
Qed.

(** Collapsing yields a text in normal form, whether it starts at a fresh
    position or just behind a white-space run being replaced. *)
Lemma collapse_is_normal (s : jsstring) :
  ws_normal (replace_all_from (plus space) (js " ") s 0) = true
  /\ ws_normal (replace_all_from (plus space) (js " ") s (ws_run s)) = true
  /\ ws_run (replace_all_from (plus space) (js " ") s (ws_run s)) = 0%nat.
Proof.
  change (js " ") with [32].
  induction s as [|c s (IH0 & IHn & IHr)]; [repeat split|].
  assert (H0 : ws_normal (replace_all_from (plus space) [32] (c :: s) 0)
               = true).
  { cbn [replace_all_from]. rewrite longest_plus_space.
    destruct (is_space c) eqn:Hc.
    - cbn [app ws_normal].
      rewrite IHr, IHn. reflexivity.
    - cbn [ws_normal]. rewrite Hc, IH0. reflexivity. }
  split; [exact H0|]. cbn [ws_run]. destruct (is_space c) eqn:Hc.
  - cbn [replace_all_from]. auto.
  - split; [exact H0|]. cbn [replace_all_from].
    rewrite longest_plus_space, Hc. cbn [ws_run]. rewrite Hc. reflexivity.
Qed.

Lemma drop_while_head (q : N -> bool) (s : jsstring) :
  match drop_while q s with
  | [] => True
  | c :: _ => q c = false
  end.
Proof.
  induction s as [|c s IH]; [exact I|]. cbn [drop_while].
  destruct (q c) eqn:Hc; [exact IH | exact Hc].
Qed.

Lemma drop_while_last (q : N -> bool) (s : jsstring) (c : N) :
  q c = false -> drop_while q (s ++ [c]) = drop_while q s ++ [c].
Proof.
  intros Hc. induction s as [|x s IH]; cbn [app drop_while].
  - rewrite Hc. reflexivity.
  - destruct (q x); [exact IH | reflexivity].
Qed.

Lemma ws_run_zero (s : jsstring) :
  ws_run s = 0%nat <->
  match s with [] => True | c :: _ => is_space c = false end.
Proof.
  destruct s as [|c s]; [simpl; tauto|]. cbn [ws_run].
  destruct (is_space c); split; intros H; congruence || reflexivity.
Qed.

(** A trimmed text is empty, or starts and ends with code units that are
    not white space. *)
Lemma trim_shape (s : jsstring) :
  trim s = []
  \/ exists c body init d,
       trim s = c :: body /\ trim s = init ++ [d]
       /\ is_space c = false /\ is_space d = false.
Proof.
  unfold trim, trimEnd, trimStart.
  pose proof (drop_while_head is_space s) as Hh.
  destruct (drop_while is_space s) as [|c t]; [left; reflexivity|].
  right. cbn [rev]. rewrite (drop_while_last _ _ _ Hh).
  pose proof (drop_while_head is_space (rev t)) as Hd.
  rewrite rev_app_distr. cbn [rev app].
  destruct (drop_while is_space (rev t)) as [|d u] eqn:Hu.
  - exists c, [], [], c. cbn. auto.
  - exists c, (rev (d :: u)), (c :: rev u), d. repeat split; auto.
Qed.

Lemma drop_while_none (q : N -> bool) (s : jsstring) :
  match s with [] => True | c :: _ => q c = false end ->
  drop_while q s = s.
Proof. destruct s as [|c s]; [reflexivity|]. simpl. intros ->. reflexivity. Qed.

Lemma trim_trimmed (s : jsstring) : is_trimmed s = true -> trim s = s.
Proof.
  unfold is_trimmed. intros H. apply andb_true_iff in H as [Hs He].
  apply Nat.eqb_eq, ws_run_zero in Hs. apply Nat.eqb_eq, ws_run_zero in He.
  unfold trim, trimEnd, trimStart.
  rewrite (drop_while_none _ s Hs), (drop_while_none _ (rev s) He).
  apply rev_involutive.
Qed.

Lemma collapse_last (d : N) (init : jsstring) :
  is_space d = false ->
  forall skip,
    (skip <= ws_run (init ++ [d]))%nat ->
    exists init',
      replace_all_from (plus space) [32] (init ++ [d]) skip = init' ++ [d].
Proof.
  intros Hd. induction init as [|x init IH]; intros skip Hskip.
  - cbn [app ws_run] in Hskip. rewrite Hd in Hskip.
    assert (skip = 0%nat) as -> by lia.
    cbn [app replace_all_from]. rewrite longest_plus_space, Hd.
    exists []. reflexivity.
  - cbn [app ws_run] in Hskip. cbn [app replace_all_from].
    rewrite longest_plus_space. destruct (is_space x) eqn:Hx.
    + destruct skip as [|k].
      * destruct (IH (ws_run (init ++ [d]))) as (i & Hi); [lia|].
        rewrite Hi. exists (32 :: i). reflexivity.
      * apply IH. lia.
    + assert (skip = 0%nat) as -> by lia.
      destruct (IH 0%nat) as (i & Hi); [lia|].
      rewrite Hi. exists (x :: i). reflexivity.
Qed.

(** What [s.trim().replace(/\s+/g, ' ')] returns is in normal form: it
    neither starts nor ends with white space, and its white space is
    single spaces. *)
Lemma normalize_space_normal (s : jsstring) :
  is_trimmed (normalize_space s) = true
  /\ ws_normal (normalize_space s) = true.
Proof.
  unfold normalize_space, replace_all. change (js " ") with [32]. split.
  - destruct (trim_shape s) as [-> | (c & body & init & d & Hc & Hd & Hsc & Hsd)];
      [reflexivity|].
    unfold is_trimmed. apply andb_true_iff. split; apply Nat.eqb_eq.
    + rewrite Hc. cbn [replace_all_from]. rewrite longest_plus_space, Hsc.
      cbn [ws_run]. rewrite Hsc. reflexivity.
    + rewrite Hd. destruct (collapse_last d init Hsd 0%nat) as (i & ->); [lia|].
      rewrite rev_app_distr. cbn [rev app ws_run]. rewrite Hsd. reflexivity.
  - apply (collapse_is_normal (trim s)).
Qed.

(** Normalising a second time changes nothing. *)
Lemma normalize_space_idempotent (s : jsstring) :
  normalize_space (normalize_space s) = normalize_space s.
Proof.
  destruct (normalize_space_normal s) as [Ht Hn].
  unfold normalize_space at 1. rewrite (trim_trimmed _ Ht).
  apply collapse_normal, Hn.
Qed.

(** ** What white-space collapsing cannot create *)

(** A text without white space that the collapsed text starts with is one
    the input starts with. *)
Lemma collapse_prefix (r : regex) (w : jsstring) :
  forallb (fun c => negb (is_space c)) w = true ->
  forall s rest,
    replace_all_from r [32] s 0 = w ++ rest ->
    exists rest', s = w ++ rest'.
Proof.
  induction w as [|x w IH]; intros Hw s rest H; [exists s; reflexivity|].
  cbn [forallb] in Hw. apply andb_true_iff in Hw as [Hx Hw].
  apply negb_true_iff in Hx.
  destruct s as [|c s]; [discriminate H|].
  cbn [replace_all_from] in H.
  destruct (longest r (c :: s)) as [[|k]|].
  - injection H as -> H. destruct (IH Hw _ _ H) as (t & ->).
    exists t. reflexivity.
  - injection H as <- _. discriminate Hx.
  - injection H as -> H. destruct (IH Hw _ _ H) as (t & ->).
    exists t. reflexivity.
Qed.

(** A text without white space that occurs in the collapsed text occurs in
    the input. *)
Lemma collapse_substring (r : regex) (w : jsstring) :
  forallb (fun c => negb (is_space c)) w = true ->
  forall s skip a b,
    replace_all_from r [32] s skip = a ++ w ++ b ->
    exists a' b', s = a' ++ w ++ b'.
Proof.
  intros Hw. destruct w as [|x w]; [intros s; exists [], s; reflexivity|].
  induction s as [|c s IH]; intros skip a b H.
  - destruct a; discriminate H.
  - cbn [replace_all_from] in H.
    assert (Hrec : forall k a2,
               replace_all_from r [32] s k = a2 ++ (x :: w) ++ b ->
               exists a' b', c :: s = a' ++ (x :: w) ++ b').
    { intros k a2 H2. destruct (IH _ _ _ H2) as (a' & b' & ->).
      exists (c :: a'), b'. reflexivity. }
    assert (Hkeep : c :: replace_all_from r [32] s 0 = a ++ (x :: w) ++ b ->
                    exists a' b', c :: s = a' ++ (x :: w) ++ b').
    { intros H2. destruct a as [|y a].
      - cbn [app] in H2. injection H2 as -> H2.
        cbn [forallb] in Hw. apply andb_true_iff in Hw as [_ Hw].
        destruct (collapse_prefix r w Hw _ _ H2) as (t & ->).
        exists [], t. reflexivity.
      - cbn [app] in H2. injection H2 as _ H2. exact (Hrec _ _ H2). }
    destruct skip as [|k]; [|exact (Hrec _ _ H)].
    destruct (longest r (c :: s)) as [[|k]|]; [exact (Hkeep H) | | exact (Hkeep H)].
    destruct a as [|y a].
    + cbn [app] in H. injection H as <- _.
      cbn [forallb] in Hw. discriminate Hw.
    + cbn [app] in H. injection H as _ H. exact (Hrec _ _ H).
Qed.

(** A pattern whose words hold no white space matches in the collapsed
    text only if it matches in the input. *)
Lemma collapse_test (r pattern : regex) (s : jsstring) :
  (forall w, lang pattern w ->
     forallb (fun c => negb (is_space c)) w = true) ->
  test pattern s = false ->
  test pattern (replace_all r [32] s) = false.
Proof.
  intros Hws Hs. apply not_true_is_false. intros H.
  apply test_lang in H as (a & w & b & Hr & Hl).
  destruct (collapse_substring r w (Hws w Hl) _ _ _ _ Hr) as (a' & b' & Heq).
  assert (test pattern s = true) by (apply test_lang; eauto).
  congruence.
Qed.

Lemma trim_test (pattern : regex) (s : jsstring) :
  test pattern s = false -> test pattern (trim s) = false.
Proof.
  intros Hs. apply not_true_is_false. intros H.
  apply test_lang in H as (a & w & b & Hr & Hl).
  destruct (trim_split s) as (l & r & Heq & _).
  assert (test pattern s = true).
  { apply test_lang. exists (l ++ a), w, (b ++ r). split; [|exact Hl].
    rewrite Heq, Hr, <- !app_assoc. reflexivity. }
  congruence.
Qed.

(** A pattern whose words hold no white space matches in the normalised
    text only if it matches in the input. *)
Lemma normalize_space_test (pattern : regex) (s : jsstring) :
  (forall w, lang pattern w ->
     forallb (fun c => negb (is_space c)) w = true) ->
  test pattern s = false ->
  test pattern (normalize_space s) = false.
Proof.
  intros Hws Hs. unfold normalize_space. change (js " ") with [32].
  apply collapse_test; [exact Hws|]. apply trim_test, Hs.
Qed.

Lemma normalize_space_length (s : jsstring) :
  (List.length (normalize_space s) <= List.length s)%nat.
Proof.
  unfold normalize_space, replace_all.
  etransitivity; [apply replace_all_from_length; simpl; lia|].
  apply trim_length.
Qed.

Lemma no_angle_no_tag (s : jsstring) :
  no_angle_brackets s = true -> test re_html_tag s = false.
Proof.
  intros H. apply no_tag_possible_test.
  rewrite <- no_tag_possible_filter.
  rewrite (filter_none is_angle s H). reflexivity.
Qed.

(** [sanitizeQuery] on a text without angle brackets and without the two
    removed strings is the white-space normalisation alone. *)
Lemma sanitizeQuery_clean (query : jsstring) :
  no_angle_brackets query = true ->
  test (lit_ci (js "javascript:")) query = false ->
  test (lit_ci (js "data:text/html")) query = false ->
  (List.length query <= 2000)%nat ->
  sanitizeQuery query = ([], Returned (normalize_space query)).
Proof.
  intros Ha Hj Hd Hl. rewrite sanitizeQuery_steps. cbv zeta.
  rewrite (replace_all_no_match re_html_tag [] query (no_angle_no_tag _ Ha)).
  rewrite (replace_all_no_match _ [] query Hj).
  rewrite (replace_all_no_match _ [] query Hd).
  pose proof (normalize_space_length query) as Hn.
  destruct (Nat.ltb_spec 2000 (List.length (normalize_space query)));
    [lia | reflexivity].
Qed.

Lemma accepted_query_clean
  (toLowerCase : jsstring -> jsstring)
  (data validated : DoDeepResearchRequest) :
  outcome (validateResearchRequest toLowerCase data)
  = Returned (Valid validated) ->
  research_query validated = research_query data
  /\ no_angle_brackets (research_query data) = true
  /\ test (lit_ci (js "javascript:")) (research_query data) = false
  /\ test (lit_ci (js "data:text/html")) (research_query data) = false
  /\ (List.length (research_query data) <= 2000)%nat.
Proof.
  intros Hv. rewrite validateResearchRequest_outcome in Hv.
  destruct (DoDeepResearchSchema_issues data) eqn:Hi; [|discriminate].
  destruct (business_rule_errors data) eqn:Hb; [|discriminate].
  destruct (validateContentSafety (research_query data)) eqn:Hc;
    [|discriminate].
  injection Hv as <-. split; [reflexivity|].
  unfold DoDeepResearchSchema_issues, ResearchQuerySchema in Hi.
  unfold validateContentSafety in Hc.
  destruct (check (matches_dangerous _) _ ++ _) eqn:Hs; [|discriminate].
  clear Hb. split_checks.
  match goal with
  | H : matches_dangerous _ = false |- _ =>
      unfold matches_dangerous, dangerousPatterns in H; cbn [existsb] in H;
      repeat (apply orb_false_iff in H as [? H])
  end.
  repeat (split; [assumption || lia|]). lia.
Qed.

(** X7.  For a request that validation accepted, sanitizing is the white-space
    normalisation [q.trim().replace(/\s+/g, ' ')] of the query and nothing
    else: nothing is removed, nothing is cut, nothing is logged; and
    sanitizing the result once more returns it unchanged. *)
Theorem accepted_query_sanitized_once
  (toLowerCase : jsstring -> jsstring)
  (data validated : DoDeepResearchRequest) :
  outcome (validateResearchRequest toLowerCase data)
  = Returned (Valid validated) ->
  let sanitized := normalize_space (research_query validated) in
  sanitizeQuery (research_query validated) = ([], Returned sanitized)
  /\ sanitizeQuery sanitized = ([], Returned sanitized)
  /\ is_trimmed sanitized = true
  /\ ws_normal sanitized = true.
Proof.
  intros Hv sanitized.
  destruct (accepted_query_clean _ _ _ Hv) as (Hq & Ha & Hj & Hd & Hl).
  subst sanitized. rewrite Hq.
  destruct (normalize_space_normal (research_query data)) as [Ht Hn].
  split; [apply sanitizeQuery_clean; assumption|].
  split; [|split; assumption].
  rewrite <- (normalize_space_idempotent (research_query data)) at 2.
  pose proof (normalize_space_length (research_query data)) as Hlen.
  apply sanitizeQuery_clean.
  - unfold no_angle_brackets. rewrite forallb_forall. intros x Hx.
    destruct (is_angle x) eqn:Hax; [|unfold is_angle in Hax; rewrite Hax; reflexivity].
    assert (Hin : In x (List.filter is_angle
                          (normalize_space (research_query data))))
      by (apply filter_In; auto).
    unfold normalize_space in Hin.
    rewrite replace_all_filter_angle, trim_filter_angle in Hin.
    + rewrite (filter_none is_angle _ Ha) in Hin. destruct Hin.
    + intros w Hw. apply lang_spaces in Hw as [_ Hw].
      apply spaces_no_angle, Hw.
    + vm_compute. reflexivity.
  - apply normalize_space_test; [|exact Hj].
    intros w Hw.
    apply (lit_ci_avoids is_space (js "javascript:") w letter_not_space);
      [vm_compute; reflexivity | exact Hw].
  - apply normalize_space_test; [|exact Hd].
    intros w Hw.
    apply (lit_ci_avoids is_space (js "data:text/html") w letter_not_space);
      [vm_compute; reflexivity | exact Hw].
  - lia.
Qed.

(* ===================================================================== *)
(** * Keys of the rate limiter                                           *)
(* ===================================================================== *)

Lemma js_cons (a : ascii) (s : string) :
  js (String a s) = N_of_ascii a :: js s.
Proof. reflexivity. Qed.

(** The decimal digits of a number are digits. *)
Lemma uint_digits (u : Decimal.uint) :
  forallb is_digit (js (NilEmpty.string_of_uint u)) = true.
Proof.
  induction u; cbn [NilEmpty.string_of_uint]; rewrite ?js_cons;
    cbn [forallb]; rewrite ?IHu; reflexivity.
Qed.

Lemma Number_toString_digits (n : N) :
  forallb is_digit (Number_toString n) = true
  /\ Number_toString n <> [].
Proof.
  unfold Number_toString, NilZero.string_of_uint.
  destruct (N.to_uint n) eqn:E; try (split; [reflexivity | discriminate]);
    (split; [apply uint_digits | cbn [NilEmpty.string_of_uint];
                                 rewrite js_cons; discriminate]).
Qed.

Lemma parse_digits_acc (u : Decimal.uint) :
  forall acc : positive,
    parse_digits 10 (js (NilEmpty.string_of_uint u)) (Some (Zpos acc))
    = Some (Zpos (Pos.of_uint_acc u acc)).
Proof.
  induction u; intros acc; cbn [NilEmpty.string_of_uint Pos.of_uint_acc];
    rewrite ?js_cons; [reflexivity | ..];
    cbn [parse_digits];
    match goal with
    | |- context [digit_value 10 ?c] =>
        let v := eval vm_compute in (digit_value 10 c) in
        change (digit_value 10 c) with v
    end;
    cbv iota; rewrite <- IHu; do 2 f_equal; lia.
Qed.

Lemma parse_digits_zero (u : Decimal.uint) :
  parse_digits 10 (js (NilEmpty.string_of_uint u)) (Some 0%Z)
  = Some (Z.of_N (Pos.of_uint u)).
Proof.
  induction u; cbn [NilEmpty.string_of_uint Pos.of_uint];
    rewrite ?js_cons; [reflexivity | ..];
    cbn [parse_digits];
    match goal with
    | |- context [digit_value 10 ?c] =>
        let v := eval vm_compute in (digit_value 10 c) in
        change (digit_value 10 c) with v
    end;
    cbv iota; change (10 * 0)%Z with 0%Z; cbn [Z.add];
    [exact IHu | apply parse_digits_acc ..].
Qed.

Lemma digit_value_decimal (c : N) :
  is_digit c = true -> digit_value 10 c = Some (Z.of_N c - 48)%Z.
Proof.
  intros Hd. unfold digit_value. rewrite Hd.
  apply in_range_true in Hd.
  destruct (Z.ltb_spec (Z.of_N c - 48) 10); [reflexivity | lia].
Qed.

Lemma parse_digits_start (c : N) (s : jsstring) :
  is_digit c = true ->
  parse_digits 10 (c :: s) None = parse_digits 10 (c :: s) (Some 0%Z).
Proof.
  intros Hd. cbn [parse_digits]. rewrite (digit_value_decimal c Hd).
  reflexivity.
Qed.

Lemma digit_not_space (c : N) : is_digit c = true -> is_space c = false.
Proof.
  intros Hd. apply in_range_true in Hd. apply not_true_is_false. intros H.
  unfold is_space in H. class_cases H; lia.
Qed.

Lemma digit_not_colon (c : N) : is_digit c = true -> code_eqb c 58 = false.
Proof.
  intros Hd. apply in_range_true in Hd. apply not_true_is_false. intros H.
  apply code_eqb_eq in H. lia.
Qed.

(** [parseInt] of a text of decimal digits reads all of them. *)
Lemma parseInt_digits (s : jsstring) :
  forallb is_digit s = true -> s <> [] ->
  parseInt s = parse_digits 10 s (Some 0%Z).
Proof.
  destruct s as [|c s]; [congruence|]. intros Hd _.
  cbn [forallb] in Hd. apply andb_true_iff in Hd as [Hc Hs].
  unfold parseInt, trimStart. cbn [drop_while].
  rewrite (digit_not_space c Hc).
  pose proof Hc as Hr. apply in_range_true in Hr.
  assert (H45 : code_eqb c 45 = false)
    by (apply not_true_is_false; intros H; apply code_eqb_eq in H; lia).
  assert (H43 : code_eqb c 43 = false)
    by (apply not_true_is_false; intros H; apply code_eqb_eq in H; lia).
  rewrite H45, H43.
  assert (Hx : match s with
               | x :: _ => code_eqb x 120 || code_eqb x 88 = false
               | [] => True
               end).
  { destruct s as [|x s]; [exact I|]. cbn [forallb] in Hs.
    apply andb_true_iff in Hs as [Hx _]. apply in_range_true in Hx.
    apply not_true_is_false. intros H.
    apply orb_true_iff in H as [H|H]; apply code_eqb_eq in H; lia. }
  destruct s as [|x s].
  - rewrite (parse_digits_start c [] Hc).
    destruct (parse_digits 10 [c] (Some 0%Z)); reflexivity.
  - rewrite Hx, andb_false_r, (parse_digits_start c (x :: s) Hc).
    destruct (parse_digits 10 (c :: x :: s) (Some 0%Z)); reflexivity.
Qed.

(** [parseInt(String(n))] is [n]. *)
Lemma parseInt_Number_toString (n : N) :
  parseInt (Number_toString n) = Some (Z.of_N n).
Proof.
  destruct (Number_toString_digits n) as [Hd Hne].
  rewrite (parseInt_digits _ Hd Hne).
  unfold Number_toString, NilZero.string_of_uint.
  rewrite <- (DecimalN.Unsigned.of_to n) at 2. unfold N.of_uint.
  destruct (N.to_uint n) eqn:E; try apply parse_digits_zero.
  reflexivity.
Qed.

Lemma Number_toString_inj (m n : N) :
  Number_toString m = Number_toString n -> m = n.
Proof.
  intros H. apply (f_equal parseInt) in H.
  rewrite !parseInt_Number_toString in H. injection H as H. lia.
Qed.

Lemma until_colon_digits (s rest : jsstring) :
  forallb is_digit s = true ->
  until_colon (s ++ 58 :: rest) = s /\ until_colon s = s.
Proof.
  induction s as [|c s IH]; [split; reflexivity|].
  cbn [forallb]. intros H. apply andb_true_iff in H as [Hc Hs].
  cbn [app until_colon]. rewrite (digit_not_colon c Hc).
  destruct (IH Hs) as [-> ->]. split; reflexivity.
Qed.

(** The number part of the three kinds of key. *)
Lemma split_hourKey (h : N) :
  split_colon_1 (hourKey h) = Some (Number_toString h).
Proof.
  unfold hourKey. cbn. f_equal.
  apply (until_colon_digits _ []), Number_toString_digits.
Qed.

Lemma split_costKey (d : N) :
  split_colon_1 (costKey d) = Some (Number_toString d).
Proof.
  unfold costKey. cbn. f_equal.
  apply (until_colon_digits _ []), Number_toString_digits.
Qed.

Lemma split_dailyKey (d : N) (lvl : AccuracyLevel) :
  split_colon_1 (dailyKey d lvl) = Some (Number_toString d).
Proof.
  unfold dailyKey. cbn. f_equal.
  apply until_colon_digits, Number_toString_digits.
Qed.

Lemma hourKey_inj (a b : N) : hourKey a = hourKey b -> a = b.
Proof.
  intros H. apply (f_equal split_colon_1) in H.
  rewrite !split_hourKey in H. injection H as H.
  apply Number_toString_inj, H.
Qed.

Lemma costKey_inj (a b : N) : costKey a = costKey b -> a = b.
Proof.
  intros H. apply (f_equal split_colon_1) in H.
  rewrite !split_costKey in H. injection H as H.
  apply Number_toString_inj, H.
Qed.

Lemma dailyKey_inj (a b : N) (la lb : AccuracyLevel) :
  dailyKey a la = dailyKey b lb -> a = b /\ la = lb.
Proof.
  intros H. pose proof (f_equal split_colon_1 H) as Hd.
  rewrite !split_dailyKey in Hd. injection Hd as Hd.
  apply Number_toString_inj in Hd. subst b. split; [reflexivity|].
  unfold dailyKey in H. do 3 apply app_inv_head in H.
  destruct la, lb; try reflexivity; vm_compute in H; discriminate H.
Qed.

Lemma costKey_ne_dailyKey (c d : N) (lvl : AccuracyLevel) :
  costKey c <> dailyKey d lvl.
Proof.
  unfold costKey, dailyKey. intros H.
  apply (f_equal (hd 0)) in H. vm_compute in H. discriminate H.
Qed.

(* ===================================================================== *)
(** * Statistics of the rate limiter                                     *)
(* ===================================================================== *)

Lemma get_count_empty (key : list N) : get_count ∅ key = 0%Q.
Proof. unfold get_count. rewrite lookup_empty. reflexivity. Qed.

(** The counters [getUsageStats] reads; a client without an entry has
    none. *)
Lemma getUsageStats_counts (clientUsage : gmap (list N) ClientUsage)
  (now : N) (clientId : jsstring) :
  let counts :=
    match clientUsage !! clientId with
    | Some usage => requestCounts usage
    | None => ∅
    end in
  getUsageStats clientUsage now clientId
  = {| UsageStats.hourlyRequests := get_count counts (hourKey (hour_of now));
       UsageStats.dailyCost := get_count counts (costKey (day_of now));
       UsageStats.highAccuracyRequests :=
         get_count counts (dailyKey (day_of now) high);
       UsageStats.mediumAccuracyRequests :=
         get_count counts (dailyKey (day_of now) medium) |}.
Proof.
  unfold getUsageStats. destruct (clientUsage !! clientId); cbv zeta;
    [reflexivity|]. rewrite !get_count_empty. reflexivity.
Qed.

Lemma get_or_create_counts (clientUsage : gmap (list N) ClientUsage)
  (clientId : jsstring) (now : N) :
  requestCounts (fst (get_or_create clientUsage clientId now))
  = match clientUsage !! clientId with
    | Some usage => requestCounts usage
    | None => ∅
    end.
Proof. unfold get_or_create. destruct (clientUsage !! clientId); reflexivity. Qed.

Lemma get_or_create_lookup (clientUsage : gmap (list N) ClientUsage)
  (clientId : jsstring) (now : N) (other : jsstring) :
  snd (get_or_create clientUsage clientId now) !! other
  = if decide (clientId = other)
    then Some (fst (get_or_create clientUsage clientId now))
    else clientUsage !! other.
Proof.
  unfold get_or_create. destruct (clientUsage !! clientId) eqn:E; cbn [fst snd].
  - case_decide as H; [subst other; exact E | reflexivity].
  - rewrite lookup_insert. case_decide; reflexivity.
Qed.

(** Looking an entry up, creating it when missing, does not change what
    is reported for any client. *)
Lemma getUsageStats_get_or_create (clientUsage : gmap (list N) ClientUsage)
  (clientId : jsstring) (t now : N) (other : jsstring) :
  getUsageStats (snd (get_or_create clientUsage clientId t)) now other
  = getUsageStats clientUsage now other.
Proof.
  rewrite !getUsageStats_counts. cbv zeta.
  rewrite get_or_create_lookup. case_decide as H; [|reflexivity].
  subst other. rewrite get_or_create_counts. reflexivity.
Qed.

Lemma getUsageStats_checkRateLimit (config : RateLimitConfig)
  (clientUsage : gmap (list N) ClientUsage) (t : N) (clientId : jsstring)
  (lvl : AccuracyLevel) (estimatedCost : option Q) (now : N)
  (other : jsstring) :
  getUsageStats
    (snd (snd (checkRateLimit config clientUsage t clientId lvl estimatedCost)))
    now other
  = getUsageStats clientUsage now other.
Proof. rewrite checkRateLimit_table. apply getUsageStats_get_or_create. Qed.

Lemma recordRequest_lookup_other (clientUsage : gmap (list N) ClientUsage)
  (t : N) (clientId : jsstring) (lvl : AccuracyLevel) (cost : Q) (tokens : N)
  (other : jsstring) :
  clientId <> other ->
  snd (recordRequest clientUsage t clientId lvl cost tokens) !! other
  = clientUsage !! other.
Proof.
  intros Hne. unfold recordRequest.
  pose proof (get_or_create_lookup clientUsage clientId t other) as Hl.
  destruct (get_or_create clientUsage clientId t) as [usage table].
  cbn [fst snd] in *. rewrite lookup_insert_ne by exact Hne.
  rewrite Hl. case_decide; [contradiction | reflexivity].
Qed.

Lemma getUsageStats_recordRequest_other
  (clientUsage : gmap (list N) ClientUsage)
  (t : N) (clientId : jsstring) (lvl : AccuracyLevel) (cost : Q) (tokens : N)
  (now : N) (other : jsstring) :
  clientId <> other ->
  getUsageStats (snd (recordRequest clientUsage t clientId lvl cost tokens))
    now other
  = getUsageStats clientUsage now other.
Proof.
  intros Hne. unfold getUsageStats.
  rewrite recordRequest_lookup_other by exact Hne. reflexivity.
Qed.

(** X8.  Only [recordRequest] changes what [getUsageStats] reports, and only
    for the client it is called for: after any sequence of limiter calls
    that holds no [recordRequest] for a client, the statistics of that
    client, read at any time, are what they were before. *)
Theorem statistics_change_only_by_recording
  (config : RateLimitConfig) (calls : list LimiterCall)
  (clientUsage : gmap (list N) ClientUsage) (now : N) (clientId : jsstring) :
  existsb (records_for clientId) calls = false ->
  getUsageStats (run_calls config calls clientUsage) now clientId
  = getUsageStats clientUsage now clientId.
Proof.
  revert clientUsage.
  induction calls as [|call rest IH]; intros clientUsage H; [reflexivity|].
  cbn [existsb] in H. apply orb_false_iff in H as [Hc Hr].
  destruct call as [t c lvl est | t c lvl cost tokens]; cbn [run_calls];
    rewrite (IH _ Hr).
  - apply getUsageStats_checkRateLimit.
  - apply getUsageStats_recordRequest_other. intros ->.
    cbn [records_for] in Hc.
    assert (jsstring_eqb clientId clientId = true)
      by (apply jsstring_eqb_eq; reflexivity).
    congruence.
Qed.

Lemma statistics_change_only_by_recording_witness :
  getUsageStats
    (run_calls Samples.default_config
       [ RecordRequest 7200000 (js "alice") high (1 # 2) 1000;
         CheckRateLimit 7200001 (js "bob") high None ]
       ∅)
    7200002 (js "bob")
  = UsageStats.zero.
Proof.
  rewrite (statistics_change_only_by_recording Samples.default_config
             _ ∅ 7200002 (js "bob")); [|vm_compute; reflexivity].
  reflexivity.
Defined.

Ltac key_ne :=
  first [ apply hourKey_ne_costKey | apply hourKey_ne_dailyKey
        | apply costKey_ne_dailyKey
        | let E := fresh in
          intros E; symmetry in E; revert E;
          first [ apply hourKey_ne_costKey | apply hourKey_ne_dailyKey
                | apply costKey_ne_dailyKey ] ].

Lemma get_count_insert (counts : gmap (list N) Q) (key other : list N) (v : Q) :
  (get_count (<[key := v]> counts) other
   == if decide (key = other) then v else get_count counts other)%Q.
Proof.
  unfold get_count. rewrite lookup_insert. case_decide; [|reflexivity].
  apply or_default_zero.
Qed.

(** Reading a counter through the insertion of another key. *)
Ltac skip_insert :=
  rewrite get_count_insert;
  match goal with
  | |- context [decide (?a = ?b)] =>
      let E := fresh in
      destruct (decide (a = b)) as [E|_]; [exfalso; revert E; key_ne|]
  end.

(** X9.  What one [recordRequest] adds to the statistics of its client: one
    request to the hour and to the day of its level, and its cost to the
    day.  The new cost of the day is the binary64 sum [add64] of the old
    one and the cost of the request, that is their exact sum rounded to
    the nearest double; the sum is taken to round to a finite double.
    Statistics read in another hour or on another day do not see the
    request. *)
Theorem recordRequest_statistics (clientUsage : gmap (list N) ClientUsage)
  (t : N) (clientId : jsstring) (lvl : AccuracyLevel) (cost : Q) (tokens : N)
  (now : N) :
  in_double_range
    (UsageStats.dailyCost (getUsageStats clientUsage t clientId) + cost) ->
  let before := getUsageStats clientUsage now clientId in
  let after :=
    getUsageStats (snd (recordRequest clientUsage t clientId lvl cost tokens))
      now clientId in
  let same_hour := N.eqb (hour_of t) (hour_of now) in
  let same_day := N.eqb (day_of t) (day_of now) in
  (UsageStats.hourlyRequests after
   == UsageStats.hourlyRequests before + (if same_hour then 1 else 0))%Q
  /\ (UsageStats.dailyCost after
      == if same_day then add64 (UsageStats.dailyCost before) cost
         else UsageStats.dailyCost before)%Q
  /\ (UsageStats.highAccuracyRequests after
      == UsageStats.highAccuracyRequests before
         + (if same_day && is_high lvl then 1 else 0))%Q
  /\ (UsageStats.mediumAccuracyRequests after
      == UsageStats.mediumAccuracyRequests before
         + (if same_day && is_medium lvl then 1 else 0))%Q.
Proof.
  intros _. cbv zeta. rewrite !getUsageStats_counts. cbv zeta.
  unfold recordRequest.
  pose proof (get_or_create_counts clientUsage clientId t) as Hc.
  destruct (get_or_create clientUsage clientId t) as [usage table].
  cbn [fst snd] in *. rewrite lookup_insert_eq. rewrite <- Hc.
  cbn [requestCounts UsageStats.hourlyRequests UsageStats.dailyCost
       UsageStats.highAccuracyRequests UsageStats.mediumAccuracyRequests].
  generalize (requestCounts usage). intros counts.
  repeat split.
  - skip_insert. skip_insert. rewrite get_count_insert.
    destruct (decide (hourKey (hour_of t) = hourKey (hour_of now))) as [E|E].
    + apply hourKey_inj in E. rewrite E, N.eqb_refl. reflexivity.
    + destruct (N.eqb_spec (hour_of t) (hour_of now)) as [E'|_];
        [rewrite E' in E; contradiction | ring].
  - rewrite get_count_insert.
    destruct (decide (costKey (day_of t) = costKey (day_of now))) as [E|E].
    + apply costKey_inj in E. rewrite E, N.eqb_refl.
      unfold get_count at 1.
      rewrite lookup_insert_ne by key_ne.
      rewrite lookup_insert_ne by key_ne.
      reflexivity.
    + destruct (N.eqb_spec (day_of t) (day_of now)) as [E'|_];
        [rewrite E' in E; contradiction|].
      skip_insert. skip_insert. reflexivity.
  - skip_insert. rewrite get_count_insert.
    destruct (decide (dailyKey (day_of t) lvl = dailyKey (day_of now) high))
      as [E|E].
    + apply dailyKey_inj in E as [E ->]. rewrite E, N.eqb_refl.
      skip_insert. reflexivity.
    + skip_insert.
      destruct (N.eqb_spec (day_of t) (day_of now)) as [E'|_];
        [|cbn [andb]; ring].
      destruct lvl; [rewrite E' in E; contradiction | cbn; ring].
  - skip_insert. rewrite get_count_insert.
    destruct (decide (dailyKey (day_of t) lvl = dailyKey (day_of now) medium))
      as [E|E].
    + apply dailyKey_inj in E as [E ->]. rewrite E, N.eqb_refl.
      skip_insert. reflexivity.
    + skip_insert.
      destruct (N.eqb_spec (day_of t) (day_of now)) as [E'|_];
        [|cbn [andb]; ring].
      destruct lvl; [cbn; ring | rewrite E' in E; contradiction].
Qed.

Lemma recordRequest_statistics_witness :
  let table :=
    snd (recordRequest ∅ 7200000 (js "alice") high (1 # 2) 1000) in
  let after :=
    getUsageStats
      (snd (recordRequest table 7200001 (js "alice") medium (1 # 4) 500))
      7200002 (js "alice") in
  in_double_range
    (UsageStats.dailyCost (getUsageStats table 7200001 (js "alice"))
     + (1 # 4))
  /\ (UsageStats.hourlyRequests after == 2)%Q
  /\ (UsageStats.dailyCost after == 3 # 4)%Q.
Proof.
  intros table after.
  assert (Hr : in_double_range
                 (UsageStats.dailyCost
                    (getUsageStats table 7200001 (js "alice"))
                  + (1 # 4)))
    by (vm_compute; reflexivity).
  split; [exact Hr|].
  pose proof (recordRequest_statistics table 7200001 (js "alice") medium
                (1 # 4) 500 7200002 Hr) as (Hhour & Hcost & _).
  split.
  - subst after. rewrite Hhour. vm_compute. reflexivity.
  - subst after. rewrite Hcost. vm_compute. reflexivity.
Defined.

(* ===================================================================== *)
(** * Decisions of the rate limiter                                      *)
(* ===================================================================== *)

Lemma Qle_bool_false (a b : Q) : Qle_bool a b = false <-> (b < a)%Q.
Proof. rewrite <- (Qltb_true b a). unfold Qltb. symmetry. apply negb_true_iff. Qed.

Lemma Qtruthy_true (c : Q) : Qtruthy c = true <-> ~ (c == 0)%Q.
Proof.
  unfold Qtruthy. rewrite negb_true_iff. split.
  - intros H E. apply Qeq_bool_iff in E. congruence.
  - intros H. destruct (Qeq_bool c 0) eqn:E; [|reflexivity].
    apply Qeq_bool_iff in E. contradiction.
Qed.

(** X10.  [checkRateLimit] decides on the numbers [getUsageStats] reports at the
    same instant.  A request is allowed exactly when the hour's count is
    below the hourly limit of its level, the estimate (if there is one and
    it is not 0) fits into the daily budget, and the day's count of its
    level is below the daily limit.  The estimate fits when the binary64
    sum [add64] of the day's cost and the estimate, that is their exact
    sum rounded to the nearest double, is not above the daily cost limit;
    the sum is taken to round to a finite double.  The request is denied
    for cost exactly when the hour's count is below the limit and the
    estimate does not fit: without an estimate, or with an estimate of 0,
    never. *)
Theorem checkRateLimit_decides_on_statistics (config : RateLimitConfig) (clientUsage : gmap (list N) ClientUsage)
  (now : N) (clientId : jsstring) (lvl : AccuracyLevel)
  (estimatedCost : option Q) :
  match estimatedCost with
  | Some c =>
      in_double_range
        (UsageStats.dailyCost (getUsageStats clientUsage now clientId) + c)
  | None => True
  end ->
  let stats := getUsageStats clientUsage now clientId in
  let result :=
    fst (snd (checkRateLimit config clientUsage now clientId lvl
                estimatedCost)) in
  let used_today :=
    match lvl with
    | high => UsageStats.highAccuracyRequests stats
    | medium => UsageStats.mediumAccuracyRequests stats
    end in
  let over_budget :=
    match estimatedCost with
    | Some c =>
        ~ (c == 0)%Q
        /\ (daily_cost_limit_usd config
            < add64 (UsageStats.dailyCost stats) c)%Q
    | None => False
    end in
  (allowed result = true <->
   (UsageStats.hourlyRequests stats < getHourlyLimit config lvl)%Q
   /\ ~ over_budget
   /\ (used_today < getDailyLimit config lvl)%Q)
  /\ (reason result = Some (js "cost_limit") <->
      (UsageStats.hourlyRequests stats < getHourlyLimit config lvl)%Q
      /\ over_budget).
Proof.
  intros _. cbv zeta. rewrite getUsageStats_counts. cbv zeta.
  cbn [UsageStats.hourlyRequests UsageStats.dailyCost
       UsageStats.highAccuracyRequests UsageStats.mediumAccuracyRequests].
  unfold checkRateLimit, getDailyCost, getDailyRequests.
  pose proof (get_or_create_counts clientUsage clientId now) as Hc.
  destruct (get_or_create clientUsage clientId now) as [usage table].
  cbn [fst] in Hc. rewrite <- Hc. generalize (requestCounts usage).
  intros counts.
  assert (Hday :
            match lvl with
            | high => get_count counts (dailyKey (day_of now) high)
            | medium => get_count counts (dailyKey (day_of now) medium)
            end = get_count counts (dailyKey (day_of now) lvl))
    by (destruct lvl; reflexivity).
  rewrite Hday. clear Hday.
  destruct (Qle_bool (getHourlyLimit config lvl) _) eqn:Hh.
  { apply Qle_bool_iff in Hh. cbn [fst snd allowed reason]. split; split.
    - discriminate.
    - intros [Hlt _]. exfalso. lra.
    - intros H. vm_compute in H. discriminate H.
    - intros [Hlt _]. exfalso. lra. }
  apply Qle_bool_false in Hh.
  destruct (match estimatedCost with Some _ => _ | None => _ end) eqn:Hb.
  { destruct estimatedCost as [c|]; [|discriminate].
    apply andb_true_iff in Hb as [Ht Hg]. apply Qtruthy_true in Ht.
    unfold Qgtb in Hg. apply Qltb_true in Hg.
    cbn [fst snd allowed reason]. split; split.
    - discriminate.
    - intros (_ & Hn & _). exfalso. apply Hn. split; assumption.
    - intros _. repeat split; assumption.
    - reflexivity. }
  assert (Hfit : ~ match estimatedCost with
                   | Some c =>
                       ~ (c == 0)%Q
                       /\ (daily_cost_limit_usd config
                           < add64 (get_count counts (costKey (day_of now)))
                               c)%Q
                   | None => False
                   end).
  { destruct estimatedCost as [c|]; [|tauto]. intros [Ht Hg].
    apply Qtruthy_true in Ht. apply Qltb_true in Hg.
    unfold Qgtb in Hb. rewrite Ht, Hg in Hb. discriminate Hb. }
  destruct (Qle_bool (getDailyLimit config lvl) _) eqn:Hd.
  - apply Qle_bool_iff in Hd. cbn [fst snd allowed reason]. split; split.
    + discriminate.
    + intros (_ & _ & Hlt). exfalso. lra.
    + intros H. vm_compute in H. discriminate H.
    + intros [_ Hover]. contradiction.
  - apply Qle_bool_false in Hd. cbn [fst snd allowed reason]. split; split.
    + intros _. repeat split; assumption.
    + reflexivity.
    + discriminate.
    + intros [_ Hover]. contradiction.
Qed.

(** The rounding of the sum decides at the edge of the budget.  With
    24.6 spent and an estimate of 0.4, both as doubles, the exact sum is
    above 25 and the binary64 sum is 25: the request is allowed under a
    daily cost limit of 25. *)
Lemma checkRateLimit_decides_on_statistics_witness :
  let spent := value_of 0x1.899999999999ap+4 in
  let estimate := value_of 0x1.999999999999ap-2 in
  let table := snd (recordRequest ∅ 7200000 (js "alice") high spent 1000) in
  in_double_range
    (UsageStats.dailyCost (getUsageStats table 7200001 (js "alice"))
     + estimate)
  /\ (25 < spent + estimate)%Q
  /\ (add64 spent estimate == 25)%Q
  /\ allowed
       (fst (snd (checkRateLimit Samples.default_config table 7200001
                    (js "alice") high (Some estimate))))
     = true.
Proof.
  intros spent estimate table.
  assert (Hr : in_double_range
                 (UsageStats.dailyCost
                    (getUsageStats table 7200001 (js "alice"))
                  + estimate))
    by (vm_compute; reflexivity).
  split; [exact Hr|].
  split; [vm_compute; reflexivity|].
  split; [vm_compute; reflexivity|].
  pose proof (checkRateLimit_decides_on_statistics Samples.default_config
                table 7200001 (js "alice") high (Some estimate) Hr)
    as [[_ Hallow] _].
  apply Hallow.
  split; [vm_compute; reflexivity|].
  split; [|vm_compute; reflexivity].
  intros [_ Hover]. vm_compute in Hover. discriminate Hover.
Defined.

(** X11.  Every answer of [checkRateLimit] names a retry time in the future; it
    carries a reason exactly when it denies; and, the hourly denial apart,
    the cost it reports as remaining is never negative. *)
Theorem checkRateLimit_result_bounds
  (config : RateLimitConfig) (clientUsage : gmap (list N) ClientUsage)
  (now : N) (clientId : jsstring) (lvl : AccuracyLevel)
  (estimatedCost : option Q) :
  let result :=
    fst (snd (checkRateLimit config clientUsage now clientId lvl
                estimatedCost)) in
  now < retryAfter result
  /\ (allowed result = true <-> reason result = None)
  /\ (reason result <> Some (js "hourly_limit") ->
      (0 <= costRemaining result)%Q).
Proof.
  cbv zeta. unfold checkRateLimit.
  destruct (get_or_create clientUsage clientId now) as [usage table].
  assert (Hhour : now < (hour_of now + 1) * 60 * 60 * 1000).
  { unfold hour_of, hour_ms.
    pose proof (N.div_mod now 3600000 ltac:(lia)) as Hdm.
    pose proof (N.mod_lt now 3600000 ltac:(lia)) as Hml.
    change (60 * 60 * 1000) with 3600000. lia. }
  assert (Hday : now < (day_of now + 1) * 24 * 60 * 60 * 1000).
  { unfold day_of, day_ms.
    pose proof (N.div_mod now 86400000 ltac:(lia)) as Hdm.
    pose proof (N.mod_lt now 86400000 ltac:(lia)) as Hml.
    change (24 * 60 * 60 * 1000) with 86400000. lia. }
  destruct (Qle_bool (getHourlyLimit config lvl) _).
  { cbn. repeat split; try discriminate; try assumption.
    intros H. contradiction H. reflexivity. }
  destruct (match estimatedCost with Some _ => _ | None => _ end).
  { cbn. repeat split; try discriminate; try assumption.
    intros _. apply Q.le_max_l. }
  destruct (Qle_bool (getDailyLimit config lvl) _).
  { cbn. repeat split; try discriminate; try assumption.
    intros _. apply Q.le_max_l. }
  cbn. repeat split; try discriminate; try assumption; try reflexivity.
  intros _. apply Q.le_max_l.
Qed.

Lemma checkRateLimit_result_bounds_witness :
  reason
    (fst (snd (checkRateLimit Samples.default_config ∅ 7200000 (js "alice")
                 high None)))
  <> Some (js "hourly_limit")
  /\ (0 <= costRemaining
             (fst (snd (checkRateLimit Samples.default_config ∅ 7200000
                          (js "alice") high None))))%Q.
Proof.
  assert (H : reason
                (fst (snd (checkRateLimit Samples.default_config ∅ 7200000
                             (js "alice") high None)))
              <> Some (js "hourly_limit"))
    by (vm_compute; discriminate).
  split; [exact H|].
  destruct (checkRateLimit_result_bounds Samples.default_config ∅ 7200000
              (js "alice") high None) as (_ & _ & Hc).
  exact (Hc H).
Defined.

(* ===================================================================== *)
(** * The periodic sweep                                                 *)
(* ===================================================================== *)

Lemma Number_toString_truthy (n : N) : truthy_string (Number_toString n) = true.
Proof.
  destruct (Number_toString_digits n) as [_ H].
  destruct (Number_toString n); [contradiction | reflexivity].
Qed.

Lemma parsed_below_Number_toString (n : N) (bound : Z) :
  parsed_below (Number_toString n) bound = (Z.of_N n <? bound)%Z.
Proof. unfold parsed_below. rewrite parseInt_Number_toString. reflexivity. Qed.

(** When the sweep deletes a key of each of the three kinds. *)
Lemma is_stale_hourKey (currentHour currentDay h : N) :
  is_stale currentHour currentDay (hourKey h)
  = (Z.of_N h <? Z.of_N currentHour - 1)%Z.
Proof.
  unfold is_stale. unfold hourKey at 1. rewrite starts_with_app.
  rewrite split_hourKey, Number_toString_truthy.
  apply parsed_below_Number_toString.
Qed.

Lemma is_stale_costKey (currentHour currentDay d : N) :
  is_stale currentHour currentDay (costKey d)
  = (Z.of_N d <? Z.of_N currentDay - 1)%Z.
Proof.
  unfold is_stale.
  assert (starts_with (js "hour:") (costKey d) = false) as -> by reflexivity.
  assert (starts_with (js "day:") (costKey d) = false) as -> by reflexivity.
  unfold costKey at 1. rewrite starts_with_app. cbn [orb].
  rewrite split_costKey, Number_toString_truthy.
  apply parsed_below_Number_toString.
Qed.

Lemma is_stale_dailyKey (currentHour currentDay d : N) (lvl : AccuracyLevel) :
  is_stale currentHour currentDay (dailyKey d lvl)
  = (Z.of_N d <? Z.of_N currentDay - 1)%Z.
Proof.
  unfold is_stale.
  assert (starts_with (js "hour:") (dailyKey d lvl) = false) as ->
    by reflexivity.
  unfold dailyKey at 1. rewrite starts_with_app. cbn [orb].
  rewrite split_dailyKey, Number_toString_truthy.
  apply parsed_below_Number_toString.
Qed.

Lemma filter_lookup_kept (currentHour currentDay : N)
  (counts : gmap (list N) Q) (key : list N) :
  is_stale currentHour currentDay key = false ->
  filter (fun entry => is_stale currentHour currentDay (fst entry) = false)
    counts !! key
  = counts !! key.
Proof.
  intros Hk. destruct (counts !! key) as [v|] eqn:E.
  - apply map_lookup_filter_Some_2; [exact E | exact Hk].
  - apply map_lookup_filter_None_2. left. exact E.
Qed.

Lemma filter_lookup_dropped (currentHour currentDay : N)
  (counts : gmap (list N) Q) (key : list N) :
  is_stale currentHour currentDay key = true ->
  filter (fun entry => is_stale currentHour currentDay (fst entry) = false)
    counts !! key
  = None.
Proof.
  intros Hk. apply map_lookup_filter_None_2. right. intros v _.
  cbn [fst]. rewrite Hk. discriminate.
Qed.

Lemma hour_of_mono (a b : N) : a <= b -> hour_of a <= hour_of b.
Proof. intros H. unfold hour_of, hour_ms. apply N.Div0.div_le_mono, H. Qed.

Lemma day_of_mono (a b : N) : a <= b -> day_of a <= day_of b.
Proof. intros H. unfold day_of, day_ms. apply N.Div0.div_le_mono, H. Qed.

(** The entry of a client after the sweep. *)
Lemma cleanupOldEntries_lookup (clientUsage : gmap (list N) ClientUsage)
  (now : N) (clientId : jsstring) :
  cleanupOldEntries clientUsage now !! clientId
  = match clientUsage !! clientId with
    | Some usage =>
        if (Z.of_N (lastRequestTime usage)
            <? Z.of_N now - 48 * 60 * 60 * 1000)%Z
        then None
        else
          Some
            {| requestCounts :=
                 filter
                   (fun entry =>
                      is_stale (hour_of now) (day_of now) (fst entry) = false)
                   (requestCounts usage);
               totalCost := totalCost usage;
               lastRequestTime := lastRequestTime usage |}
    | None => None
    end.
Proof.
  unfold cleanupOldEntries. rewrite lookup_omap.
  destruct (clientUsage !! clientId); reflexivity.
Qed.

(** X12.  The sweep does not change what the limiter reports afterwards for a
    client seen in the last 48 hours: its counters of the current hour and
    day, read at the time of the sweep or later, are kept.  A client not
    seen for longer loses its entry and reports zeros. *)
Theorem sweep_keeps_current_statistics
  (clientUsage : gmap (list N) ClientUsage) (now later : N)
  (clientId : jsstring) :
  now <= later ->
  getUsageStats (cleanupOldEntries clientUsage now) later clientId
  = match clientUsage !! clientId with
    | Some usage =>
        if (Z.of_N (lastRequestTime usage)
            <? Z.of_N now - 48 * 60 * 60 * 1000)%Z
        then UsageStats.zero
        else getUsageStats clientUsage later clientId
    | None => UsageStats.zero
    end.
Proof.
  intros Hle. unfold getUsageStats. rewrite cleanupOldEntries_lookup.
  destruct (clientUsage !! clientId) as [usage|]; [|reflexivity].
  destruct (Z.of_N (lastRequestTime usage) <? _)%Z; [reflexivity|].
  cbn [requestCounts].
  pose proof (hour_of_mono _ _ Hle) as Hh.
  pose proof (day_of_mono _ _ Hle) as Hd.
  unfold get_count.
  rewrite !filter_lookup_kept; [reflexivity | ..];
    rewrite ?is_stale_hourKey, ?is_stale_costKey, ?is_stale_dailyKey;
    apply Z.ltb_ge; lia.
Qed.

Lemma sweep_keeps_current_statistics_witness :
  7200000 <= 7200001
  /\ getUsageStats
       (cleanupOldEntries
          (snd (recordRequest ∅ 7200000 (js "alice") high (1 # 2) 1000))
          7200000)
       7200001 (js "alice")
     = getUsageStats
         (snd (recordRequest ∅ 7200000 (js "alice") high (1 # 2) 1000))
         7200001 (js "alice").
Proof.
  split; [lia|].
  rewrite (sweep_keeps_current_statistics _ 7200000 7200001 (js "alice"));
    [|lia].
  vm_compute. reflexivity.
Defined.

(** X13.  What the sweep leaves behind is bounded: every client still in the
    table was seen in the last 48 hours, and holds no hourly counter older
    than the previous hour and no daily counter or daily cost older than
    the previous day. *)
Theorem sweep_drops_old_windows
  (clientUsage : gmap (list N) ClientUsage) (now : N)
  (clientId : jsstring) (usage : ClientUsage) :
  cleanupOldEntries clientUsage now !! clientId = Some usage ->
  (Z.of_N now - 48 * 60 * 60 * 1000 <= Z.of_N (lastRequestTime usage))%Z
  /\ (forall h, h + 1 < hour_of now ->
        requestCounts usage !! hourKey h = None)
  /\ (forall d, d + 1 < day_of now ->
        requestCounts usage !! costKey d = None
        /\ forall lvl, requestCounts usage !! dailyKey d lvl = None).
Proof.
  rewrite cleanupOldEntries_lookup.
  destruct (clientUsage !! clientId) as [old|]; [|discriminate].
  destruct (Z.ltb_spec (Z.of_N (lastRequestTime old))
              (Z.of_N now - 48 * 60 * 60 * 1000)) as [|Hseen];
    [discriminate|].
  intros [= <-]. cbn [requestCounts lastRequestTime].
  split; [exact Hseen|]. split.
  - intros h Hh. apply filter_lookup_dropped.
    rewrite is_stale_hourKey. apply Z.ltb_lt. lia.
  - intros d Hd. split; [|intros lvl]; apply filter_lookup_dropped;
      rewrite ?is_stale_costKey, ?is_stale_dailyKey; apply Z.ltb_lt; lia.
Qed.

Lemma sweep_drops_old_windows_witness :
  exists usage,
    cleanupOldEntries
      (snd (recordRequest ∅ 0 (js "alice") high (1 # 2) 1000))
      10800000 !! js "alice"
    = Some usage
    /\ requestCounts usage !! hourKey 0 = None.
Proof.
  destruct (cleanupOldEntries
              (snd (recordRequest ∅ 0 (js "alice") high (1 # 2) 1000))
              10800000 !! js "alice") as [usage|] eqn:E;
    [|vm_compute in E; discriminate E].
  exists usage. split; [reflexivity|].
  destruct (sweep_drops_old_windows _ _ _ _ E) as (_ & Hh & _).
  apply Hh. vm_compute. reflexivity.
Defined.

(* ===================================================================== *)
(** * Related topics                                                     *)
(* ===================================================================== *)

Section TopicFacts.

Import Topics.

Lemma longest_class (p : N -> bool) (c : N) (s : jsstring) :
  longest (Class p) (c :: s) = if p c then Some 1%nat else None.
Proof.
  unfold longest. cbn [longest_from nullable is_void deriv].
  destruct (p c); [|apply longest_from_void].
  destruct s as [|d s]; [reflexivity|].
  cbn [longest_from nullable is_void deriv]. apply longest_from_void.
Qed.

(** Deleting every match of a one-character class is a filter. *)
Lemma replace_all_class (p : N -> bool) (s : jsstring) :
  replace_all (Class p) [] s = List.filter (fun c => negb (p c)) s.
Proof.
  unfold replace_all. induction s as [|c s IH]; [reflexivity|].
  cbn [replace_all_from List.filter]. rewrite longest_class.
  destruct (p c); cbn [negb app]; rewrite IH; reflexivity.
Qed.

Lemma includes_iff (needle hay : jsstring) :
  includes needle hay = true <-> exists a b, hay = a ++ needle ++ b.
Proof.
  split.
  - induction hay as [|c hay IH]; cbn [includes]; intros H.
    + rewrite orb_false_r in H. apply starts_with_iff in H as [rest ->].
      exists [], rest. reflexivity.
    + apply orb_true_iff in H as [H|H].
      * apply starts_with_iff in H as [rest ->]. exists [], rest. reflexivity.
      * destruct (IH H) as (a & b & ->). exists (c :: a), b. reflexivity.
  - intros (a & b & ->). apply includes_app.
Qed.

Lemma drop_while_keeps (q : N -> bool) (c : N) (a rest : jsstring) :
  q c = false ->
  exists a', drop_while q (a ++ c :: rest) = a' ++ c :: rest.
Proof.
  intros Hc. induction a as [|x a IH]; cbn [app drop_while].
  - rewrite Hc. exists []. reflexivity.
  - destruct (q x); [exact IH | exists (x :: a); reflexivity].
Qed.

(** Trimming keeps a word that starts and ends with something else than
    white space. *)
Lemma trim_keeps (c d : N) (middle a b : jsstring) :
  is_space c = false -> is_space d = false ->
  (exists a' b', trim (a ++ c :: middle ++ d :: b) = a' ++ c :: middle ++ d :: b')
  /\ (exists a' b', trim (a ++ c :: b) = a' ++ c :: b').
Proof.
  intros Hc Hd. unfold trim, trimEnd, trimStart. split.
  - destruct (drop_while_keeps is_space c a (middle ++ d :: b) Hc) as (a' & ->).
    replace (rev (a' ++ c :: middle ++ d :: b))
      with (rev b ++ d :: rev (a' ++ c :: middle))
      by (rewrite !rev_app_distr; cbn [rev]; rewrite !rev_app_distr;
          cbn [rev]; rewrite <- !app_assoc; reflexivity).
    destruct (drop_while_keeps is_space d (rev b) (rev (a' ++ c :: middle)) Hd)
      as (b' & ->).
    exists a', (rev b'). rewrite rev_app_distr. cbn [rev].
    rewrite rev_involutive, <- !app_assoc. reflexivity.
  - destruct (drop_while_keeps is_space c a b Hc) as (a' & ->).
    replace (rev (a' ++ c :: b)) with (rev b ++ c :: rev a')
      by (rewrite rev_app_distr; cbn [rev]; rewrite <- app_assoc; reflexivity).
    destruct (drop_while_keeps is_space c (rev b) (rev a') Hc) as (b' & ->).
    exists a', (rev b'). rewrite rev_app_distr. cbn [rev].
    rewrite rev_involutive, <- !app_assoc. reflexivity.
Qed.

Lemma trim_is_trimmed (s : jsstring) : is_trimmed (trim s) = true.
Proof.
  destruct (trim_shape s) as [-> | (c & body & init & d & Hc & Hd & Hsc & Hsd)];
    [reflexivity|].
  unfold is_trimmed. apply andb_true_iff. split; apply Nat.eqb_eq.
  - rewrite Hc. cbn [ws_run]. rewrite Hsc. reflexivity.
  - rewrite Hd, rev_app_distr. cbn [rev app ws_run]. rewrite Hsd. reflexivity.
Qed.

Lemma trim_In (x : N) (s : jsstring) : In x (trim s) -> In x s.
Proof.
  intros H. destruct (trim_split s) as (l & r & Hs & _). rewrite Hs.
  apply in_or_app. right. apply in_or_app. left. exact H.
Qed.

(** A marker that holds no list mark and neither starts nor ends with
    white space is still in the topic made from a line that holds it. *)
Lemma topic_keeps_marker (c d : N) (middle line : jsstring) :
  is_space c = false -> is_space d = false ->
  forallb (fun x => negb (is_list_mark x)) (c :: middle ++ [d]) = true ->
  includes (c :: middle ++ [d]) line = true ->
  includes (c :: middle ++ [d]) (topic_of line) = true.
Proof.
  intros Hc Hd Hm H. apply includes_iff in H as (a & b & ->).
  unfold topic_of. rewrite replace_all_class, !List.filter_app.
  assert (Hkeep : List.filter (fun x => negb (is_list_mark x))
                    (c :: middle ++ [d]) = c :: middle ++ [d]).
  { apply forallb_filter_id. exact Hm. }
  rewrite Hkeep.
  destruct (trim_keeps c d middle
              (List.filter (fun x => negb (is_list_mark x)) a)
              (List.filter (fun x => negb (is_list_mark x)) b) Hc Hd)
    as [(a' & b' & Ht) _].
  change ((c :: middle ++ [d]) ++ ?t) with (c :: (middle ++ [d]) ++ t).
  rewrite <- app_assoc. cbn [app]. rewrite Ht.
  apply includes_iff. exists a', b'. cbn [app]. rewrite <- app_assoc.
  reflexivity.
Qed.

Lemma topic_mentions_related (line : jsstring) :
  mentions_related line = true -> mentions_related (topic_of line) = true.
Proof.
  unfold mentions_related. intros H.
  apply orb_true_iff in H as [H|H]; [apply orb_true_iff in H as [H|H]|].
  - change (js "related") with (114 :: js "elate" ++ [100]) in *.
    rewrite (topic_keeps_marker 114 100 (js "elate") line); auto.
  - change (js "also consider") with (97 :: js "lso conside" ++ [114]) in *.
    rewrite (topic_keeps_marker 97 114 (js "lso conside") line); auto.
    rewrite orb_true_r. reflexivity.
  - change (js "see also") with (115 :: js "ee als" ++ [111]) in *.
    rewrite (topic_keeps_marker 115 111 (js "ee als") line); auto.
    rewrite !orb_true_r. reflexivity.
Qed.

Lemma split_on_pieces (sep : N) (s : jsstring) :
  split_on sep s <> []
  /\ Forall (fun piece => forallb (fun c => negb (code_eqb c sep)) piece = true)
       (split_on sep s).
Proof.
  induction s as [|c s [Hne IH]]; cbn [split_on].
  - split; [discriminate | repeat constructor].
  - destruct (code_eqb c sep) eqn:Hc.
    + split; [discriminate | constructor; [reflexivity | exact IH]].
    + destruct (split_on sep s) as [|piece pieces]; [contradiction|].
      inversion IH as [|? ? Hp Hps]; subst.
      split; [discriminate|]. constructor; [|exact Hps].
      cbn [forallb]. rewrite Hc, Hp. reflexivity.
Qed.

Lemma collect_topics_In (topic : jsstring) (lines : list jsstring) :
  In topic (collect_topics lines) ->
  exists line,
    In line lines /\ mentions_related line = true /\ topic = topic_of line
    /\ (10 < List.length topic < 100)%nat.
Proof.
  induction lines as [|line rest IH]; cbn [collect_topics]; [intros []|].
  intros H.
  assert (Hrest : In topic (collect_topics rest) ->
                  exists l, In l (line :: rest) /\ mentions_related l = true
                            /\ topic = topic_of l
                            /\ (10 < List.length topic < 100)%nat).
  { intros H'. destruct (IH H') as (l & Hl & Hrel). exists l.
    split; [right; exact Hl | exact Hrel]. }
  destruct (mentions_related line) eqn:Hm; [|auto].
  cbv zeta in H.
  destruct (Nat.ltb 10 _ && Nat.ltb _ 100) eqn:Hlen; [|auto].
  destruct H as [<- | H]; [|auto].
  apply andb_true_iff in Hlen as [H1 H2].
  apply Nat.ltb_lt in H1. apply Nat.ltb_lt in H2.
  exists line. repeat split; auto. left. reflexivity.
Qed.

End TopicFacts.

(** X14.  [extractRelatedTopics] returns at most five topics.  Each has more
    than 10 and fewer than 100 code units, neither starts nor ends with
    white space, holds no hyphen, asterisk, digit, full stop or line feed,
    and still holds one of the markers [related], [also consider] and
    [see also] its line was chosen for. *)
Theorem extractRelatedTopics_shape (content : jsstring) :
  (List.length (Topics.extractRelatedTopics content) <= 5)%nat
  /\ Forall
       (fun topic =>
          (10 < List.length topic < 100)%nat
          /\ is_trimmed topic = true
          /\ forallb
               (fun c => negb (Topics.is_list_mark c || code_eqb c 10))
               topic = true
          /\ Topics.mentions_related topic = true)
       (Topics.extractRelatedTopics content).
Proof.
  unfold Topics.extractRelatedTopics. split; [apply firstn_le_length|].
  apply List.Forall_forall. intros topic Hin.
  assert (Hin' : In topic (Topics.collect_topics (Topics.split_on 10 content)))
    by (rewrite <- (firstn_skipn 5 (Topics.collect_topics _));
        apply in_or_app; left; exact Hin).
  apply collect_topics_In in Hin' as (line & Hline & Hrel & -> & Hlen).
  split; [exact Hlen|]. split; [apply trim_is_trimmed|].
  split; [|apply topic_mentions_related, Hrel].
  apply forallb_forall. intros x Hx.
  unfold Topics.topic_of in Hx. apply trim_In in Hx.
  rewrite replace_all_class in Hx. apply filter_In in Hx as [Hx Hmark].
  apply negb_true_iff in Hmark. rewrite Hmark. cbn [orb].
  destruct (split_on_pieces 10 content) as [_ Hpieces].
  rewrite List.Forall_forall in Hpieces. specialize (Hpieces line Hline).
  rewrite forallb_forall in Hpieces. apply Hpieces, Hx.
Qed.

(* ===================================================================== *)
(** * The path of a request through handler and client                   *)
(* ===================================================================== *)

Lemma accepted_is_output
  (toLowerCase : jsstring -> jsstring)
  (data validated : DoDeepResearchRequest) :
  outcome (validateResearchRequest toLowerCase data)
  = Returned (Valid validated) ->
  validated = DoDeepResearchSchema_output data.
Proof.
  intros Hv. rewrite validateResearchRequest_outcome in Hv.
  destruct (DoDeepResearchSchema_issues data); [|discriminate].
  destruct (business_rule_errors data); [|discriminate].
  destruct (validateContentSafety (research_query data)); [|discriminate].
  injection Hv as <-. reflexivity.
Qed.

Lemma validateResearchRequest_answers
  (toLowerCase : jsstring -> jsstring) (data : DoDeepResearchRequest) :
  exists result,
    outcome (validateResearchRequest toLowerCase data) = Returned result.
Proof. rewrite validateResearchRequest_outcome. eauto. Qed.

Lemma logs_hold_no_api_call (t : list Event) :
  forallb is_log t = true -> List.filter is_api_call t = [].
Proof.
  induction t as [|e t IH]; [reflexivity|]. cbn [forallb List.filter].
  intros H. apply andb_true_iff in H as [He Ht].
  destruct e; try discriminate He. cbn [is_api_call]. apply IH, Ht.
Qed.

Section FlowFacts.

Variable toLowerCase : jsstring -> jsstring.
Variable responses_create : jsstring -> jsstring -> Outcome OpenAI.Response.
Variable JSON_stringify_keys : OpenAI.Response -> jsstring.
Variable generateExecutiveSummary : jsstring -> jsstring.
Variable extractRelatedTopics : jsstring -> list jsstring.
Variable client_now : N.
Variable client_timestamp : jsstring.
Variable requestId : jsstring.
Variable startTime endTime : Z.
Variable handler_timestamp : jsstring.

Local Abbreviation handle :=
  (handleDeepResearchRequest toLowerCase responses_create JSON_stringify_keys
     generateExecutiveSummary extractRelatedTopics client_now client_timestamp
     requestId startTime endTime handler_timestamp).

Local Abbreviation perform :=
  (performDeepResearch responses_create JSON_stringify_keys
     generateExecutiveSummary extractRelatedTopics client_now client_timestamp).

(** The client when the API call is rejected. *)
Lemma performDeepResearch_rejected
  (request : DoDeepResearchRequest) (cause : Thrown) :
  responses_create (getModelForAccuracy (accuracy_level request))
    (research_query request) = Threw cause ->
  perform request
  = ([ Call_performDeepResearch request;
       Call_responses_create
         (getModelForAccuracy (accuracy_level request))
         (research_query request);
       Logged SevError
         ([10060; 32] ++ js "OpenAI Client: performDeepResearch failed") ],
     Threw (ErrorObject
              (js "OpenAI Deep Research failed: " ++ thrown_text cause))).
Proof.
  intros Hr. unfold performDeepResearch, performDeepResearch_body.
  rewrite Hr. reflexivity.
Qed.

(** The handler on an accepted request: the client is called with the
    validated request whose query is white-space normalised, and whatever
    the client does is turned into a response. *)
Lemma handle_accepted_flow (request validated : DoDeepResearchRequest) :
  outcome (validateResearchRequest toLowerCase request)
  = Returned (Valid validated) ->
  let researchRequest :=
    with_research_query (DoDeepResearchSchema_output request)
      (normalize_space (research_query request)) in
  trace (handle request)
  = trace (validateResearchRequest toLowerCase request)
    ++ trace (perform researchRequest)
    ++ match outcome (perform researchRequest) with
       | Returned _ => []
       | Threw _ => [Logged SevError (js "Research request failed")]
       end
  /\ match outcome (perform researchRequest) with
     | Returned researchResult =>
         exists body,
           outcome (handle request)
           = Returned
               {| content_text := Success body;
                  _meta :=
                    ResultMeta requestId
                      (ResearchResponse.model_used researchResult)
                      (PrimFloat.div (Z_to_number (endTime - startTime)) 1000)
                      (ResearchResponse.cost_info researchResult) |}
           /\ SuccessEnvelope.success body = true
           /\ SuccessEnvelope.request_id body = requestId
           /\ SuccessEnvelope.research_results body
              = ResearchResponse.research_results researchResult
           /\ SuccessEnvelope.model_used body
              = ResearchResponse.model_used researchResult
     | Threw error =>
         outcome (handle request)
         = Returned
             {| content_text :=
                  Failure
                    {| FailureEnvelope.success := false;
                       FailureEnvelope.error :=
                         match error with
                         | ErrorObject msg => msg
                         | OtherValue _ => js "An unexpected error occurred"
                         end;
                       FailureEnvelope.error_type := js "internal_error";
                       FailureEnvelope.request_id := requestId;
                       FailureEnvelope.timestamp := Some handler_timestamp |};
                _meta := ErrorMeta requestId handler_timestamp true |}
     end.
Proof.
  intros Hv researchRequest.
  pose proof (accepted_is_output _ _ _ Hv) as Hout.
  destruct (accepted_query_clean _ _ _ Hv) as (Hq & Ha & Hj & Hd & Hl).
  pose proof (sanitizeQuery_clean _ Ha Hj Hd Hl) as Hsq.
  rewrite <- Hq in Hsq.
  unfold handleDeepResearchRequest, handleDeepResearchRequest_body.
  destruct (validateResearchRequest toLowerCase request) as [tv ov].
  unfold outcome in Hv. cbn [snd] in Hv. subst ov.
  cbv zeta. rewrite bind_returned, Hsq, bind_returned.
  cbn [trace outcome fst snd app].
  rewrite Hq. subst validated.
  change {| research_query := normalize_space (research_query request);
            accuracy_level := accuracy_level (DoDeepResearchSchema_output request);
            max_tokens := max_tokens (DoDeepResearchSchema_output request);
            temperature := temperature (DoDeepResearchSchema_output request);
            include_sources :=
              include_sources (DoDeepResearchSchema_output request);
            response_format :=
              response_format (DoDeepResearchSchema_output request) |}
    with researchRequest.
  destruct (perform researchRequest) as [tp [res|err]].
  - rewrite bind_returned. cbn [trace outcome fst snd ret try_catch].
    rewrite !app_nil_r. split; [reflexivity|].
    eexists. split; [reflexivity|]. repeat split.
  - rewrite bind_threw. cbn [trace outcome fst snd ret try_catch bind log emit].
    rewrite app_nil_r, <- !app_assoc. split; reflexivity.
Qed.

Lemma status_incomplete_dec (response : OpenAI.Response) :
  {OpenAI.status response = Some (js "incomplete")}
  + {OpenAI.status response <> Some (js "incomplete")}.
Proof.
  destruct (OpenAI.status response) as [s|]; [|right; discriminate].
  destruct (jsstring_eqb s (js "incomplete")) eqn:E.
  - left. apply jsstring_eqb_eq in E. subst s. reflexivity.
  - right. intros [= ->].
    assert (jsstring_eqb (js "incomplete") (js "incomplete") = true)
      by (apply jsstring_eqb_eq; reflexivity).
    congruence.
Qed.

End FlowFacts.

(** C3.  When the request is valid and the external call made for it
    returns a response of status [incomplete], [performDeepResearch]
    throws; the external API has been called once and is not called
    again; the handler returns the failure envelope with [success: false],
    [error_type: "internal_error"] and an error text that asks to try
    again.  The client behaves so for every request: its only events are
    its entry, the one API call and two log records. *)
Theorem incomplete_response_reported_as_failure
  (toLowerCase : jsstring -> jsstring)
  (responses_create : jsstring -> jsstring -> Outcome OpenAI.Response)
  (JSON_stringify_keys : OpenAI.Response -> jsstring)
  (generateExecutiveSummary : jsstring -> jsstring)
  (extractRelatedTopics : jsstring -> list jsstring)
  (client_now : N) (client_timestamp requestId : jsstring)
  (startTime endTime : Z) (handler_timestamp : jsstring)
  (request validated : DoDeepResearchRequest) (response : OpenAI.Response) :
  outcome (validateResearchRequest toLowerCase request)
  = Returned (Valid validated) ->
  responses_create (getModelForAccuracy (accuracy_level request))
    (normalize_space (research_query request)) = Returned response ->
  OpenAI.status response = Some (js "incomplete") ->
  let perform :=
    performDeepResearch responses_create JSON_stringify_keys
      generateExecutiveSummary extractRelatedTopics client_now
      client_timestamp in
  let run :=
    handleDeepResearchRequest toLowerCase responses_create
      JSON_stringify_keys generateExecutiveSummary extractRelatedTopics
      client_now client_timestamp requestId startTime endTime
      handler_timestamp request in
  (forall researchRequest incomplete,
      responses_create (getModelForAccuracy (accuracy_level researchRequest))
        (research_query researchRequest) = Returned incomplete ->
      OpenAI.status incomplete = Some (js "incomplete") ->
      outcome (perform researchRequest)
      = Threw (ErrorObject
                 (js "OpenAI Deep Research failed: "
                  ++ incomplete_message incomplete))
      /\ List.filter is_api_call (trace (perform researchRequest))
         = [ Call_responses_create
               (getModelForAccuracy (accuracy_level researchRequest))
               (research_query researchRequest) ])
  /\ outcome
       (perform
          (with_research_query validated
             (normalize_space (research_query request))))
     = Threw (ErrorObject
                (js "OpenAI Deep Research failed: "
                 ++ incomplete_message response))
  /\ count_events is_api_call (trace run) = 1%nat
  /\ exists body,
       outcome run
       = Returned {| content_text := Failure body;
                     _meta := ErrorMeta requestId handler_timestamp true |}
       /\ success (Failure body) = false
       /\ FailureEnvelope.error_type body = js "internal_error"
       /\ FailureEnvelope.request_id body = requestId
       /\ includes (js "Please try again") (FailureEnvelope.error body) = true.
Proof.
  intros Hv Hapi Hst perform run.
  split.
  { intros rr r Hr Hs. subst perform. cbv beta.
    rewrite (performDeepResearch_incomplete responses_create
               JSON_stringify_keys generateExecutiveSummary
               extractRelatedTopics client_now client_timestamp rr r Hr Hs).
    split; reflexivity. }
  pose proof (accepted_is_output _ _ _ Hv) as ->.
  destruct (handle_accepted_flow toLowerCase responses_create
              JSON_stringify_keys generateExecutiveSummary
              extractRelatedTopics client_now client_timestamp requestId
              startTime endTime handler_timestamp request _ Hv)
    as [Htr Hout].
  cbv zeta in Htr, Hout. fold run in Htr, Hout.
  pose proof (performDeepResearch_incomplete responses_create
                JSON_stringify_keys generateExecutiveSummary
                extractRelatedTopics client_now client_timestamp
                (with_research_query (DoDeepResearchSchema_output request)
                   (normalize_space (research_query request)))
                response Hapi Hst) as Hp.
  subst perform. cbv beta. rewrite Hp in Htr, Hout |- *.
  cbn [trace outcome fst snd] in Htr, Hout |- *.
  split; [reflexivity|]. split.
  - rewrite Htr, !count_events_app.
    rewrite (count_events_logs _ _ (fun _ _ => eq_refl)
               (validateResearchRequest_trace toLowerCase request)).
    reflexivity.
  - eexists. split; [exact Hout|].
    cbn [success FailureEnvelope.success FailureEnvelope.error_type
           FailureEnvelope.request_id FailureEnvelope.error].
    repeat (split; [reflexivity|]).
    apply incomplete_message_guidance.
Qed.

(** An API that answers the call for the steam-engine query with an
    incomplete response and rejects every other call. *)
Lemma incomplete_response_reported_as_failure_witness :
  let api model input :=
    if jsstring_eqb input (js "history of the steam engine")
    then Returned Samples.incomplete_response
    else Threw (OtherValue (js "unexpected call")) in
  let run :=
    handleDeepResearchRequest Samples.ascii_toLowerCase api Samples.no_keys
      Samples.no_summary Samples.no_topics 1700000000000
      (js "2023-11-14T22:13:20.000Z") (js "req_1700000000000_k3j9x0q2a")
      1700000000000 1700000000250 (js "2023-11-14T22:13:20.250Z")
      MoreSamples.spaced_request in
  outcome (validateResearchRequest Samples.ascii_toLowerCase
             MoreSamples.spaced_request)
  = Returned (Valid (DoDeepResearchSchema_output MoreSamples.spaced_request))
  /\ count_events is_api_call (trace run) = 1%nat
  /\ exists body,
       outcome run
       = Returned {| content_text := Failure body;
                     _meta :=
                       ErrorMeta (js "req_1700000000000_k3j9x0q2a")
                         (js "2023-11-14T22:13:20.250Z") true |}
       /\ FailureEnvelope.error_type body = js "internal_error"
       /\ includes (js "Please try again") (FailureEnvelope.error body) = true.
Proof.
  intros api run. split; [vm_compute; reflexivity|].
  destruct (incomplete_response_reported_as_failure Samples.ascii_toLowerCase
              api Samples.no_keys
              Samples.no_summary Samples.no_topics 1700000000000
              (js "2023-11-14T22:13:20.000Z")
              (js "req_1700000000000_k3j9x0q2a")
              1700000000000 1700000000250 (js "2023-11-14T22:13:20.250Z")
              MoreSamples.spaced_request
              (DoDeepResearchSchema_output MoreSamples.spaced_request)
              Samples.incomplete_response)
    as (_ & _ & Hc & body & Ho & _ & Ht & _ & Hi).
  - vm_compute. reflexivity.
  - vm_compute. reflexivity.
  - reflexivity.
  - split; [exact Hc|]. exists body. repeat split; assumption.
Defined.

(** X15.  The handler never throws: for every request and whatever the API
    does, it returns a response.  The response says [success: true]
    exactly when validation accepted the request, the API call made for
    it (with the model of the requested level and the white-space
    normalised query) resolved, the response it resolved to is not
    marked [incomplete], and the extraction of its text ran through
    without throwing (as it does on a content item whose text is a truthy
    value that is not a string, and on an element that is [null] or
    [undefined]). *)
Theorem handler_succeeds_iff
  (toLowerCase : jsstring -> jsstring)
  (responses_create : jsstring -> jsstring -> Outcome OpenAI.Response)
  (JSON_stringify_keys : OpenAI.Response -> jsstring)
  (generateExecutiveSummary : jsstring -> jsstring)
  (extractRelatedTopics : jsstring -> list jsstring)
  (client_now : N) (client_timestamp requestId : jsstring)
  (startTime endTime : Z) (handler_timestamp : jsstring)
  (request : DoDeepResearchRequest) :
  exists response,
    outcome
      (handleDeepResearchRequest toLowerCase responses_create
         JSON_stringify_keys generateExecutiveSummary extractRelatedTopics
         client_now client_timestamp requestId startTime endTime
         handler_timestamp request)
    = Returned response
    /\ (success (content_text response) = true <->
        exists validated apiResponse content,
          outcome (validateResearchRequest toLowerCase request)
          = Returned (Valid validated)
          /\ responses_create (getModelForAccuracy (accuracy_level request))
               (normalize_space (research_query request))
             = Returned apiResponse
          /\ OpenAI.status apiResponse <> Some (js "incomplete")
          /\ extract_content apiResponse = Returned content).
Proof.
  destruct (validateResearchRequest_answers toLowerCase request)
    as ([validated | errors] & Hv).
  - destruct (handle_accepted_flow toLowerCase responses_create
                JSON_stringify_keys generateExecutiveSummary
                extractRelatedTopics client_now client_timestamp requestId
                startTime endTime handler_timestamp request validated Hv)
      as [_ Hout].
    cbv zeta in Hout.
    set (researchRequest :=
           with_research_query (DoDeepResearchSchema_output request)
             (normalize_space (research_query request))) in *.
    destruct (responses_create (getModelForAccuracy (accuracy_level request))
                (normalize_space (research_query request)))
      as [apiResponse | cause] eqn:Hapi.
    + destruct (status_incomplete_dec apiResponse) as [Hst | Hst].
      * rewrite (performDeepResearch_incomplete responses_create
                   JSON_stringify_keys generateExecutiveSummary
                   extractRelatedTopics client_now client_timestamp
                   researchRequest apiResponse Hapi Hst) in Hout.
        cbn [outcome snd] in Hout. eexists. split; [exact Hout|].
        cbn [content_text success FailureEnvelope.success]. split;
          [discriminate|].
        intros (v & r & c & _ & [= <-] & Hne & _). contradiction.
      * destruct (extract_content apiResponse) as [content | error] eqn:He.
        -- destruct (performDeepResearch_complete responses_create
                       JSON_stringify_keys generateExecutiveSummary
                       extractRelatedTopics client_now client_timestamp
                       researchRequest apiResponse content Hapi Hst He)
             as (result & Hres & _).
           rewrite Hres in Hout. destruct Hout as (body & Hout & Hs & _).
           eexists. split; [exact Hout|].
           cbn [content_text success]. split; [|intros _; exact Hs].
           intros _. exists validated, apiResponse, content. auto.
        -- rewrite (performDeepResearch_extraction_throws responses_create
                      JSON_stringify_keys generateExecutiveSummary
                      extractRelatedTopics client_now client_timestamp
                      researchRequest apiResponse error Hapi Hst He) in Hout.
           cbn [outcome snd] in Hout. eexists. split; [exact Hout|].
           cbn [content_text success FailureEnvelope.success]. split;
             [discriminate|].
           intros (v & r & c & _ & [= <-] & _ & Hc).
           rewrite He in Hc. discriminate Hc.
    + rewrite (performDeepResearch_rejected responses_create
                 JSON_stringify_keys generateExecutiveSummary
                 extractRelatedTopics client_now client_timestamp
                 researchRequest cause Hapi) in Hout.
      cbn [outcome snd] in Hout. eexists. split; [exact Hout|].
      cbn [content_text success FailureEnvelope.success]. split;
        [discriminate|].
      intros (v & r & c & _ & Hr & _). discriminate Hr.
  - rewrite (handle_rejected toLowerCase responses_create
               JSON_stringify_keys generateExecutiveSummary
               extractRelatedTopics client_now client_timestamp requestId
               startTime endTime handler_timestamp request errors Hv).
    cbn [outcome snd]. eexists. split; [reflexivity|].
    cbn [content_text success FailureEnvelope.success]. split;
      [discriminate|].
    intros (v & r & c & Hv' & _). rewrite Hv in Hv'. discriminate Hv'.
Qed.

(** X16.  For a request that validation accepted, the handler reaches the API
    exactly once, whatever the API answers: with the model of the
    requested level and with the query trimmed and its white-space runs
    collapsed. *)
Theorem accepted_request_calls_api_once
  (toLowerCase : jsstring -> jsstring)
  (responses_create : jsstring -> jsstring -> Outcome OpenAI.Response)
  (JSON_stringify_keys : OpenAI.Response -> jsstring)
  (generateExecutiveSummary : jsstring -> jsstring)
  (extractRelatedTopics : jsstring -> list jsstring)
  (client_now : N) (client_timestamp requestId : jsstring)
  (startTime endTime : Z) (handler_timestamp : jsstring)
  (request validated : DoDeepResearchRequest) :
  outcome (validateResearchRequest toLowerCase request)
  = Returned (Valid validated) ->
  List.filter is_api_call
    (trace
       (handleDeepResearchRequest toLowerCase responses_create
          JSON_stringify_keys generateExecutiveSummary extractRelatedTopics
          client_now client_timestamp requestId startTime endTime
          handler_timestamp request))
  = [ Call_responses_create
        (getModelForAccuracy (accuracy_level request))
        (normalize_space (research_query request)) ].
Proof.
  intros Hv.
  destruct (handle_accepted_flow toLowerCase responses_create
              JSON_stringify_keys generateExecutiveSummary
              extractRelatedTopics client_now client_timestamp requestId
              startTime endTime handler_timestamp request validated Hv)
    as [Htr _].
  cbv zeta in Htr. rewrite Htr.
  destruct (performDeepResearch_trace responses_create JSON_stringify_keys
              generateExecutiveSummary extractRelatedTopics client_now
              client_timestamp
              (with_research_query (DoDeepResearchSchema_output request)
                 (normalize_space (research_query request))))
    as (logs & -> & Hlogs).
  rewrite !List.filter_app.
  rewrite (logs_hold_no_api_call _
             (validateResearchRequest_trace toLowerCase request)).
  rewrite (logs_hold_no_api_call _ Hlogs).
  cbn [List.filter is_api_call app with_research_query research_query
       accuracy_level DoDeepResearchSchema_output].
  destruct (outcome (performDeepResearch _ _ _ _ _ _ _)); reflexivity.
Qed.

Lemma accepted_request_calls_api_once_witness :
  List.filter is_api_call
    (trace
       (handleDeepResearchRequest Samples.ascii_toLowerCase
          MoreSamples.failing_api Samples.no_keys
          Samples.no_summary Samples.no_topics 1700000000000
          (js "2023-11-14T22:13:20.000Z") (js "req_1700000000000_k3j9x0q2a")
          1700000000000 1700000000250 (js "2023-11-14T22:13:20.250Z")
          MoreSamples.spaced_request))
  = [ Call_responses_create (js "o3-deep-research")
        (js "history of the steam engine") ].
Proof.
  apply (accepted_request_calls_api_once Samples.ascii_toLowerCase
           MoreSamples.failing_api Samples.no_keys
           Samples.no_summary Samples.no_topics 1700000000000
           (js "2023-11-14T22:13:20.000Z") (js "req_1700000000000_k3j9x0q2a")
           1700000000000 1700000000250 (js "2023-11-14T22:13:20.250Z")
           MoreSamples.spaced_request
           (DoDeepResearchSchema_output MoreSamples.spaced_request)).
  vm_compute. reflexivity.
Defined.

Lemma accepted_query_sanitized_once_witness :
  outcome (validateResearchRequest Samples.ascii_toLowerCase
             MoreSamples.spaced_request)
  = Returned (Valid (DoDeepResearchSchema_output MoreSamples.spaced_request))
  /\ sanitizeQuery (js "  history   of the steam engine ")
     = ([], Returned (js "history of the steam engine"))
  /\ sanitizeQuery (js "history of the steam engine")
     = ([], Returned (js "history of the steam engine")).
Proof.
  split; [vm_compute; reflexivity|].
  destruct (accepted_query_sanitized_once Samples.ascii_toLowerCase
              MoreSamples.spaced_request
              (DoDeepResearchSchema_output MoreSamples.spaced_request))
    as (H1 & H2 & _); [vm_compute; reflexivity|].
  split; [exact H1 | exact H2].
Defined.

Lemma validateResearchRequest_no_error_log
  (toLowerCase : jsstring -> jsstring) (data : DoDeepResearchRequest) :
  count_events is_error_log
    (trace (validateResearchRequest toLowerCase data)) = 0%nat.
Proof.
  unfold validateResearchRequest, validateBusinessRules.
  destruct (DoDeepResearchSchema_parse data) as [es|v]; [reflexivity|].
  destruct (accuracy_level v),
    (assessQueryComplexity toLowerCase (research_query v)),
    (business_rule_errors v); simpl;
    try reflexivity;
    destruct (validateContentSafety (research_query v)); reflexivity.
Qed.

(** X17.  When the API rejects the call made for an accepted request, the
    handler answers with a failure of type [internal_error] whose text is
    [OpenAI Deep Research failed: ] followed by the message of the
    rejection; the failure is logged twice as an error, once by the client
    and once by the handler. *)
Theorem api_rejection_reported
  (toLowerCase : jsstring -> jsstring)
  (responses_create : jsstring -> jsstring -> Outcome OpenAI.Response)
  (JSON_stringify_keys : OpenAI.Response -> jsstring)
  (generateExecutiveSummary : jsstring -> jsstring)
  (extractRelatedTopics : jsstring -> list jsstring)
  (client_now : N) (client_timestamp requestId : jsstring)
  (startTime endTime : Z) (handler_timestamp : jsstring)
  (request validated : DoDeepResearchRequest) (cause : Thrown) :
  outcome (validateResearchRequest toLowerCase request)
  = Returned (Valid validated) ->
  responses_create (getModelForAccuracy (accuracy_level request))
    (normalize_space (research_query request)) = Threw cause ->
  let run :=
    handleDeepResearchRequest toLowerCase responses_create
      JSON_stringify_keys generateExecutiveSummary extractRelatedTopics
      client_now client_timestamp requestId startTime endTime
      handler_timestamp request in
  outcome run
  = Returned
      {| content_text :=
           Failure
             {| FailureEnvelope.success := false;
                FailureEnvelope.error :=
                  js "OpenAI Deep Research failed: " ++ thrown_text cause;
                FailureEnvelope.error_type := js "internal_error";
                FailureEnvelope.request_id := requestId;
                FailureEnvelope.timestamp := Some handler_timestamp |};
         _meta := ErrorMeta requestId handler_timestamp true |}
  /\ count_events is_error_log (trace run) = 2%nat.
Proof.
  intros Hv Hapi run.
  destruct (handle_accepted_flow toLowerCase responses_create
              JSON_stringify_keys generateExecutiveSummary
              extractRelatedTopics client_now client_timestamp requestId
              startTime endTime handler_timestamp request validated Hv)
    as [Htr Hout].
  cbv zeta in Htr, Hout. fold run in Htr, Hout.
  rewrite (performDeepResearch_rejected responses_create
             JSON_stringify_keys generateExecutiveSummary
             extractRelatedTopics client_now client_timestamp
             (with_research_query (DoDeepResearchSchema_output request)
                (normalize_space (research_query request)))
             cause Hapi) in Htr, Hout.
  cbn [trace outcome fst snd] in Htr, Hout. split; [exact Hout|].
  rewrite Htr, !count_events_app, validateResearchRequest_no_error_log.
  reflexivity.
Qed.

Lemma api_rejection_reported_witness :
  let run :=
    handleDeepResearchRequest Samples.ascii_toLowerCase
      MoreSamples.failing_api Samples.no_keys
      Samples.no_summary Samples.no_topics 1700000000000
      (js "2023-11-14T22:13:20.000Z") (js "req_1700000000000_k3j9x0q2a")
      1700000000000 1700000000250 (js "2023-11-14T22:13:20.250Z")
      MoreSamples.spaced_request in
  outcome (validateResearchRequest Samples.ascii_toLowerCase
             MoreSamples.spaced_request)
  = Returned (Valid (DoDeepResearchSchema_output MoreSamples.spaced_request))
  /\ count_events is_error_log (trace run) = 2%nat.
Proof.
  intros run. split; [vm_compute; reflexivity|].
  destruct (api_rejection_reported Samples.ascii_toLowerCase
              MoreSamples.failing_api Samples.no_keys
              Samples.no_summary Samples.no_topics 1700000000000
              (js "2023-11-14T22:13:20.000Z")
              (js "req_1700000000000_k3j9x0q2a")
              1700000000000 1700000000250 (js "2023-11-14T22:13:20.250Z")
              MoreSamples.spaced_request
              (DoDeepResearchSchema_output MoreSamples.spaced_request)
              (ErrorObject (js "429 Too Many Requests")))
    as [_ Hc].
  - vm_compute. reflexivity.
  - reflexivity.
  - exact Hc.
Defined.

(* ===================================================================== *)
(** * What the client returns                                            *)
(* ===================================================================== *)

Lemma bracketed_not_blank (c d : N) (middle : jsstring) :
  is_space c = false -> is_space d = false ->
  is_blank (c :: middle ++ [d]) = false.
Proof.
  intros Hc Hd. unfold is_blank. cbn [truthy_string negb orb].
  destruct (trim_keeps c d middle [] [] Hc Hd) as [(a & b & Ht) _].
  cbn [app] in Ht. rewrite Ht, List.length_app. cbn [List.length].
  apply Nat.eqb_neq. lia.
Qed.

Lemma trim_idempotent (s : jsstring) : trim (trim s) = trim s.
Proof. apply trim_trimmed, trim_is_trimmed. Qed.

Section ResultFacts.

Variable responses_create : jsstring -> jsstring -> Outcome OpenAI.Response.
Variable JSON_stringify_keys : OpenAI.Response -> jsstring.
Variable generateExecutiveSummary : jsstring -> jsstring.
Variable extractRelatedTopics : jsstring -> list jsstring.
Variable client_now : N.
Variable client_timestamp : jsstring.

Lemma parsing_error_placeholder_not_blank (tokenCount : N)
  (response : OpenAI.Response) :
  is_blank (parsing_error_placeholder JSON_stringify_keys tokenCount response)
  = false.
Proof.
  unfold parsing_error_placeholder.
  change (js "]") with [93].
  change (js "[Content parsing error: OpenAI generated ")
    with (91 :: js "Content parsing error: OpenAI generated ").
  cbn [app]. rewrite !app_assoc. apply bracketed_not_blank; reflexivity.
Qed.

(** The final fallback never yields a blank text. *)
Lemma final_content_not_blank (response : OpenAI.Response)
  (logs : list Event) (content : jsstring) :
  final_content JSON_stringify_keys response = (logs, Returned content) ->
  is_blank content = false.
Proof.
  unfold final_content.
  destruct (extract_content response) as [extracted | error];
    [|discriminate].
  rewrite bind_returned. destruct (is_blank extracted) eqn:Hb.
  - destruct (0 <? _); cbn; intros [= _ <-].
    + apply parsing_error_placeholder_not_blank.
    + reflexivity.
  - cbn. intros [= _ <-]. exact Hb.
Qed.

Lemma extract_content_output_text (response : OpenAI.Response) (t : jsstring) :
  OpenAI.output_text response = Some t ->
  is_blank t = false ->
  extract_content response = Returned (trim t) /\ is_blank (trim t) = false.
Proof.
  intros Ht Hb. unfold is_blank in Hb. apply orb_false_iff in Hb as [Htr Hlen].
  apply negb_false_iff in Htr. apply Nat.eqb_neq in Hlen.
  unfold extract_content, extract_output_text. rewrite Ht, Htr.
  destruct (Nat.ltb_spec 0 (List.length (trim t))) as [_|]; [|lia].
  cbn [andb]. destruct (trim t) as [|c rest] eqn:E; [contradiction|].
  split; [reflexivity|]. rewrite <- E. unfold is_blank.
  rewrite trim_idempotent, E. reflexivity.
Qed.

End ResultFacts.

(** X18.  The client returns a result exactly when the API call resolved, the
    response is not marked [incomplete] and the extraction of its text
    ran through without throwing; the research text of every result is
    not blank: where no text could be extracted, one of the two
    placeholders stands in. *)
Theorem research_results_never_blank
  (responses_create : jsstring -> jsstring -> Outcome OpenAI.Response)
  (JSON_stringify_keys : OpenAI.Response -> jsstring)
  (generateExecutiveSummary : jsstring -> jsstring)
  (extractRelatedTopics : jsstring -> list jsstring)
  (client_now : N) (client_timestamp : jsstring)
  (request : DoDeepResearchRequest) :
  let run :=
    performDeepResearch responses_create JSON_stringify_keys
      generateExecutiveSummary extractRelatedTopics client_now
      client_timestamp request in
  ((exists result, outcome run = Returned result) <->
   exists response content,
     responses_create (getModelForAccuracy (accuracy_level request))
       (research_query request) = Returned response
     /\ OpenAI.status response <> Some (js "incomplete")
     /\ extract_content response = Returned content)
  /\ forall result,
       outcome run = Returned result ->
       is_blank (ResearchResponse.research_results result) = false.
Proof.
  intros run. subst run.
  destruct (responses_create (getModelForAccuracy (accuracy_level request))
              (research_query request)) as [response | cause] eqn:Hapi.
  - destruct (status_incomplete_dec response) as [Hst | Hst].
    + rewrite (performDeepResearch_incomplete responses_create
                 JSON_stringify_keys generateExecutiveSummary
                 extractRelatedTopics client_now client_timestamp
                 request response Hapi Hst).
      split; [split|]; [intros [result H]; discriminate H | |
                        intros result H; discriminate H].
      intros (r & c & [= <-] & Hn & _). contradiction.
    + destruct (extract_content response) as [content | error] eqn:He.
      * destruct (performDeepResearch_complete responses_create
                    JSON_stringify_keys generateExecutiveSummary
                    extractRelatedTopics client_now client_timestamp
                    request response content Hapi Hst He)
          as (result' & Hres & _ & Hfc & _).
        rewrite Hres. split; [split|].
        -- intros _. exists response, content. repeat split; assumption.
        -- intros _. exists result'. reflexivity.
        -- intros result [= <-].
           destruct (final_content JSON_stringify_keys response)
             as [logs final] eqn:Hf.
           cbn [outcome snd] in Hfc. subst final.
           exact (final_content_not_blank JSON_stringify_keys response _ _ Hf).
      * rewrite (performDeepResearch_extraction_throws responses_create
                   JSON_stringify_keys generateExecutiveSummary
                   extractRelatedTopics client_now client_timestamp
                   request response error Hapi Hst He).
        split; [split|]; [intros [result H]; discriminate H | |
                          intros result H; discriminate H].
        intros (r & c & [= <-] & _ & Hc). rewrite He in Hc. discriminate Hc.
  - rewrite (performDeepResearch_rejected responses_create
               JSON_stringify_keys generateExecutiveSummary
               extractRelatedTopics client_now client_timestamp
               request cause Hapi).
    split; [split|]; [intros [result H]; discriminate H | |
                      intros result H; discriminate H].
    intros (r & c & H & _). discriminate H.
Qed.

Lemma research_results_never_blank_witness :
  exists result,
    outcome (performDeepResearch (Samples.mock Samples.textless_response)
               Samples.no_keys Samples.no_summary Samples.no_topics
               1700000000000 (js "2023-11-14T22:13:20.000Z")
               Samples.plain_request)
    = Returned result
    /\ is_blank (ResearchResponse.research_results result) = false.
Proof.
  destruct (research_results_never_blank
              (Samples.mock Samples.textless_response)
              Samples.no_keys Samples.no_summary Samples.no_topics
              1700000000000 (js "2023-11-14T22:13:20.000Z")
              Samples.plain_request) as [[_ Hreturns] Hblank].
  destruct Hreturns as [result Hres].
  { exists Samples.textless_response, [].
    split; [reflexivity|].
    split; [vm_compute; discriminate | vm_compute; reflexivity]. }
  exists result. split; [exact Hres | exact (Hblank result Hres)].
Defined.

(** X19.  A completed response whose [output_text] is not blank is answered
    with that text, trimmed, whatever its other fields hold; nothing is
    logged as a warning or an error on the way. *)
Theorem output_text_takes_priority
  (responses_create : jsstring -> jsstring -> Outcome OpenAI.Response)
  (JSON_stringify_keys : OpenAI.Response -> jsstring)
  (generateExecutiveSummary : jsstring -> jsstring)
  (extractRelatedTopics : jsstring -> list jsstring)
  (client_now : N) (client_timestamp : jsstring)
  (request : DoDeepResearchRequest) (response : OpenAI.Response)
  (text : jsstring) :
  responses_create (getModelForAccuracy (accuracy_level request))
    (research_query request) = Returned response ->
  OpenAI.status response <> Some (js "incomplete") ->
  OpenAI.output_text response = Some text ->
  is_blank text = false ->
  let run :=
    performDeepResearch responses_create JSON_stringify_keys
      generateExecutiveSummary extractRelatedTopics client_now
      client_timestamp request in
  exists result,
    outcome run = Returned result
    /\ ResearchResponse.research_results result = trim text
    /\ List.filter is_log (trace run) = [].
Proof.
  intros Hapi Hst Ht Hb run.
  destruct (extract_content_output_text response text Ht Hb) as [Hc Hnb].
  destruct (performDeepResearch_complete responses_create JSON_stringify_keys
              generateExecutiveSummary extractRelatedTopics client_now
              client_timestamp request response (trim text) Hapi Hst Hc)
    as (result & Hres & Htr & Hfc & _).
  fold run in Hres, Htr.
  unfold final_content in Hfc, Htr. rewrite Hc, bind_returned, Hnb in Hfc, Htr.
  cbn [outcome trace fst snd ret app] in Hfc, Htr. injection Hfc as Hfc.
  exists result. split; [exact Hres|]. split; [symmetry; exact Hfc|].
  rewrite Htr. reflexivity.
Qed.

Lemma output_text_takes_priority_witness :
  exists result,
    outcome (performDeepResearch (Samples.mock MoreSamples.answered_response)
               Samples.no_keys Samples.no_summary Samples.no_topics
               1700000000000 (js "2023-11-14T22:13:20.000Z")
               Samples.plain_request)
    = Returned result
    /\ ResearchResponse.research_results result
       = js "Steam engines [1] drove pumps [2].".
Proof.
  destruct (output_text_takes_priority
              (Samples.mock MoreSamples.answered_response)
              Samples.no_keys Samples.no_summary Samples.no_topics
              1700000000000 (js "2023-11-14T22:13:20.000Z")
              Samples.plain_request MoreSamples.answered_response
              (js " Steam engines [1] drove pumps [2]. "))
    as (result & Hres & Htext & _).
  - reflexivity.
  - vm_compute. discriminate.
  - reflexivity.
  - vm_compute. reflexivity.
  - exists result. split; [exact Hres | exact Htext].
Defined.

(* ===================================================================== *)
(** * Counting citations                                                 *)
(* ===================================================================== *)

(** Matches are counted without overlap: where every word of the pattern
    has at least [m] code units, [m] times the count fits into the
    text. *)
Lemma count_matches_from_bound (r : regex) (m : nat) :
  (forall w, lang r w -> (m <= List.length w)%nat) ->
  forall s skip,
    (m * count_matches_from r s skip <= List.length s - skip)%nat.
Proof.
  intros Hw. induction s as [|c s IH]; intros skip.
  - cbn [count_matches_from]. lia.
  - cbn [count_matches_from]. destruct skip as [|k].
    + destruct (longest r (c :: s)) as [[|k]|] eqn:E.
      * specialize (IH 0%nat). cbn [List.length]. lia.
      * apply longest_lang in E as [Hk Hl]. apply Hw in Hl.
        rewrite List.length_firstn in Hl. specialize (IH k).
        cbn [List.length] in *. lia.
      * specialize (IH 0%nat). cbn [List.length]. lia.
    + specialize (IH k). cbn [List.length]. lia.
Qed.

Lemma citation_length (w : jsstring) :
  lang (Cat (chr 91) (Cat (plus digit) (chr 93))) w ->
  (3 <= List.length w)%nat.
Proof.
  intros H. apply lang_cat_inv in H as (a & b & -> & Ha & Hb).
  apply lang_class_inv in Ha as (c & -> & _).
  apply lang_cat_inv in Hb as (d & e & -> & Hd & He).
  unfold plus in Hd. apply lang_cat_inv in Hd as (f & g & -> & Hf & _).
  apply lang_class_inv in Hf as (x & -> & _).
  apply lang_class_inv in He as (y & -> & _).
  rewrite !List.length_app. cbn [List.length]. lia.
Qed.

(** X20.  A citation [[n]] takes at least three code units and citations are
    counted without overlap, so the number of sources found in a text is
    at most a third of its length. *)
Theorem extractSourceCount_bound (content : jsstring) :
  (3 * extractSourceCount content <= List.length content)%nat.
Proof.
  unfold extractSourceCount, count_matches.
  pose proof (count_matches_from_bound _ 3 citation_length content 0%nat).
  lia.
Qed.

(* ===================================================================== *)
(** * Configuration                                                      *)
(* ===================================================================== *)

Lemma push_if_nil (cond : bool) (msg : jsstring) :
  Config.push_if cond msg = [] -> cond = false.
Proof. destruct cond; [discriminate | reflexivity]. Qed.

(** A number that passes a range check is [NaN] or a finite number of
    the range. *)
Lemma within_range (x : JsValues.Number) (lo hi : Q) :
  JsValues.lt x (JsValues.Finite lo) = false ->
  JsValues.gt x (JsValues.Finite hi) = false ->
  match x with
  | JsValues.Finite v => (lo <= v <= hi)%Q
  | JsValues.Infinity _ => False
  | JsValues.NaN => True
  end.
Proof.
  destruct x as [v|[|]|]; cbn; intros Hlo Hhi; try discriminate; [|exact I].
  split; apply Qltb_false; assumption.
Qed.

Lemma gt_false (a b : JsValues.Number) (x y : Q) :
  JsValues.gt a b = false -> a = JsValues.Finite x -> b = JsValues.Finite y ->
  (x <= y)%Q.
Proof. intros H -> ->. apply Qltb_false, H. Qed.

(** A per-level limit that passed the check against [requests_per_day]
    gives the limiter a daily limit of at most that, or its default. *)
Lemma per_level_bound (limit : JsValues.Number) (perDay d : Q)
  (setting : option Q) :
  JsValues.gt limit (JsValues.Finite perDay) = false ->
  Config.per_level limit = Some setting ->
  (or_default setting d <= Qmax perDay d)%Q.
Proof.
  destruct limit as [v|negative|]; cbn [Config.per_level]; intros H [= <-];
    cbn [or_default]; [|apply Q.le_max_r].
  destruct (Qtruthy v); [|apply Q.le_max_r].
  apply (Qle_trans _ perDay); [apply Qltb_false, H | apply Q.le_max_l].
Qed.

(** X21.  What a configuration that [loadConfig] lets through guarantees.  It
    is returned as it is, and its keys are present.  Every numeric setting
    with a range is [NaN] or a finite number within its range; the
    timeout, which has a lower bound only, may also be the positive
    infinity.  A per-level daily limit that is a number is at most
    [requests_per_day] when that is a number too.  When the rate limits
    have the form the limiter carries, the per-level daily limit the
    limiter will apply is at most the larger of [requests_per_day] and the
    level's built-in default (8 and 15), which stands in when the setting
    is [NaN] or 0. *)
Theorem loaded_config_bounds (config loaded : Config.ServerConfig) :
  outcome (Config.loadConfig config) = Returned loaded ->
  let limits := Config.getRateLimitConfig loaded in
  let within (lo hi : Q) (x : JsValues.Number) : Prop :=
    match x with
    | JsValues.Finite v => (lo <= v <= hi)%Q
    | JsValues.Infinity _ => False
    | JsValues.NaN => True
    end in
  loaded = config
  /\ Config.apiKey (Config.openai loaded) <> []
  /\ Config.redis_url loaded <> []
  /\ within 1%Q 1000%Q (Config.requests_per_hour limits)
  /\ within 1%Q 10000%Q (Config.requests_per_day limits)
  /\ within (1 # 100)%Q 1000%Q (Config.daily_cost_limit_usd limits)
  /\ match Config.timeout (Config.openai loaded) with
     | JsValues.Finite t => (10000 <= t)%Q
     | JsValues.Infinity negative => negative = false
     | JsValues.NaN => True
     end
  /\ within 1%Q 10%Q (Config.maxRetries (Config.openai loaded))
  /\ within 500%Q 8000%Q (Config.default_max_tokens (Config.defaults loaded))
  /\ within 0%Q 1%Q (Config.default_temperature (Config.defaults loaded))
  /\ (forall limit perDay,
        Config.high_accuracy_daily_limit limits = JsValues.Finite limit
        \/ Config.medium_accuracy_daily_limit limits = JsValues.Finite limit ->
        Config.requests_per_day limits = JsValues.Finite perDay ->
        (limit <= perDay)%Q)
  /\ (forall limiter,
        Config.as_limiter_config limits = Some limiter ->
        (getDailyLimit limiter high <= Qmax (requests_per_day limiter) 8)%Q
        /\ (getDailyLimit limiter medium
            <= Qmax (requests_per_day limiter) 15)%Q).
Proof.
  unfold Config.loadConfig.
  destruct (Config.validateConfig config) eqn:Hv; [|discriminate].
  cbn [List.length Nat.ltb Nat.leb outcome snd ret]. intros [= <-].
  cbv zeta. split; [reflexivity|].
  unfold Config.validateConfig in Hv.
  repeat match goal with
         | H : _ ++ _ = [] |- _ => apply app_eq_nil in H as [? H]
         end.
  repeat match goal with
         | H : Config.push_if _ _ = [] |- _ => apply push_if_nil in H
         end.
  repeat match goal with
         | H : _ || _ = false |- _ => apply orb_false_iff in H as [? ?]
         | H : negb _ = false |- _ => apply negb_false_iff in H
         end.
  unfold Config.getRateLimitConfig.
  split; [intros E; rewrite E in *; discriminate|].
  split; [intros E; rewrite E in *; discriminate|].
  split; [apply within_range; assumption|].
  split; [apply within_range; assumption|].
  split; [apply within_range; assumption|].
  split.
  { destruct (Config.timeout (Config.openai config)) as [t|[|]|];
      cbn [JsValues.lt] in *.
    - apply Qltb_false. assumption.
    - discriminate.
    - reflexivity.
    - exact I. }
  split; [apply within_range; assumption|].
  split; [apply within_range; assumption|].
  split; [apply within_range; assumption|].
  split.
  { intros limit perDay [Hl|Hl] Hd;
      (eapply gt_false; [|exact Hl|exact Hd]); assumption. }
  intros limiter. unfold Config.as_limiter_config.
  destruct (Config.requests_per_hour (Config.rateLimits config));
    try discriminate.
  destruct (Config.requests_per_day (Config.rateLimits config)) as [perDay| |];
    try discriminate.
  destruct (Config.tokens_per_day (Config.rateLimits config));
    try discriminate.
  destruct (Config.daily_cost_limit_usd (Config.rateLimits config));
    try discriminate.
  destruct (Config.per_level
              (Config.high_accuracy_daily_limit (Config.rateLimits config)))
    as [highLimit|] eqn:Hhigh; try discriminate.
  destruct (Config.per_level
              (Config.medium_accuracy_daily_limit (Config.rateLimits config)))
    as [mediumLimit|] eqn:Hmedium; try discriminate.
  intros [= <-].
  unfold getDailyLimit.
  cbn [is_high RateLimiter.requests_per_day
       RateLimiter.high_accuracy_daily_limit
       RateLimiter.medium_accuracy_daily_limit].
  split;
    match goal with
    | Hp : Config.per_level ?l = Some ?s, Hg : JsValues.gt ?l _ = false
      |- (or_default ?s _ <= _)%Q => exact (per_level_bound _ _ _ _ Hg Hp)
    end.
Qed.

Lemma loaded_config_bounds_witness :
  outcome (Config.loadConfig ConfigSamples.default_server_config)
  = Returned ConfigSamples.default_server_config
  /\ (forall limiter,
        Config.as_limiter_config
          (Config.getRateLimitConfig ConfigSamples.default_server_config)
        = Some limiter ->
        (getDailyLimit limiter high <= Qmax (requests_per_day limiter) 8)%Q)
  /\ Config.as_limiter_config
       (Config.getRateLimitConfig ConfigSamples.default_server_config)
     = Some Samples.loaded_config.
Proof.
  split; [vm_compute; reflexivity|].
  split; [|reflexivity].
  destruct (loaded_config_bounds ConfigSamples.default_server_config
              ConfigSamples.default_server_config)
    as (_ & _ & _ & _ & _ & _ & _ & _ & _ & _ & _ & Hlimiter);
    [vm_compute; reflexivity|].
  intros limiter H. apply (Hlimiter limiter H).
Defined.

(** X22.  A numeric setting that could not be read from the environment is
    [NaN], and [NaN] fails no range check.  For every configuration,
    whatever [validateConfig] reports when all its numeric settings are
    [NaN] it also reports for the configuration itself; so when
    [loadConfig] lets a configuration through, it lets it through with
    every number unreadable as well. *)
Theorem unreadable_numbers_pass_validation (config : Config.ServerConfig) :
  (forall msg,
      In msg
        (Config.validateConfig (ConfigSamples.unreadable_numbers config)) ->
      In msg (Config.validateConfig config))
  /\ (forall loaded,
        outcome (Config.loadConfig config) = Returned loaded ->
        outcome (Config.loadConfig (ConfigSamples.unreadable_numbers config))
        = Returned (ConfigSamples.unreadable_numbers config)).
Proof.
  assert (Hsub : forall msg,
             In msg
               (Config.validateConfig
                  (ConfigSamples.unreadable_numbers config)) ->
             In msg (Config.validateConfig config)).
  { intros msg. unfold Config.validateConfig, ConfigSamples.unreadable_numbers.
    cbn [Config.openai Config.apiKey Config.timeout Config.maxRetries
         Config.redis_url Config.rateLimits Config.logLevel Config.defaults
         Config.requests_per_hour Config.requests_per_day
         Config.daily_cost_limit_usd Config.high_accuracy_daily_limit
         Config.medium_accuracy_daily_limit
         Config.default_accuracy_level Config.default_max_tokens
         Config.default_temperature Config.default_response_format
         JsValues.lt JsValues.gt orb].
    rewrite !in_app_iff. cbn [Config.push_if In]. tauto. }
  split; [exact Hsub|].
  intros loaded Hload. unfold Config.loadConfig in *.
  destruct (Config.validateConfig config) eqn:Hv; [|discriminate Hload].
  destruct (Config.validateConfig (ConfigSamples.unreadable_numbers config))
    as [|msg rest]; [reflexivity|].
  destruct (Hsub msg (or_introl eq_refl)).
Qed.

Lemma unreadable_numbers_pass_validation_witness :
  outcome (Config.loadConfig ConfigSamples.default_server_config)
  = Returned ConfigSamples.default_server_config
  /\ outcome
       (Config.loadConfig
          (ConfigSamples.unreadable_numbers
             ConfigSamples.default_server_config))
     = Returned
         (ConfigSamples.unreadable_numbers
            ConfigSamples.default_server_config).
Proof.
  assert (H : outcome (Config.loadConfig ConfigSamples.default_server_config)
              = Returned ConfigSamples.default_server_config)
    by (vm_compute; reflexivity).
  split; [exact H|].
  destruct (unreadable_numbers_pass_validation
              ConfigSamples.default_server_config) as [_ Hload].
  exact (Hload _ H).
Defined.

(* ===================================================================== *)
(** * The text of a validation failure                                   *)
(* ===================================================================== *)

Lemma join_holds (sep x : jsstring) (xs : list jsstring) :
  In x xs -> exists before after, join sep xs = before ++ x ++ after.
Proof.
  induction xs as [|y ys IH]; [intros []|].
  intros [-> | H].
  - destruct ys as [|z ys].
    + exists [], []. cbn [join app]. rewrite app_nil_r. reflexivity.
    + exists [], (sep ++ join sep (z :: ys)). reflexivity.
  - destruct ys as [|z ys]; [destruct H|].
    destruct (IH H) as (b & a & Hj).
    exists (y ++ sep ++ b), a.
    change (join sep (y :: z :: ys)) with (y ++ sep ++ join sep (z :: ys)).
    rewrite Hj, <- !app_assoc. reflexivity.
Qed.

(** X23.  The answer to a rejected request names every validation error: for
    each of them the error text holds its field, a colon and its message;
    the failure is of type [validation_error], carries the request id and
    lists the same errors in [_meta]. *)
Theorem validation_failure_names_every_error
  (toLowerCase : jsstring -> jsstring)
  (responses_create : jsstring -> jsstring -> Outcome OpenAI.Response)
  (JSON_stringify_keys : OpenAI.Response -> jsstring)
  (generateExecutiveSummary : jsstring -> jsstring)
  (extractRelatedTopics : jsstring -> list jsstring)
  (client_now : N) (client_timestamp requestId : jsstring)
  (startTime endTime : Z) (handler_timestamp : jsstring)
  (request : DoDeepResearchRequest) (errors : list ValidationError) :
  outcome (validateResearchRequest toLowerCase request)
  = Returned (Invalid errors) ->
  exists body,
    outcome
      (handleDeepResearchRequest toLowerCase responses_create
         JSON_stringify_keys generateExecutiveSummary extractRelatedTopics
         client_now client_timestamp requestId startTime endTime
         handler_timestamp request)
    = Returned {| content_text := Failure body;
                  _meta := ValidationMeta requestId handler_timestamp errors |}
    /\ FailureEnvelope.error_type body = js "validation_error"
    /\ FailureEnvelope.request_id body = requestId
    /\ starts_with (js "Request validation failed: ")
         (FailureEnvelope.error body) = true
    /\ Forall
         (fun e =>
            includes (field e ++ js ": " ++ message e)
              (FailureEnvelope.error body) = true)
         errors.
Proof.
  intros Hv.
  rewrite (handle_rejected toLowerCase responses_create JSON_stringify_keys
             generateExecutiveSummary extractRelatedTopics client_now
             client_timestamp requestId startTime endTime handler_timestamp
             request errors Hv).
  cbn [outcome snd]. eexists. split; [reflexivity|].
  cbn [FailureEnvelope.error_type FailureEnvelope.request_id
       FailureEnvelope.error].
  split; [reflexivity|]. split; [reflexivity|].
  unfold validation_error_message. split; [apply starts_with_app|].
  apply List.Forall_forall. intros e He.
  destruct (join_holds (js ", ")
              (field e ++ js ": " ++ message e)
              (map (fun e => field e ++ js ": " ++ message e) errors))
    as (b & a & Hj).
  { apply in_map_iff. exists e. split; [reflexivity | exact He]. }
  rewrite Hj, (app_assoc (js "Request validation failed: ") b).
  apply includes_app.
Qed.

Lemma validation_failure_names_every_error_witness :
  exists errors body,
    outcome (validateResearchRequest Samples.ascii_toLowerCase
               Samples.frugal_request)
    = Returned (Invalid errors)
    /\ List.length errors = 2%nat
    /\ outcome
         (handleDeepResearchRequest Samples.ascii_toLowerCase
            MoreSamples.failing_api Samples.no_keys
            Samples.no_summary Samples.no_topics 1700000000000
            (js "2023-11-14T22:13:20.000Z") (js "req_1700000000000_k3j9x0q2a")
            1700000000000 1700000000250 (js "2023-11-14T22:13:20.250Z")
            Samples.frugal_request)
       = Returned
           {| content_text := Failure body;
              _meta :=
                ValidationMeta (js "req_1700000000000_k3j9x0q2a")
                  (js "2023-11-14T22:13:20.250Z") errors |}
    /\ FailureEnvelope.error_type body = js "validation_error".
Proof.
  destruct (validateResearchRequest_answers Samples.ascii_toLowerCase
              Samples.frugal_request) as ([v | errors] & Hv);
    [vm_compute in Hv; discriminate Hv|].
  destruct (validation_failure_names_every_error Samples.ascii_toLowerCase
              MoreSamples.failing_api Samples.no_keys
              Samples.no_summary Samples.no_topics 1700000000000
              (js "2023-11-14T22:13:20.000Z")
              (js "req_1700000000000_k3j9x0q2a")
              1700000000000 1700000000250 (js "2023-11-14T22:13:20.250Z")
              Samples.frugal_request errors Hv)
    as (body & Hout & Hty & _).
  exists errors, body. split; [exact Hv|]. split; [|split; assumption].
  vm_compute in Hv. injection Hv as <-. reflexivity.
Defined.

(* ===================================================================== *)
(** * The special-character rule                                         *)
(* ===================================================================== *)

(** On counts and lengths up to 2000 the comparison
    [count > length * 0.2], made on doubles, is the comparison
    [5 * count > length] on integers. *)
Lemma special_ratio_table :
  let numbers :=
    map (fun k => (N.of_nat k, N_to_number (N.of_nat k))) (seq 0 2001) in
  forallb
    (fun '(n, fn) =>
       let t := PrimFloat.mul fn 0x1.999999999999ap-3%float in
       forallb (fun '(c, fc) => Bool.eqb (gt fc t) (n <? 5 * c)) numbers)
    numbers = true.
Proof. vm_compute. reflexivity. Qed.

Lemma special_ratio_exact (count len : nat) :
  (count <= 2000)%nat -> (len <= 2000)%nat ->
  gt (nat_to_number count)
    (PrimFloat.mul (nat_to_number len) 0x1.999999999999ap-3%float)
  = Nat.ltb len (5 * count).
Proof.
  intros Hc Hl. pose proof special_ratio_table as H. cbv zeta in H.
  rewrite forallb_forall in H.
  assert (Hin : forall k, (k <= 2000)%nat ->
                  In (N.of_nat k, N_to_number (N.of_nat k))
                    (map (fun k => (N.of_nat k, N_to_number (N.of_nat k)))
                       (seq 0 2001))).
  { intros k Hk. apply in_map_iff. exists k. split; [reflexivity|].
    apply in_seq. lia. }
  specialize (H _ (Hin len Hl)). cbv beta iota zeta in H.
  rewrite forallb_forall in H. specialize (H _ (Hin count Hc)).
  cbv beta iota in H. apply Bool.eqb_prop in H.
  unfold nat_to_number. unfold N_to_number in H.
  rewrite !nat_N_Z in H. rewrite H.
  destruct (N.ltb_spec (N.of_nat len) (5 * N.of_nat count));
    destruct (Nat.ltb_spec len (5 * count)); try reflexivity; lia.
Qed.

Lemma content_safety_errors (query : jsstring) :
  errors_of (validateContentSafety query)
  = check (matches_dangerous query) security_error
    ++ check (gt (nat_to_number (specialCharCount query))
                (PrimFloat.mul (nat_to_number (List.length query))
                   0x1.999999999999ap-3%float))
         format_error
    ++ check (has_repetition query) spam_error.
Proof.
  unfold validateContentSafety. cbv zeta.
  destruct (check (matches_dangerous query) security_error ++ _);
    reflexivity.
Qed.

(** X24.  For a query of at most 2000 code units (longer ones do not get past
    the schema) the content-safety check reports the error of code
    [format] exactly when more than a fifth of the code units are special
    characters: the comparison the code makes on doubles is exact. *)
Theorem special_character_rule_exact (query : jsstring) :
  (List.length query <= 2000)%nat ->
  (In format_error (errors_of (validateContentSafety query))
   <-> (List.length query < 5 * specialCharCount query)%nat).
Proof.
  intros Hlen. rewrite content_safety_errors.
  assert (Hcount : (specialCharCount query <= 2000)%nat).
  { unfold specialCharCount.
    pose proof (List.filter_length_le is_special query). lia. }
  rewrite (special_ratio_exact _ _ Hcount Hlen).
  rewrite !in_app_iff. unfold check.
  destruct (Nat.ltb_spec (List.length query) (5 * specialCharCount query))
    as [Hlt | Hge].
  - split; [intros _; exact Hlt|]. intros _. right. left. left. reflexivity.
  - split; [|lia]. intros [H | [H | H]].
    + destruct (matches_dangerous query); [|destruct H].
      destruct H as [H | []]. vm_compute in H. discriminate H.
    + destruct H.
    + destruct (has_repetition query); [|destruct H].
      destruct H as [H | []]. vm_compute in H. discriminate H.
Qed.

Lemma special_character_rule_exact_witness :
  (List.length (js "{{{{[[[[]]]]}}}} what is this") <= 2000)%nat
  /\ In format_error
       (errors_of (validateContentSafety (js "{{{{[[[[]]]]}}}} what is this"))).
Proof.
  split; [vm_compute; lia|].
  apply (special_character_rule_exact (js "{{{{[[[[]]]]}}}} what is this"));
    vm_compute; lia.
Defined.

Lemma validateClientId_first_violation_witness :
  validateClientId (js "client-01.eu") = Valid (js "client-01.eu").
Proof.
  apply (validateClientId_first_violation (js "client-01.eu")).
  split; [vm_compute; lia | reflexivity].
Defined.
